(** * Object retention and bucket encryption of openstor-go

    A shallow embedding of the object retention file and of
    [api-bucket-encryption.go]: the retention document and its constructor
    [newObjectRetention], the five client calls, and the parts of Go's
    [time] and [encoding/xml] packages that the retention document goes
    through on its way to and from the wire. *)

From Stdlib Require Import ZArith Ascii String List Lia Bool.
From stdpp Require Import base option gmap strings list.

Local Open Scope Z_scope.

(** ** Outcomes

    A Go call returns, fails with an [error], or panics.  [Unmodelled] is the
    embedding's own answer: the input leaves the fragment of the standard
    library that is written out below, and nothing is said about it. *)

Inductive error : Type :=
| fmt_Errorf (format : string) (operand : option string)
| errors_New (text : string)
| io_EOF
| xml_SyntaxError (msg : string)
| xml_UnmarshalError (msg : string).

Inductive result (A : Type) : Type :=
| Ok (a : A)
| Err (e : error)
| Unmodelled.
Arguments Ok {A} a.
Arguments Err {A} e.
Arguments Unmodelled {A}.

#[global] Instance result_bind : MBind result := fun A B k r =>
  match r with
  | Ok a => k a
  | Err e => Err e
  | Unmodelled => Unmodelled
  end.

(** ** Bytes *)

Definition byte_of (c : ascii) : Z := Z.of_N (N_of_ascii c).
Definition char_of (n : Z) : ascii := ascii_of_N (Z.to_N n).

Definition isDigit (c : ascii) : bool := (48 <=? byte_of c) && (byte_of c <=? 57).

(** [s[i:j]] and [s[i:]] on a Go string or byte slice. *)
Definition slice (i j : nat) (s : string) : string := String.substring i (j - i) s.
Definition slice_from (i : nat) (s : string) : string :=
  String.substring i (String.length s - i) s.
Definition byte_at (i : nat) (s : string) : option ascii := String.get i s.
Definition is_byte (o : option ascii) (c : ascii) : bool :=
  match o with
  | Some c' => Ascii.eqb c' c
  | None => false
  end.

Fixpoint zeros (n : nat) : string :=
  match n with
  | O => ""
  | S k => String "0"%char (zeros k)
  end.

(** ** Package [time]

    A [Time] is an instant in UTC, held by the civil fields that
    [time.Date(year, month, day, hour, min, sec, nsec, time.UTC)] takes.  The
    values of the Go type are the records that satisfy [valid]. *)

Module time.

Record Time : Type := Date {
  Year : Z; Month : Z; Day : Z;
  Hour : Z; Minute : Z; Second : Z; Nanosecond : Z
}.

Definition isLeap (year : Z) : bool :=
  (Z.rem year 4 =? 0) && (negb (Z.rem year 100 =? 0) || (Z.rem year 400 =? 0)).

Definition daysIn (m year : Z) : Z :=
  if (m =? 2) && isLeap year then 29
  else if (m =? 2) then 28
  else if (m =? 4) || (m =? 6) || (m =? 9) || (m =? 11) then 30
  else 31.

Definition valid (t : Time) : bool :=
  (1 <=? Month t) && (Month t <=? 12) &&
  (1 <=? Day t) && (Day t <=? daysIn (Month t) (Year t)) &&
  (0 <=? Hour t) && (Hour t <=? 23) &&
  (0 <=? Minute t) && (Minute t <=? 59) &&
  (0 <=? Second t) && (Second t <=? 59) &&
  (0 <=? Nanosecond t) && (Nanosecond t <=? 999999999).

(** [IsZero]: the instant is January 1, year 1, 00:00:00 UTC. *)
Definition IsZero (t : Time) : bool :=
  (Year t =? 1) && (Month t =? 1) && (Day t =? 1) &&
  (Hour t =? 0) && (Minute t =? 0) && (Second t =? 0) && (Nanosecond t =? 0).

Definition digit (d : Z) : ascii := char_of (48 + d).

(** The [width] low decimal digits of [u], most significant first. *)
Fixpoint fixed (width : nat) (u : Z) : string :=
  match width with
  | O => ""
  | S w => fixed w (u / 10) +:+ String (digit (u mod 10)) ""
  end.

Fixpoint decimal_loop (fuel : nat) (u : Z) : string :=
  match fuel with
  | O => ""
  | S f =>
      if u <? 10 then String (digit u) ""
      else decimal_loop f (u / 10) +:+ String (digit (u mod 10)) ""
  end.

(** The decimal digits of [u >= 0] without leading zeros. *)
Definition decimal (u : Z) : string := decimal_loop (S (Z.to_nat (Z.log2 u))) u.

(** [appendInt(b, x, width)] without the buffer: the decimal form of [x],
    zero-padded to [width]. *)
Definition appendInt (x : Z) (width : nat) : string :=
  let u := Z.abs x in
  let sign := if x <? 0 then "-" else "" in
  if (Nat.eqb width 2 && (u <? 100)) || (Nat.eqb width 4 && (u <? 10000))
  then sign +:+ fixed width u
  else
    let ds := decimal u in
    sign +:+ zeros (width - String.length ds) +:+ ds.

Fixpoint trimRight0 (b : string) : string :=
  match b with
  | EmptyString => ""
  | String c r =>
      match trimRight0 r with
      | EmptyString => if Ascii.eqb c "0" then "" else String c ""
      | r' => String c r'
      end
  end.

(** [appendNano] for the layout [.999999999], on nanoseconds within
    [0, 999999999]: nothing for a whole second, else a period and the nine
    digits with the trailing zeros cut. *)
Definition appendNano (b : string) (nanosec : Z) : string :=
  if nanosec =? 0 then b
  else trimRight0 (b +:+ "." +:+ appendInt nanosec 9).

(** [appendFormatRFC3339(b, true)] of an instant in UTC. *)
Definition appendFormatRFC3339 (t : Time) : string :=
  let b := appendInt (Year t) 4 +:+ "-" +:+ appendInt (Month t) 2 +:+ "-"
           +:+ appendInt (Day t) 2 +:+ "T" +:+ appendInt (Hour t) 2 +:+ ":"
           +:+ appendInt (Minute t) 2 +:+ ":" +:+ appendInt (Second t) 2 in
  appendNano b (Nanosecond t) +:+ "Z".

(** [MarshalText] is [appendStrictRFC3339]: the year has to be four digits
    wide.  The check on the zone does not arise in UTC. *)
Definition MarshalText (t : Time) : result string :=
  let b := appendFormatRFC3339 t in
  if is_byte (byte_at 4 b) "-" then Ok b
  else Err (errors_New "Time.MarshalText: year outside of range [0,9999]").

(** The [parseUint] closure of [parseRFC3339]; [None] is [ok = false]. *)
Fixpoint parseUint_loop (s : string) (x : Z) : option Z :=
  match s with
  | EmptyString => Some x
  | String c r =>
      if isDigit c then parseUint_loop r (x * 10 + (byte_of c - 48)) else None
  end.

Definition parseUint (s : string) (min max : Z) : option Z :=
  match parseUint_loop s 0 with
  | Some x => if (x <? min) || (max <? x) then None else Some x
  | None => None
  end.

(** The number of leading digits of [s]. *)
Fixpoint digitsLen (s : string) : nat :=
  match s with
  | String c r => if isDigit c then S (digitsLen r) else O
  | EmptyString => O
  end.

(** [parseNanoseconds(value, nbytes)] on a period followed by [nbytes - 1]
    digits: at most nine digits count, and the value is scaled to
    nanoseconds. *)
Definition parseNanoseconds (value : string) (nbytes : nat) : Z :=
  let nbytes := Nat.min nbytes 10 in
  match parseUint_loop (slice 1 nbytes value) 0 with
  | Some ns => ns * 10 ^ Z.of_nat (10 - nbytes)
  | None => 0
  end.

(** [parseRFC3339]: [Ok] is the fast path accepting a UTC timestamp.  When
    the fast path accepts a numeric zone offset the result carries a
    location, and when it rejects, [UnmarshalText] hands the text to the
    layout-driven [Parse]; neither is written out here. *)
Definition parseRFC3339 (s : string) : result Time :=
  if (String.length s <? 19)%nat then Unmodelled
  else
    match
      year ← parseUint (slice 0 4 s) 0 9999;
      month ← parseUint (slice 5 7 s) 1 12;
      day ← parseUint (slice 8 10 s) 1 (daysIn month year);
      hour ← parseUint (slice 11 13 s) 0 23;
      min ← parseUint (slice 14 16 s) 0 59;
      sec ← parseUint (slice 17 19 s) 0 59;
      if is_byte (byte_at 4 s) "-" && is_byte (byte_at 7 s) "-" &&
         is_byte (byte_at 10 s) "T" && is_byte (byte_at 13 s) ":" &&
         is_byte (byte_at 16 s) ":"
      then Some (year, month, day, hour, min, sec) else None
    with
    | None => Unmodelled
    | Some (year, month, day, hour, min, sec) =>
        let s := slice_from 19 s in
        let '(nsec, s) :=
          if is_byte (byte_at 0 s) "." && (1 <=? digitsLen (slice_from 1 s))%nat
          then
            let n := S (digitsLen (slice_from 1 s)) in
            (parseNanoseconds s n, slice_from n s)
          else (0, s) in
        if String.eqb s "Z"
        then Ok (Date year month day hour min sec nsec)
        else Unmodelled
    end.

Definition UnmarshalText (data : string) : result Time := parseRFC3339 data.

End time.

(** ** Package [encoding/xml]: the tokenizer

    The strict decoder on documents made of elements, attributes,
    character data with the five predefined entities and processing
    instructions, the XML declaration among them, all in ASCII.  Comments,
    CDATA sections, directives, numeric character references and bytes from
    0x80 on are [Unmodelled].  A [SyntaxError] keeps its message and drops
    the line number. *)

Module xml.

Record Name : Type := mkName { Space : string; Local : string }.
Record Attr : Type := mkAttr { AttrName : Name; Value : string }.

Inductive Token : Type :=
| StartElement (name : Name) (attr : list Attr)
| EndElement (name : Name)
| CharData (data : string)
| ProcInst (target : string) (inst : string).

Definition syntaxError {A : Type} (msg : string) : result A :=
  Err (xml_SyntaxError msg).

Definition quot : ascii := char_of 34.
Definition NUL : ascii := char_of 0.
Definition TAB : ascii := char_of 9.
Definition LF : ascii := char_of 10.
Definition CR : ascii := char_of 13.

Definition isSpace (c : ascii) : bool :=
  Ascii.eqb c " " || Ascii.eqb c CR || Ascii.eqb c LF || Ascii.eqb c TAB.

Definition isLetter (c : ascii) : bool :=
  ((65 <=? byte_of c) && (byte_of c <=? 90)) ||
  ((97 <=? byte_of c) && (byte_of c <=? 122)).

Definition isNameByte (c : ascii) : bool :=
  isLetter c || isDigit c || Ascii.eqb c "_" || Ascii.eqb c ":" ||
  Ascii.eqb c "." || Ascii.eqb c "-".

Definition isHigh (c : ascii) : bool := 128 <=? byte_of c.

(** The ASCII rows of the tables [first] and [second] of [isName]. *)
Definition isFirst (c : ascii) : bool :=
  isLetter c || Ascii.eqb c "_" || Ascii.eqb c ":".
Definition isSecond (c : ascii) : bool :=
  isDigit c || Ascii.eqb c "." || Ascii.eqb c "-".

Fixpoint forall_bytes (p : ascii -> bool) (s : string) : bool :=
  match s with
  | EmptyString => true
  | String c r => p c && forall_bytes p r
  end.

Fixpoint exists_byte (p : ascii -> bool) (s : string) : bool :=
  match s with
  | EmptyString => false
  | String c r => p c || exists_byte p r
  end.

Definition isName (s : string) : bool :=
  match s with
  | EmptyString => false
  | String c r => isFirst c && forall_bytes (fun c => isFirst c || isSecond c) r
  end.

(** The bytes [readName] takes: the longest run of name bytes and bytes
    from 0x80 on, and what follows it. *)
Fixpoint name_span (s : string) : string * string :=
  match s with
  | EmptyString => ("", "")
  | String c r =>
      if isHigh c || isNameByte c
      then let '(n, rest) := name_span r in (String c n, rest)
      else ("", s)
  end.

(** [d.name()]: [Ok (None, _)] is [ok = false] with no error recorded. *)
Definition name (s : string) : result (option string * string) :=
  let '(n, rest) := name_span s in
  match rest, n with
  | EmptyString, _ => syntaxError "unexpected EOF"
  | _, EmptyString => Ok (None, s)
  | _, _ =>
      if exists_byte isHigh n then Unmodelled
      else if isName n then Ok (Some n, rest)
      else syntaxError ("invalid XML name: " +:+ n)
  end.

Fixpoint count_colon (s : string) : nat :=
  match s with
  | EmptyString => O
  | String c r => ((if Ascii.eqb c ":" then 1 else 0) + count_colon r)%nat
  end.

(** [strings.Cut(s, ":")]. *)
Fixpoint cut_colon (s : string) : option (string * string) :=
  match s with
  | EmptyString => None
  | String c r =>
      if Ascii.eqb c ":" then Some ("", r)
      else match cut_colon r with
           | Some (a, b) => Some (String c a, b)
           | None => None
           end
  end.

Definition nsname (s : string) : result (option Name * string) :=
  '(o, rest) ← name s;
  match o with
  | None => Ok (None, rest)
  | Some n =>
      if (1 <? count_colon n)%nat then Ok (None, rest)
      else match cut_colon n with
           | Some (String a sp, String b lo) =>
               Ok (Some (mkName (String a sp) (String b lo)), rest)
           | _ => Ok (Some (mkName "" n), rest)
           end
  end.

Fixpoint space (s : string) : string :=
  match s with
  | String c r => if isSpace c then space r else s
  | EmptyString => ""
  end.

(** The table [entity]. *)
Definition entity (n : string) : option string :=
  if String.eqb n "lt" then Some "<"
  else if String.eqb n "gt" then Some ">"
  else if String.eqb n "amp" then Some "&"
  else if String.eqb n "apos" then Some "'"
  else if String.eqb n "quot" then Some (String quot "")
  else None.

(** What follows an ampersand in [d.text]: the replacement text and the
    number of bytes read. *)
Definition reference (s : string) : result (string * nat) :=
  match s with
  | EmptyString => syntaxError "unexpected EOF"
  | String "#" _ => Unmodelled
  | _ =>
      let '(n, rest) := name_span s in
      match rest with
      | EmptyString => syntaxError "unexpected EOF"
      | String ";" _ =>
          match (if isName n then entity n else None) with
          | Some text => Ok (text, S (String.length n))
          | None => syntaxError ("invalid character entity &" +:+ n +:+ ";")
          end
      | _ => syntaxError ("invalid character entity &" +:+ n +:+ " (no semicolon)")
      end
  end.

(** The loop of [d.text(quote, false)].  [b0] and [b1] are the two bytes
    read last; [skip] counts the bytes of a reference still to pass. *)
Fixpoint text_loop (quote : option ascii) (skip : nat) (b0 b1 : ascii)
    (s : string) : result (string * string) :=
  match s with
  | EmptyString => Ok ("", "")
  | String b r =>
      match skip with
      | S k => text_loop quote k b0 b1 r
      | O =>
          if Ascii.eqb b0 "]" && Ascii.eqb b1 "]" && Ascii.eqb b ">"
          then syntaxError "unescaped ]]> not in CDATA section"
          else if Ascii.eqb b "<" then
            match quote with
            | Some _ => syntaxError "unescaped < inside quoted string"
            | None => Ok ("", s)
            end
          else if is_byte quote b then Ok ("", r)
          else if Ascii.eqb b "&" then
            '(txt, n) ← reference r;
            '(d, rest) ← text_loop quote n NUL NUL r;
            Ok (txt +:+ d, rest)
          else
            '(d, rest) ← text_loop quote 0 b1 b r;
            Ok (if Ascii.eqb b CR then String LF d
                else if Ascii.eqb b1 CR && Ascii.eqb b LF then d
                else String b d, rest)
      end
  end.

Definition hexDigit (n : Z) : ascii :=
  if n <? 10 then char_of (48 + n) else char_of (55 + n).

(** The closing pass of [d.text] over the bytes it collected. *)
Fixpoint check_data (data : string) : result unit :=
  match data with
  | EmptyString => Ok tt
  | String c r =>
      if isHigh c then Unmodelled
      else if (byte_of c <? 32) &&
              negb (Ascii.eqb c TAB || Ascii.eqb c LF || Ascii.eqb c CR)
      then syntaxError ("illegal character code U+00" +:+
             String (hexDigit (byte_of c / 16)) (String (hexDigit (byte_of c mod 16)) ""))
      else check_data r
  end.

Definition text (quote : option ascii) (s : string) : result (string * string) :=
  '(data, rest) ← text_loop quote 0 NUL NUL s;
  _ ← check_data data;
  Ok (data, rest).

(** One attribute, [name = "value"], at the head of [s]. *)
Definition attribute (s : string) : result (Attr * string) :=
  '(o, s1) ← nsname s;
  match o with
  | None => syntaxError "expected attribute name in element"
  | Some n =>
      match space s1 with
      | EmptyString => syntaxError "unexpected EOF"
      | String "=" s2 =>
          match space s2 with
          | EmptyString => syntaxError "unexpected EOF"
          | String q s3 =>
              if Ascii.eqb q quot || Ascii.eqb q "'" then
                '(data, rest) ← text (Some q) s3;
                Ok (mkAttr n data, rest)
              else syntaxError "unquoted or missing attribute value in element"
          end
      | String _ _ => syntaxError "attribute name without = in element"
      end
  end.

(** The attribute loop of [rawToken]: the attributes, whether the element
    closes itself, and the input after the tag. *)
Fixpoint attributes (skip : nat) (s : string) : result (list Attr * bool * string) :=
  match s with
  | EmptyString => syntaxError "unexpected EOF"
  | String b r =>
      match skip with
      | S k => attributes k r
      | O =>
          if isSpace b then attributes 0 r
          else if Ascii.eqb b "/" then
            match r with
            | EmptyString => syntaxError "unexpected EOF"
            | String c r' =>
                if Ascii.eqb c ">" then Ok ([], true, r')
                else syntaxError "expected /> in element"
            end
          else if Ascii.eqb b ">" then Ok ([], false, r)
          else
            '(a, rest) ← attribute s;
            '(l, empty, rest') ←
              attributes (String.length s - String.length rest - 1) r;
            Ok (a :: l, empty, rest')
      end
  end.

(** The loop of [rawToken] over a processing instruction: the bytes read,
    up to and with the closing [?>], and the input after them.  [b0] is
    the byte read before. *)
Fixpoint inst_loop (b0 : ascii) (s : string) : option (string * string) :=
  match s with
  | EmptyString => None
  | String b r =>
      if Ascii.eqb b0 "?" && Ascii.eqb b ">" then Some (String b "", r)
      else
        match inst_loop b r with
        | Some (d, rest) => Some (String b d, rest)
        | None => None
        end
  end.

(** [strings.IndexByte]. *)
Fixpoint IndexByte (s : string) (c : ascii) : option nat :=
  match s with
  | EmptyString => None
  | String b r =>
      if Ascii.eqb b c then Some O
      else
        match IndexByte r c with
        | Some j => Some (S j)
        | None => None
        end
  end.

(** [procInst(param, s)]: the value of [param="..."] or [param='...'] in
    [s], empty when there is none.  The first [param=] decides, unless the
    byte behind it is not a quote and a further [param=] follows: that
    case is not written out. *)
Definition procInst (param s : string) : result string :=
  let param := param +:+ "=" in
  match String.index 0 param s with
  | None => Ok ""
  | Some k =>
      match slice_from (k + String.length param) s with
      | EmptyString => Ok ""
      | String c v =>
          if Ascii.eqb c "'" || Ascii.eqb c quot then
            match IndexByte v c with
            | Some j => Ok (String.substring 0 j v)
            | None => Ok ""
            end
          else
            match String.index 0 param v with
            | None => Ok ""
            | Some _ => Unmodelled
            end
      end
  end.

Definition toLower (c : ascii) : ascii :=
  if (65 <=? byte_of c) && (byte_of c <=? 90) then char_of (byte_of c + 32) else c.

Fixpoint lower (s : string) : string :=
  match s with
  | EmptyString => ""
  | String c r => String (toLower c) (lower r)
  end.

(** [strings.EqualFold(s, t)] for [t] in lower case ASCII without [k] and
    [s], the two letters that runes outside ASCII fold to. *)
Definition EqualFold (s t : string) : bool := String.eqb (lower s) t.

(** The processing instruction behind [<?]: the target, the bytes up to
    [?>], and for the target [xml] the checks of the version and of the
    encoding, on a decoder without a [CharsetReader].  The two errors of
    these checks are made by [fmt.Errorf] with the verb [%q]; they keep
    the format and the operand. *)
Definition procInstToken (s : string) : result (list Token * string) :=
  '(o, s1) ← name s;
  match o with
  | None => syntaxError "expected target name after <?"
  | Some target =>
      match inst_loop NUL (space s1) with
      | None => syntaxError "unexpected EOF"
      | Some (buf, rest) =>
          let data := String.substring 0 (String.length buf - 2) buf in
          if String.eqb target "xml" then
            ver ← procInst "version" data;
            if negb (String.eqb ver "") && negb (String.eqb ver "1.0")
            then Err (fmt_Errorf
                        "xml: unsupported version %q; only version 1.0 is supported"
                        (Some ver))
            else
              enc ← procInst "encoding" data;
              if negb (String.eqb enc "") && negb (String.eqb enc "utf-8") &&
                 negb (String.eqb enc "UTF-8") && negb (EqualFold enc "utf-8")
              then Err (fmt_Errorf
                          "xml: encoding %q declared but Decoder.CharsetReader is nil"
                          (Some enc))
              else Ok ([ProcInst target data], rest)
          else Ok ([ProcInst target data], rest)
      end
  end.

(** [rawToken] on input that is not at its end.  An element that closes
    itself gives its start and its end at once. *)
Definition rawToken (s : string) : result (list Token * string) :=
  match s with
  | EmptyString => Err io_EOF
  | String b s0 =>
      if negb (Ascii.eqb b "<") then
        '(data, rest) ← text None s;
        Ok ([CharData data], rest)
      else
        match s0 with
        | EmptyString => syntaxError "unexpected EOF"
        | String b s1 =>
            if Ascii.eqb b "/" then
              '(o, s2) ← nsname s1;
              match o with
              | None => syntaxError "expected element name after </"
              | Some n =>
                  match space s2 with
                  | EmptyString => syntaxError "unexpected EOF"
                  | String c rest =>
                      if Ascii.eqb c ">" then Ok ([EndElement n], rest)
                      else syntaxError ("invalid characters between </" +:+
                                        Local n +:+ " and >")
                  end
              end
            else if Ascii.eqb b "?" then procInstToken s1
            else if Ascii.eqb b "!" then Unmodelled
            else
              '(o, s2) ← nsname s0;
              match o with
              | None => syntaxError "expected element name after <"
              | Some n =>
                  '(attr, empty, rest) ← attributes 0 s2;
                  Ok (if empty : bool then [StartElement n attr; EndElement n]
                      else [StartElement n attr], rest)
              end
        end
  end.

(** How a token stream ends: at the end of the input, with an error, or
    where the embedding stops. *)
Inductive Ending : Type :=
| AtEOF
| Failed (e : error)
| Beyond.

(** The raw tokens of [s] in order, up to the first that cannot be read.
    [skip] counts the bytes of the last token still to pass. *)
Fixpoint tokens_from (skip : nat) (s : string) : list Token * Ending :=
  match s with
  | EmptyString => ([], AtEOF)
  | String _ r =>
      match skip with
      | S k => tokens_from k r
      | O =>
          match rawToken s with
          | Ok (ts, rest) =>
              let '(l, e) :=
                tokens_from (String.length s - String.length rest - 1) r in
              (ts ++ l, e)
          | Err e => ([], Failed e)
          | Unmodelled => ([], Beyond)
          end
      end
  end.

Definition rawTokens (s : string) : list Token * Ending := tokens_from 0 s.

(** *** [Decoder.Token]: the element stack and the name spaces

    A [frame] is an open element: its name as written, and the bindings
    its attributes replaced, the latest first. *)

Record frame : Type := mkFrame {
  open : Name;
  saved : list (string * option string)
}.

Definition xmlURL : string := "http://www.w3.org/XML/1998/namespace".

Definition declare (st : gmap string string * list (string * option string))
    (a : Attr) : gmap string string * list (string * option string) :=
  let '(ns, undo) := st in
  let n := AttrName a in
  if String.eqb (Space n) "xmlns"
  then (<[Local n := Value a]> ns, (Local n, ns !! Local n) :: undo)
  else if String.eqb (Space n) "" && String.eqb (Local n) "xmlns"
  then (<["" := Value a]> ns, ("", ns !! "") :: undo)
  else (ns, undo).

Definition restore (ns : gmap string string) (u : string * option string)
    : gmap string string :=
  match u.2 with
  | Some v => <[u.1 := v]> ns
  | None => delete u.1 ns
  end.

(** [d.translate(n, isElementName)] with an empty [DefaultSpace]. *)
Definition translate (ns : gmap string string) (n : Name) (isElementName : bool)
    : Name :=
  if String.eqb (Space n) "xmlns" then n
  else if String.eqb (Space n) "" && negb isElementName then n
  else if String.eqb (Space n) "" && String.eqb (Local n) "xmlns" then n
  else
    let sp := if String.eqb (Space n) "xml" then xmlURL else Space n in
    match ns !! sp with
    | Some v => mkName v (Local n)
    | None => mkName sp (Local n)
    end.

Definition closes (f : frame) (n : Name) : result unit :=
  if negb (String.eqb (Local (open f)) (Local n)) then
    syntaxError ("element <" +:+ Local (open f) +:+ "> closed by </" +:+
                 Local n +:+ ">")
  else if negb (String.eqb (Space (open f)) (Space n)) then
    syntaxError ("element <" +:+ Local (open f) +:+ "> in space " +:+
                 Space (open f) +:+ " closed by </" +:+ Local n +:+
                 "> in space " +:+
                 (if String.eqb (Space n) "" then String quot (String quot "")
                  else Space n))
  else Ok tt.

(** The tokens [Decoder.Token] hands out for the raw tokens [raw]. *)
Fixpoint Tokens (stk : list frame) (ns : gmap string string)
    (raw : list Token) (e : Ending) : list Token * Ending :=
  match raw with
  | [] =>
      match e, stk with
      | AtEOF, _ :: _ => ([], Failed (xml_SyntaxError "unexpected EOF"))
      | _, _ => ([], e)
      end
  | StartElement n attr :: r =>
      let '(ns', undo) := foldl declare (ns, []) attr in
      let t := StartElement (translate ns' n true)
                 (map (fun a => mkAttr (translate ns' (AttrName a) false) (Value a))
                      attr) in
      let '(l, e') := Tokens (mkFrame n undo :: stk) ns' r e in
      (t :: l, e')
  | EndElement n :: r =>
      match stk with
      | [] => ([], Failed (xml_SyntaxError
                 ("unexpected end element </" +:+ Local n +:+ ">")))
      | f :: stk' =>
          match closes f n with
          | Ok _ =>
              let '(l, e') := Tokens stk' (foldl restore ns (saved f)) r e in
              (EndElement (translate ns n true) :: l, e')
          | Err err => ([], Failed err)
          | Unmodelled => ([], Beyond)
          end
      end
  | CharData d :: r =>
      let '(l, e') := Tokens stk ns r e in (CharData d :: l, e')
  | ProcInst target inst :: r =>
      let '(l, e') := Tokens stk ns r e in (ProcInst target inst :: l, e')
  end.

(** The token stream of a fresh [NewDecoder] over [s]. *)
Definition NewDecoder (s : string) : list Token * Ending :=
  let '(raw, e) := rawTokens s in Tokens [] ∅ raw e.

Definition ended {A : Type} (e : Ending) : result A :=
  match e with
  | AtEOF => Err io_EOF
  | Failed err => Err err
  | Beyond => Unmodelled
  end.

(** *** [EscapeText] and [EscapeString] *)

Definition escape (c : ascii) : result string :=
  if Ascii.eqb c quot then Ok "&#34;"
  else if Ascii.eqb c "'" then Ok "&#39;"
  else if Ascii.eqb c "&" then Ok "&amp;"
  else if Ascii.eqb c "<" then Ok "&lt;"
  else if Ascii.eqb c ">" then Ok "&gt;"
  else if Ascii.eqb c TAB then Ok "&#x9;"
  else if Ascii.eqb c LF then Ok "&#xA;"
  else if Ascii.eqb c CR then Ok "&#xD;"
  else if isHigh c then Unmodelled
  else if byte_of c <? 32
  then Ok (String (char_of 239) (String (char_of 191) (String (char_of 189) "")))
  else Ok (String c "").

Fixpoint EscapeText (s : string) : result string :=
  match s with
  | EmptyString => Ok ""
  | String c r =>
      e ← escape c;
      er ← EscapeText r;
      Ok (e +:+ er)
  end.

End xml.

(** ** The retention document *)

(** Modelled from the spec: the type [RetentionMode] is declared in a file
    of the repository that is not among the sources.  The data model gives
    the mode as an enumerated value; the sources use it as a string type,
    whose zero value is the empty string. *)
Abbreviation RetentionMode := string (only parsing).

(** Modelled from the spec: the two values of [RetentionMode], which the
    data model and the wire format name [GOVERNANCE] and [COMPLIANCE]. *)
Definition Governance : RetentionMode := "GOVERNANCE".
Definition Compliance : RetentionMode := "COMPLIANCE".

(** Modelled from the spec: the method [IsValid] of [RetentionMode], which
    the sources call and do not define.  By the data model a mode is one of
    the two values and no other value is valid. *)
Definition IsValid (r : RetentionMode) : bool :=
  String.eqb r Governance || String.eqb r Compliance.

(** A pointer is [None] when nil, and else [Some] of what it points at. *)
Record objectRetention : Type := mkObjectRetention {
  XMLNS : string;
  XMLName : xml.Name;
  Mode : RetentionMode;
  RetainUntilDate : option time.Time
}.

(** [&objectRetention{}]. *)
Definition zeroObjectRetention : objectRetention :=
  mkObjectRetention "" (xml.mkName "" "") "" None.

(** The text of the error depends on the address held by [mode], which is
    printed by the verb; the error keeps the format and the pointer. *)
Definition newObjectRetention (mode : option RetentionMode)
    (date : option time.Time) : option objectRetention * option error :=
  let objectRetention := zeroObjectRetention in
  let objectRetention :=
    match date with
    | Some d =>
        if negb (time.IsZero d)
        then mkObjectRetention (XMLNS objectRetention) (XMLName objectRetention)
               (Mode objectRetention) date
        else objectRetention
    | None => objectRetention
    end in
  match mode with
  | Some m =>
      if negb (IsValid m)
      then (None, Some (fmt_Errorf "invalid retention mode `%v`" mode))
      else (Some (mkObjectRetention (XMLNS objectRetention)
                    (XMLName objectRetention) m
                    (RetainUntilDate objectRetention)), None)
  | None => (Some objectRetention, None)
  end.

(** [xml.Marshal(retention)], as the field tags of [objectRetention] direct
    it: the element is named by the tag of [XMLName], [XMLNS] is an
    attribute, [Mode] and [RetainUntilDate] are child elements, and each of
    the three is left out when empty.  A nil pointer marshals to nothing. *)
Definition xml_Marshal (v : option objectRetention) : result string :=
  match v with
  | None => Ok ""
  | Some v =>
      attr ← (if String.eqb (XMLNS v) "" then Ok ""
              else e ← xml.EscapeText (XMLNS v);
                   Ok (" xmlns=" +:+ String xml.quot e +:+ String xml.quot ""));
      mode ← (if String.eqb (Mode v) "" then Ok ""
              else e ← xml.EscapeText (Mode v);
                   Ok ("<Mode>" +:+ e +:+ "</Mode>"));
      date ← match RetainUntilDate v with
              | None => Ok ""
              | Some t =>
                  text ← time.MarshalText t;
                  e ← xml.EscapeText text;
                  Ok ("<RetainUntilDate>" +:+ e +:+ "</RetainUntilDate>")
              end;
      Ok ("<Retention" +:+ attr +:+ ">" +:+ mode +:+ date +:+ "</Retention>")
  end.

(** Where [Decoder.unmarshal] stands inside the [Retention] element: in the
    element loop of the struct, in that of the string field [Mode], in
    [unmarshalTextInterface] for [RetainUntilDate], or in [d.Skip()] under
    one of the two loops. *)
Inductive place : Type :=
| atRoot
| inMode (data : string)
| inModeSkip (data : string) (depth : nat)
| inDate (buf : string) (depth : nat)
| inSkip (depth : nat).

Definition setMode (v : objectRetention) (m : RetentionMode) : objectRetention :=
  mkObjectRetention (XMLNS v) (XMLName v) m (RetainUntilDate v).
Definition setRetainUntilDate (v : objectRetention) (t : time.Time) : objectRetention :=
  mkObjectRetention (XMLNS v) (XMLName v) (Mode v) (Some t).
Definition setAttr (v : objectRetention) (a : xml.Attr) : objectRetention :=
  if String.eqb (xml.Local (xml.AttrName a)) "xmlns"
  then mkObjectRetention (xml.Value a) (XMLName v) (Mode v) (RetainUntilDate v)
  else v.

Fixpoint unmarshal_children (v : objectRetention) (p : place)
    (toks : list xml.Token) (e : xml.Ending) : result objectRetention :=
  match toks with
  | [] => xml.ended e
  | t :: r =>
      match p, t with
      | atRoot, xml.StartElement n _ =>
          if String.eqb (xml.Local n) "Mode" then unmarshal_children v (inMode "") r e
          else if String.eqb (xml.Local n) "RetainUntilDate"
          then unmarshal_children v (inDate "" 1) r e
          else unmarshal_children v (inSkip 0) r e
      | atRoot, xml.EndElement _ => Ok v
      | atRoot, xml.CharData _ => unmarshal_children v atRoot r e
      | inMode data, xml.StartElement _ _ => unmarshal_children v (inModeSkip data 0) r e
      | inMode data, xml.EndElement _ => unmarshal_children (setMode v data) atRoot r e
      | inMode data, xml.CharData d => unmarshal_children v (inMode (data +:+ d)) r e
      | inModeSkip data depth, xml.StartElement _ _ =>
          unmarshal_children v (inModeSkip data (S depth)) r e
      | inModeSkip data O, xml.EndElement _ => unmarshal_children v (inMode data) r e
      | inModeSkip data (S depth), xml.EndElement _ =>
          unmarshal_children v (inModeSkip data depth) r e
      | inModeSkip data depth, xml.CharData _ =>
          unmarshal_children v (inModeSkip data depth) r e
      | inDate buf depth, xml.StartElement _ _ =>
          unmarshal_children v (inDate buf (S depth)) r e
      | inDate buf depth, xml.EndElement _ =>
          match depth with
          | S (S d) => unmarshal_children v (inDate buf (S d)) r e
          | _ =>
              match time.UnmarshalText buf with
              | Ok t => unmarshal_children (setRetainUntilDate v t) atRoot r e
              | Err err => Err err
              | Unmodelled => Unmodelled
              end
          end
      | inDate buf depth, xml.CharData d =>
          unmarshal_children v
            (inDate (if Nat.eqb depth 1 then buf +:+ d else buf) depth) r e
      | inSkip depth, xml.StartElement _ _ => unmarshal_children v (inSkip (S depth)) r e
      | inSkip O, xml.EndElement _ => unmarshal_children v atRoot r e
      | inSkip (S depth), xml.EndElement _ => unmarshal_children v (inSkip depth) r e
      | inSkip depth, xml.CharData _ => unmarshal_children v (inSkip depth) r e
      | _, xml.ProcInst _ _ => unmarshal_children v p r e
      end
  end.

(** [Decoder.unmarshal] into [v]: pass what precedes the first start
    element, check its name against the tag of [XMLName], store the name and
    the attributes, then run the element loop. *)
Fixpoint unmarshal (v : objectRetention) (toks : list xml.Token) (e : xml.Ending)
    : result objectRetention :=
  match toks with
  | [] => xml.ended e
  | xml.StartElement n attr :: r =>
      if negb (String.eqb (xml.Local n) "Retention")
      then Err (xml_UnmarshalError ("expected element type <Retention> but have <"
                                    +:+ xml.Local n +:+ ">"))
      else
        let v := mkObjectRetention (XMLNS v) n (Mode v) (RetainUntilDate v) in
        unmarshal_children (foldl setAttr v attr) atRoot r e
  | _ :: r => unmarshal v r e
  end.

(** [xml.NewDecoder(body).Decode(v)], giving [v] as the call leaves it. *)
Definition xml_Decode (body : string) (v : objectRetention) : result objectRetention :=
  let '(toks, e) := xml.NewDecoder body in unmarshal v toks e.

(** ** Requests and responses *)

(** [requestMetadata], with the fields the two files set.  [url.Values] and
    [http.Header] are maps from a key to its list of values; a reader over
    bytes is the bytes, and [None] where no body is given. *)
Record requestMetadata : Type := mkRequestMetadata {
  bucketName : string;
  objectName : string;
  queryValues : gmap string (list string);
  contentBody : option string;
  contentLength : Z;
  contentMD5Base64 : string;
  contentSHA256Hex : string;
  customHeader : gmap string (list string)
}.

(** [http.Response]: the status code and the bytes of the body. *)
Record Response : Type := mkResponse {
  StatusCode : Z;
  Body : string
}.

Record PutObjectRetentionOptions : Type := mkPutObjectRetentionOptions {
  GovernanceBypass : bool;
  opts_Mode : option RetentionMode;
  opts_RetainUntilDate : option time.Time;
  VersionID : string
}.

(** A call returns its results, panics, or leaves the embedding. *)
Inductive outcome (A : Type) : Type :=
| Returns (a : A)
| Panics
| Outside.
Arguments Returns {A} a.
Arguments Panics {A}.
Arguments Outside {A}.

Definition http_MethodGet : string := "GET".
Definition http_MethodPut : string := "PUT".
Definition http_MethodDelete : string := "DELETE".
Definition http_StatusOK : Z := 200.
Definition http_StatusNoContent : Z := 204.

(** ** Collaborators *)

(** The collaborators, which the two files use and do not define: the
    transport with the state of the remote store, the name validators, the
    name of the bypass header and the digest of the empty body, the two
    digests, the canonical form of a header key, the constructor of the
    invalid-argument error, the reading of a response as a service error,
    and the encryption configuration with its encoder and decoder.
    [httpRespToErrorResponse] returns a Go [error], which is nil when the
    helper finds no error in the response. *)
Class Collaborators (Context_ world sse_Configuration : Type) : Type := {
  transport :
    Context_ -> string -> requestMetadata -> world ->
    (option Response * option error) * world;
  CheckValidBucketName : string -> option error;
  CheckValidObjectName : string -> option error;
  amzBypassGovernance : string;
  emptySHA256Hex : string;
  sumMD5Base64 : string -> string;
  sum256Hex : string -> string;
  CanonicalMIMEHeaderKey : string -> string;
  httpRespToErrorResponse : Response -> string -> string -> option error;
  errInvalidArgument : string -> error;
  sse_Marshal : sse_Configuration -> result string;
  sse_Decode : string -> result sse_Configuration
}.


(** ** The client calls *)

Section Client.

Context `{Env : Collaborators Context_ world sse_Configuration}.

(** The client: the requests handed to the transport so far, the oldest
    first, and the state of the remote store. *)
Record Client : Type := mkClient {
  sent : list (string * requestMetadata);
  remote : world
}.

Definition executeMethod (c : Client) (ctx : Context_) (method : string)
    (metadata : requestMetadata)
    : (option Response * option error) * Client :=
  let '(r, w) := transport ctx method metadata (remote c) in
  (r, mkClient (sent c ++ [(method, metadata)]) w).

Definition url_Values_Set (k v : string) (m : gmap string (list string))
    : gmap string (list string) := <[k := [v]]> m.

Definition Header_Set (k v : string) (h : gmap string (list string))
    : gmap string (list string) := <[CanonicalMIMEHeaderKey k := [v]]> h.

Definition Header_Values (k : string) (h : gmap string (list string))
    : option (list string) := h !! CanonicalMIMEHeaderKey k.

Definition int64_len (data : string) : Z := Z.of_nat (String.length data).

(** [PutObjectRetention]; the deferred [closeResponse] only drains and
    closes the body. *)
Definition PutObjectRetention (c : Client) (ctx : Context_)
    (bucketName objectName : string) (opts : PutObjectRetentionOptions)
    : outcome (option error) * Client :=
  match CheckValidBucketName bucketName with
  | Some err => (Returns (Some err), c)
  | None =>
  match CheckValidObjectName objectName with
  | Some err => (Returns (Some err), c)
  | None =>
    let urlValues : gmap string (list string) := ∅ in
    let urlValues := url_Values_Set "retention" "" urlValues in
    let urlValues :=
      if negb (String.eqb (VersionID opts) "")
      then url_Values_Set "versionId" (VersionID opts) urlValues
      else urlValues in
    let '(retention, err) :=
      newObjectRetention (opts_Mode opts) (opts_RetainUntilDate opts) in
    match err with
    | Some err => (Returns (Some err), c)
    | None =>
    match xml_Marshal retention with
    | Unmodelled => (Outside, c)
    | Err err => (Returns (Some err), c)
    | Ok retentionData =>
      let headers : gmap string (list string) := ∅ in
      let headers :=
        if GovernanceBypass opts
        then Header_Set amzBypassGovernance "true" headers
        else headers in
      let reqMetadata :=
        mkRequestMetadata bucketName objectName urlValues
          (Some retentionData) (int64_len retentionData)
          (sumMD5Base64 retentionData) (sum256Hex retentionData) headers in
      let '((resp, err), c) := executeMethod c ctx http_MethodPut reqMetadata in
      match err with
      | Some err => (Returns (Some err), c)
      | None =>
          match resp with
          | Some resp =>
              if negb (StatusCode resp =? http_StatusOK) &&
                 negb (StatusCode resp =? http_StatusNoContent)
              then (Returns (httpRespToErrorResponse resp bucketName objectName), c)
              else (Returns None, c)
          | None => (Returns None, c)
          end
      end
    end
    end
  end
  end.

(** [GetObjectRetention]: the mode pointer, the date pointer and the
    error.  With no response and no error the read of [resp.Body] is a
    nil dereference. *)
Definition GetObjectRetention (c : Client) (ctx : Context_)
    (bucketName objectName versionID : string)
    : outcome (option RetentionMode * option time.Time * option error) * Client :=
  match CheckValidBucketName bucketName with
  | Some err => (Returns (None, None, Some err), c)
  | None =>
  match CheckValidObjectName objectName with
  | Some err => (Returns (None, None, Some err), c)
  | None =>
    let urlValues : gmap string (list string) := ∅ in
    let urlValues := url_Values_Set "retention" "" urlValues in
    let urlValues :=
      if negb (String.eqb versionID "")
      then url_Values_Set "versionId" versionID urlValues
      else urlValues in
    let '((resp, err), c) :=
      executeMethod c ctx http_MethodGet
        (mkRequestMetadata bucketName objectName urlValues None 0 ""
           emptySHA256Hex ∅) in
    match err with
    | Some err => (Returns (None, None, Some err), c)
    | None =>
        match resp with
        | Some resp =>
            if negb (StatusCode resp =? http_StatusOK)
            then (Returns (None, None,
                    httpRespToErrorResponse resp bucketName objectName), c)
            else
              let retention := zeroObjectRetention in
              match xml_Decode (Body resp) retention with
              | Unmodelled => (Outside, c)
              | Err err => (Returns (None, None, Some err), c)
              | Ok retention =>
                  (Returns (Some (Mode retention), RetainUntilDate retention, None), c)
              end
        | None => (Panics, c)
        end
    end
  end
  end.

(** [SetBucketEncryption]; [config] is a pointer. *)
Definition SetBucketEncryption (c : Client) (ctx : Context_)
    (bucketName : string) (config : option sse_Configuration)
    : outcome (option error) * Client :=
  match CheckValidBucketName bucketName with
  | Some err => (Returns (Some err), c)
  | None =>
  match config with
  | None => (Returns (Some (errInvalidArgument "configuration cannot be empty")), c)
  | Some config =>
    match sse_Marshal config with
    | Unmodelled => (Outside, c)
    | Err err => (Returns (Some err), c)
    | Ok buf =>
      let urlValues : gmap string (list string) := ∅ in
      let urlValues := url_Values_Set "encryption" "" urlValues in
      let reqMetadata :=
        mkRequestMetadata bucketName "" urlValues (Some buf) (int64_len buf)
          (sumMD5Base64 buf) "" ∅ in
      let '((resp, err), c) := executeMethod c ctx http_MethodPut reqMetadata in
      match err with
      | Some err => (Returns (Some err), c)
      | None =>
          match resp with
          | Some resp =>
              if negb (StatusCode resp =? http_StatusOK)
              then (Returns (httpRespToErrorResponse resp bucketName ""), c)
              else (Returns None, c)
          | None => (Panics, c)
          end
      end
    end
  end
  end.

Definition RemoveBucketEncryption (c : Client) (ctx : Context_)
    (bucketName : string) : outcome (option error) * Client :=
  match CheckValidBucketName bucketName with
  | Some err => (Returns (Some err), c)
  | None =>
    let urlValues : gmap string (list string) := ∅ in
    let urlValues := url_Values_Set "encryption" "" urlValues in
    let '((resp, err), c) :=
      executeMethod c ctx http_MethodDelete
        (mkRequestMetadata bucketName "" urlValues None 0 "" emptySHA256Hex ∅) in
    match err with
    | Some err => (Returns (Some err), c)
    | None =>
        match resp with
        | Some resp =>
            if negb (StatusCode resp =? http_StatusOK) &&
               negb (StatusCode resp =? http_StatusNoContent)
            then (Returns (httpRespToErrorResponse resp bucketName ""), c)
            else (Returns None, c)
        | None => (Panics, c)
        end
    end
  end.

Definition GetBucketEncryption (c : Client) (ctx : Context_)
    (bucketName : string)
    : outcome (option sse_Configuration * option error) * Client :=
  match CheckValidBucketName bucketName with
  | Some err => (Returns (None, Some err), c)
  | None =>
    let urlValues : gmap string (list string) := ∅ in
    let urlValues := url_Values_Set "encryption" "" urlValues in
    let '((resp, err), c) :=
      executeMethod c ctx http_MethodGet
        (mkRequestMetadata bucketName "" urlValues None 0 "" "" ∅) in
    match err with
    | Some err => (Returns (None, Some err), c)
    | None =>
        match resp with
        | Some resp =>
            if negb (StatusCode resp =? http_StatusOK)
            then (Returns (None, httpRespToErrorResponse resp bucketName ""), c)
            else
              match sse_Decode (Body resp) with
              | Unmodelled => (Outside, c)
              | Err err => (Returns (None, Some err), c)
              | Ok encryptionConfig => (Returns (Some encryptionConfig, None), c)
              end
        | None => (Panics, c)
        end
    end
  end.

End Client.

(** ** Collaborators for the examples

    A transport that answers every request with one fixed response and
    counts the requests, validators that accept every name, and stand-ins
    for the digests, the error constructors and the encryption codec. *)
Module Sample.

Definition answer (resp : Response) (ctx : unit) (method : string)
    (m : requestMetadata) (w : nat) : (option Response * option error) * nat :=
  ((Some resp, None), S w).

Definition accept (name : string) : option error := None.

Definition bypassHeader : string := "X-Amz-Bypass-Governance-Retention".
Definition emptyDigest : string :=
  "e3b0c44298fc1c149afbf4c8996fb92427ae41e4649b934ca495991b7852b855".
Definition digest (data : string) : string := "digest".
Definition canonical (k : string) : string := k.

Definition serviceError (resp : Response) (bucket object : string)
    : option error :=
  Some (errors_New ("service error for " +:+ bucket +:+ "/" +:+ object)).
Definition invalidArgument (msg : string) : error := errors_New msg.

Definition encode (config : unit) : result string :=
  Ok "<ServerSideEncryptionConfiguration></ServerSideEncryptionConfiguration>".
Definition decode (body : string) : result unit := Ok tt.

Definition collaborators (resp : Response) : Collaborators unit nat unit := {|
  transport := answer resp;
  CheckValidBucketName := accept;
  CheckValidObjectName := accept;
  amzBypassGovernance := bypassHeader;
  emptySHA256Hex := emptyDigest;
  sumMD5Base64 := digest;
  sum256Hex := digest;
  CanonicalMIMEHeaderKey := canonical;
  httpRespToErrorResponse := serviceError;
  errInvalidArgument := invalidArgument;
  sse_Marshal := encode;
  sse_Decode := decode
|}.


(** A client that has sent nothing. *)
Definition client : @Client nat := mkClient [] O.

(** The first request a client has sent. *)
Definition first_request (c : @Client nat) : requestMetadata :=
  match sent c with
  | (_, m) :: _ => m
  | [] => mkRequestMetadata "" "" ∅ None 0 "" "" ∅
  end.

(** The timestamp 2030-01-01T00:00:00Z and the zero timestamp. *)
Definition year2030 : time.Time := time.Date 2030 1 1 0 0 0 0.
Definition zeroTime : time.Time := time.Date 1 1 1 0 0 0 0.

End Sample.

(** ** Notions used in the statements *)

(** A byte that [d.text] copies and [EscapeText] leaves as it is. *)
Definition plain (c : ascii) : bool :=
  (32 <=? byte_of c) && (byte_of c <? 128) &&
  negb (Ascii.eqb c "<") && negb (Ascii.eqb c ">") &&
  negb (Ascii.eqb c "&") && negb (Ascii.eqb c xml.quot) &&
  negb (Ascii.eqb c "'").

(** The timestamps [MarshalText] can write: the values of the Go type
    with a year of four digits. *)
Definition representable (t : time.Time) : bool :=
  time.valid t && (0 <=? time.Year t) && (time.Year t <=? 9999).

(** The document, as the decoder reads it, has no element named [name]. *)
Definition no_element (name : string) (body : string) : Prop :=
  forall n attr,
    In (xml.StartElement n attr) (xml.NewDecoder body).1 -> xml.Local n <> name.

(** The requests a call hands to the transport: what [sent] gains. *)
Definition requests {world : Type} (before after : @Client world)
    : list (string * requestMetadata) :=
  drop (length (sent before)) (sent after).

(** ** Collaborators for further examples

    Validators that refuse the empty name, a transport that gives one fixed
    answer, which may be an error or nothing at all, a store that keeps the
    document last put and serves it back, and a reading of responses that
    may find no error. *)
Module Scenario.

Definition named (name : string) : option error :=
  if String.eqb name "" then Some (errors_New "name cannot be empty") else None.

Definition reply (r : option Response * option error) (ctx : unit)
    (method : string) (m : requestMetadata) (w : nat)
    : (option Response * option error) * nat :=
  (r, S w).


(** A reading of responses that finds no error in one of status 206, and
    the service error of the examples in any other. *)
Definition lenient (resp : Response) (bucket object : string) : option error :=
  if StatusCode resp =? 206 then None else Sample.serviceError resp bucket object.

Definition collaborators_reading {world : Type}
    (t : unit -> string -> requestMetadata -> world ->
         (option Response * option error) * world)
    (h : Response -> string -> string -> option error)
    : Collaborators unit world unit := {|
  transport := t;
  CheckValidBucketName := named;
  CheckValidObjectName := named;
  amzBypassGovernance := Sample.bypassHeader;
  emptySHA256Hex := Sample.emptyDigest;
  sumMD5Base64 := Sample.digest;
  sum256Hex := Sample.digest;
  CanonicalMIMEHeaderKey := Sample.canonical;
  httpRespToErrorResponse := h;
  errInvalidArgument := Sample.invalidArgument;
  sse_Marshal := Sample.encode;
  sse_Decode := Sample.decode
|}.

Definition collaborators {world : Type}
    (t : unit -> string -> requestMetadata -> world ->
         (option Response * option error) * world)
    : Collaborators unit world unit :=
  collaborators_reading t Sample.serviceError.

(** The XML declaration and a line feed, as a server writes them before
    the root, and a retention document behind them. *)
Definition declaration : string :=
  "<?xml version=" +:+ String xml.quot "1.0" +:+ String xml.quot " encoding=" +:+
  String xml.quot "UTF-8" +:+ String xml.quot "?>" +:+ String xml.LF "".

Definition served : string :=
  declaration +:+ "<Retention xmlns=" +:+
  String xml.quot "http://s3.amazonaws.com/doc/2006-03-01/" +:+ String xml.quot ">" +:+
  "<Mode>GOVERNANCE</Mode><RetainUntilDate>2030-01-01T00:00:00Z</RetainUntilDate>" +:+
  "</Retention>".

(** A response whose root element is not [Retention], and one with
    elements the retention document does not know. *)
Definition errorBody : string :=
  "<Error><Code>NoSuchKey</Code></Error>".


(** The first request a client has sent. *)
Definition request {world : Type} (c : @Client world) : requestMetadata :=
  match sent c with
  | (_, m) :: _ => m
  | [] => mkRequestMetadata "" "" ∅ None 0 "" "" ∅
  end.

(** The year after the last that [MarshalText] writes. *)
Definition year10000 : time.Time := time.Date 10000 1 1 0 0 0 0.

End Scenario.


(** [after] is [before], or [before] with one request more, sent by
    [method] for [bucket] and [object]. *)
Definition at_most_one {world : Type} (method bucket object : string)
    (before after : @Client world) : Prop :=
  after = before \/
  exists meta w,
    after = mkClient (sent before ++ [(method, meta)]) w /\
    bucketName meta = bucket /\ objectName meta = object.


(** ** Lemmas on the standard library fragments *)

(** *** Digits, fixed-width numbers and decimals *)

Lemma digit_cases (d : Z) :
  0 <= d <= 9 ->
  d = 0 \/ d = 1 \/ d = 2 \/ d = 3 \/ d = 4 \/ d = 5 \/ d = 6 \/ d = 7 \/ d = 8 \/ d = 9.
Proof. lia. Qed.

Ltac by_digit d H :=
  destruct (digit_cases d H) as [?|[?|[?|[?|[?|[?|[?|[?|[?|?]]]]]]]]]; subst d;
  vm_compute; reflexivity.

Lemma isDigit_digit (d : Z) : 0 <= d <= 9 -> isDigit (time.digit d) = true.
Proof. intros H. by_digit d H. Qed.

Lemma byte_of_digit (d : Z) : 0 <= d <= 9 -> byte_of (time.digit d) = 48 + d.
Proof. intros H. by_digit d H. Qed.

Lemma plain_digit (d : Z) : 0 <= d <= 9 -> plain (time.digit d) = true.
Proof. intros H. by_digit d H. Qed.

Lemma digit_zero (d : Z) : 0 <= d <= 9 -> Ascii.eqb (time.digit d) "0" = (d =? 0).
Proof. intros H. by_digit d H. Qed.

Lemma mod10_range (u : Z) : 0 <= u mod 10 <= 9.
Proof. pose proof (Z.mod_pos_bound u 10). lia. Qed.

Lemma append_nil_l (s : string) : "" +:+ s = s.
Proof. reflexivity. Qed.

Lemma append_cons (c : ascii) (a b : string) : String c a +:+ b = String c (a +:+ b).
Proof. reflexivity. Qed.

Ltac norm_append := repeat first [rewrite append_cons | rewrite append_nil_l].
Ltac norm_append_in H :=
  repeat first [rewrite append_cons in H | rewrite append_nil_l in H].

Lemma append_nil_r (s : string) : s +:+ "" = s.
Proof. induction s; norm_append; congruence. Qed.

Lemma append_assoc (a b c : string) : (a +:+ b) +:+ c = a +:+ (b +:+ c).
Proof. induction a; norm_append; congruence. Qed.

Lemma length_append (a b : string) :
  String.length (a +:+ b) = (String.length a + String.length b)%nat.
Proof. induction a; norm_append; simpl; congruence. Qed.

Lemma length_fixed (w : nat) (u : Z) : String.length (time.fixed w u) = w.
Proof.
  revert u. induction w as [|w IH]; intros u; simpl; [reflexivity|].
  rewrite length_append, IH. simpl. lia.
Qed.

Lemma parseUint_loop_app (a b : string) (x : Z) :
  time.parseUint_loop (a +:+ b) x =
  match time.parseUint_loop a x with
  | Some y => time.parseUint_loop b y
  | None => None
  end.
Proof.
  revert x. induction a as [|c a IH]; intros x; norm_append; simpl; [reflexivity|].
  destruct (isDigit c); [apply IH | reflexivity].
Qed.

Lemma parseUint_loop_fixed (w : nat) (u x : Z) :
  time.parseUint_loop (time.fixed w u) x = Some (x * 10 ^ Z.of_nat w + u mod 10 ^ Z.of_nat w).
Proof.
  revert u x. induction w as [|w IH]; intros u x.
  - simpl. rewrite Z.mod_1_r. f_equal. lia.
  - cbn [time.fixed]. rewrite parseUint_loop_app, IH. cbn [time.parseUint_loop].
    rewrite isDigit_digit, byte_of_digit by apply mod10_range.
    f_equal. rewrite Nat2Z.inj_succ, Z.pow_succ_r by lia.
    rewrite (Z.rem_mul_r u 10 (10 ^ Z.of_nat w)) by lia. lia.
Qed.

Lemma forall_bytes_app (p : ascii -> bool) (a b : string) :
  xml.forall_bytes p (a +:+ b) = xml.forall_bytes p a && xml.forall_bytes p b.
Proof.
  induction a as [|c a IH]; norm_append; simpl; [reflexivity|].
  rewrite IH. apply andb_assoc.
Qed.

Lemma forall_bytes_fixed (p : ascii -> bool) (w : nat) (u : Z) :
  (forall d, 0 <= d <= 9 -> p (time.digit d) = true) ->
  xml.forall_bytes p (time.fixed w u) = true.
Proof.
  intros Hp. revert u. induction w as [|w IH]; intros u; simpl; [reflexivity|].
  rewrite forall_bytes_app, IH. simpl. rewrite Hp by apply mod10_range. reflexivity.
Qed.

Lemma log2_div10 (u : Z) : 10 <= u -> Z.log2 (u / 10) < Z.log2 u.
Proof.
  intros H.
  assert (Z.log2 (u / 10) <= Z.log2 (u / 2)).
  { apply Z.log2_le_mono. Z.div_mod_to_equations. lia. }
  assert (Z.log2 (u / 2) = Z.log2 u - 1).
  { pose proof (Z.log2_le_mono 2 u ltac:(lia)) as H2. change (Z.log2 2) with 1 in H2.
    rewrite <- Z.div2_div, Z.div2_spec, Z.log2_shiftr by lia. lia. }
  lia.
Qed.

Lemma decimal_loop_fuel (f g : nat) (u : Z) :
  0 <= u -> (Z.to_nat (Z.log2 u) < f)%nat -> (Z.to_nat (Z.log2 u) < g)%nat ->
  time.decimal_loop f u = time.decimal_loop g u.
Proof.
  revert g u. induction f as [|f IH]; intros g u Hu Hf Hg; [lia|].
  destruct g as [|g]; [lia|].
  cbn [time.decimal_loop]. destruct (u <? 10) eqn:E; [reflexivity|].
  apply Z.ltb_ge in E. pose proof (log2_div10 u E) as Hl.
  assert (0 <= u / 10) by (apply Z.div_pos; lia).
  pose proof (Z.log2_nonneg (u / 10)).
  rewrite (IH g (u / 10)) by lia. reflexivity.
Qed.

Lemma decimal_small (u : Z) : 0 <= u < 10 -> time.decimal u = String (time.digit u) "".
Proof.
  intros H. unfold time.decimal. cbn [time.decimal_loop].
  destruct (u <? 10) eqn:E; [reflexivity|]. apply Z.ltb_ge in E. lia.
Qed.

Lemma decimal_step (u : Z) :
  10 <= u -> time.decimal u = time.decimal (u / 10) +:+ String (time.digit (u mod 10)) "".
Proof.
  intros H. unfold time.decimal at 1. cbn [time.decimal_loop].
  destruct (u <? 10) eqn:E; [apply Z.ltb_lt in E; lia|].
  pose proof (log2_div10 u H) as Hl.
  assert (0 <= u / 10) by (apply Z.div_pos; lia).
  pose proof (Z.log2_nonneg (u / 10)).
  unfold time.decimal. rewrite (decimal_loop_fuel _ (S (Z.to_nat (Z.log2 (u / 10))))) by lia.
  reflexivity.
Qed.

Lemma zeros_snoc (w : nat) : zeros w +:+ "0" = zeros (S w).
Proof.
  induction w as [|w IH]; [reflexivity|].
  cbn [zeros] in *. norm_append. rewrite IH. reflexivity.
Qed.

Lemma fixed_zero (w : nat) : time.fixed w 0 = zeros w.
Proof.
  induction w as [|w IH]; [reflexivity|]. cbn [time.fixed].
  change (0 / 10) with 0. rewrite IH. apply zeros_snoc.
Qed.

Lemma decimal_fixed (w : nat) (u : Z) :
  0 <= u < 10 ^ Z.of_nat (S w) ->
  (String.length (time.decimal u) <= S w)%nat /\
  zeros (S w - String.length (time.decimal u)) +:+ time.decimal u = time.fixed (S w) u.
Proof.
  revert u. induction w as [|w IH]; intros u Hu.
  - change (10 ^ Z.of_nat 1) with 10 in Hu. rewrite decimal_small by lia.
    split; [simpl; lia|]. cbn. rewrite Z.mod_small by lia. reflexivity.
  - destruct (Z.lt_ge_cases u 10) as [Hs|Hb].
    + rewrite decimal_small by lia. split; [simpl; lia|].
      cbn [String.length]. replace (S (S w) - 1)%nat with (S w) by lia.
      cbn [time.fixed]. rewrite (Z.div_small u 10) by lia. change (0 / 10) with 0.
      rewrite fixed_zero, (Z.mod_small u 10) by lia.
      change (0 mod 10) with 0. change (String (time.digit 0) "") with "0".
      rewrite zeros_snoc. reflexivity.
    + rewrite decimal_step by lia.
      assert (0 <= u / 10 < 10 ^ Z.of_nat (S w)) as Hq.
      { rewrite Nat2Z.inj_succ, Z.pow_succ_r in Hu by lia.
        split; [apply Z.div_pos; lia | apply Z.div_lt_upper_bound; lia]. }
      destruct (IH (u / 10) Hq) as [Hl He].
      rewrite length_append. cbn [String.length].
      split; [lia|].
      replace (S (S w) - (String.length (time.decimal (u / 10)) + 1))%nat
        with (S w - String.length (time.decimal (u / 10)))%nat by lia.
      rewrite <- append_assoc, He. reflexivity.
Qed.

Lemma appendInt_2 (v : Z) : 0 <= v < 100 -> time.appendInt v 2 = time.fixed 2 v.
Proof.
  intros H. unfold time.appendInt. rewrite Z.abs_eq by lia.
  destruct (v <? 0) eqn:E; [apply Z.ltb_lt in E; lia|].
  destruct (v <? 100) eqn:E2; [reflexivity | apply Z.ltb_ge in E2; lia].
Qed.

Lemma appendInt_4 (v : Z) : 0 <= v < 10000 -> time.appendInt v 4 = time.fixed 4 v.
Proof.
  intros H. unfold time.appendInt. rewrite Z.abs_eq by lia.
  destruct (v <? 0) eqn:E; [apply Z.ltb_lt in E; lia|].
  destruct (v <? 10000) eqn:E2; [reflexivity | apply Z.ltb_ge in E2; lia].
Qed.

Lemma appendInt_9 (v : Z) : 0 <= v < 1000000000 -> time.appendInt v 9 = time.fixed 9 v.
Proof.
  intros H. unfold time.appendInt. rewrite Z.abs_eq by lia.
  destruct (v <? 0) eqn:E; [apply Z.ltb_lt in E; lia|].
  cbn [Nat.eqb andb orb]. norm_append.
  apply (decimal_fixed 8 v). change (10 ^ Z.of_nat 9) with 1000000000. lia.
Qed.

(** *** Substrings, trailing zeros and the fraction of a second *)

Lemma substring_full (s : string) : String.substring 0 (String.length s) s = s.
Proof. induction s as [|c s IH]; simpl; congruence. Qed.

Lemma substring_none (n : nat) (s : string) : String.substring 0 0 s = "".
Proof. destruct s; reflexivity. Qed.

Lemma substring_prefix (a b : string) :
  String.substring 0 (String.length a) (a +:+ b) = a.
Proof.
  induction a as [|c a IH]; norm_append; simpl; [destruct b; reflexivity | congruence].
Qed.

Lemma substring_skip (a b : string) (n : nat) :
  String.substring (String.length a) n (a +:+ b) = String.substring 0 n b.
Proof. induction a as [|c a IH]; norm_append; simpl; [reflexivity | exact IH]. Qed.

Lemma trimRight0_spec (s : string) : exists k, s = time.trimRight0 s +:+ zeros k.
Proof.
  induction s as [|c s [k IH]]; [exists O; reflexivity|].
  cbn [time.trimRight0]. destruct (time.trimRight0 s) as [|c' r] eqn:E.
  - destruct (Ascii.eqb_spec c "0") as [->|Hc].
    + exists (S k). rewrite IH. reflexivity.
    + exists k. rewrite IH at 1. reflexivity.
  - exists k. rewrite IH at 1. reflexivity.
Qed.

Lemma trimRight0_after (a b : string) (c : ascii) :
  Ascii.eqb c "0" = false ->
  time.trimRight0 (a +:+ String c b) = a +:+ String c (time.trimRight0 b).
Proof.
  intros Hc. induction a as [|x a IH]; norm_append; cbn [time.trimRight0].
  - rewrite Hc. destruct (time.trimRight0 b); reflexivity.
  - rewrite IH. destruct a; reflexivity.
Qed.

Lemma parseUint_loop_zeros (k : nat) (v : Z) :
  time.parseUint_loop (zeros k) v = Some (v * 10 ^ Z.of_nat k).
Proof.
  revert v. induction k as [|k IH]; intros v.
  - simpl. f_equal. lia.
  - cbn [zeros time.parseUint_loop]. change (isDigit "0") with true. cbv iota.
    rewrite IH. change (byte_of "0" - 48) with 0.
    rewrite Nat2Z.inj_succ, Z.pow_succ_r by lia. f_equal. lia.
Qed.

Lemma parseUint_loop_digits (l : string) (x : Z) :
  xml.forall_bytes isDigit l = true -> exists v, time.parseUint_loop l x = Some v.
Proof.
  revert x. induction l as [|c l IH]; intros x H; simpl in *; [eauto|].
  apply andb_true_iff in H as [Hc Hl]. rewrite Hc. apply IH, Hl.
Qed.

Lemma digitsLen_app (l r : string) (c : ascii) :
  xml.forall_bytes isDigit l = true -> isDigit c = false ->
  time.digitsLen (l +:+ String c r) = String.length l.
Proof.
  intros H Hc. induction l as [|x l IH]; norm_append; simpl in *.
  - rewrite Hc. reflexivity.
  - apply andb_true_iff in H as [Hx Hl]. rewrite Hx, IH by assumption. reflexivity.
Qed.

(** The fraction written for [ns] reads back as [ns]. *)
Lemma fraction_roundtrip (ns : Z) :
  0 < ns < 1000000000 ->
  let l := time.trimRight0 (time.fixed 9 ns) in
  (1 <= String.length l <= 9)%nat /\
  xml.forall_bytes isDigit l = true /\
  exists v, time.parseUint_loop l 0 = Some v /\
            v * 10 ^ Z.of_nat (9 - String.length l) = ns.
Proof.
  intros Hns l.
  destruct (trimRight0_spec (time.fixed 9 ns)) as [k Hk]. fold l in Hk.
  assert (xml.forall_bytes isDigit (time.fixed 9 ns) = true) as Hd
    by (apply forall_bytes_fixed, isDigit_digit).
  pose proof (length_fixed 9 ns) as Hlen.
  pose proof (parseUint_loop_fixed 9 ns 0) as Hv.
  rewrite Hk in Hd, Hlen, Hv.
  rewrite forall_bytes_app in Hd. apply andb_true_iff in Hd as [Hl _].
  rewrite length_append in Hlen.
  assert (String.length (zeros k) = k) as Hz by (clear; induction k; simpl; congruence).
  rewrite Hz in Hlen.
  destruct (parseUint_loop_digits l 0 Hl) as [v Hvl].
  rewrite parseUint_loop_app, Hvl, parseUint_loop_zeros in Hv.
  change (10 ^ Z.of_nat 9) with 1000000000 in Hv.
  rewrite Z.mod_small in Hv by lia.
  injection Hv as Hv.
  assert (k = 9 - String.length l)%nat as Hk9 by lia.
  split; [|split; [exact Hl|]].
  - split; [|lia]. destruct l as [|c l']; [|simpl; lia].
    simpl in Hvl. injection Hvl as <-. lia.
  - exists v. split; [exact Hvl|]. rewrite <- Hk9. lia.
Qed.

(** *** A timestamp written by [MarshalText] reads back *)

Lemma parseUint_fixed (w : nat) (v lo hi : Z) :
  0 <= v < 10 ^ Z.of_nat w -> lo <= v <= hi ->
  time.parseUint (time.fixed w v) lo hi = Some v.
Proof.
  intros Hv Hr. unfold time.parseUint. rewrite parseUint_loop_fixed.
  rewrite Z.mod_small by lia. change (0 * 10 ^ Z.of_nat w + v) with v.
  destruct (v <? lo) eqn:E1; [apply Z.ltb_lt in E1; lia|].
  destruct (hi <? v) eqn:E2; [apply Z.ltb_lt in E2; lia|]. reflexivity.
Qed.

(** The part of [parseRFC3339] after the seconds. *)
Lemma parse_tail (ns : Z) :
  0 <= ns < 1000000000 ->
  let s := (if ns =? 0 then "" else "." +:+ time.trimRight0 (time.fixed 9 ns)) +:+ "Z" in
  (if is_byte (byte_at 0 s) "." && (1 <=? time.digitsLen (slice_from 1 s))%nat
   then let n := S (time.digitsLen (slice_from 1 s)) in
        (time.parseNanoseconds s n, slice_from n s)
   else (0, s)) = (ns, "Z").
Proof.
  intros Hns s. subst s. destruct (ns =? 0) eqn:E.
  - apply Z.eqb_eq in E. subst ns. reflexivity.
  - apply Z.eqb_neq in E.
    destruct (fraction_roundtrip ns ltac:(lia)) as ([Hl1 Hl9] & Hd & v & Hv & Hval).
    set (l := time.trimRight0 (time.fixed 9 ns)) in *.
    norm_append.
    assert (slice_from 1 (String "." (l +:+ "Z")) = l +:+ "Z") as Hs1.
    { unfold slice_from. cbn [String.length String.substring Nat.sub].
      rewrite Nat.sub_0_r. apply substring_full. }
    rewrite Hs1, digitsLen_app by (assumption || reflexivity).
    cbn [byte_at String.get is_byte]. change (Ascii.eqb "." ".") with true.
    destruct (Nat.leb_spec 1 (String.length l)) as [_|?]; [|lia].
    cbn [andb]. cbv zeta. f_equal.
    + unfold time.parseNanoseconds. rewrite Nat.min_l by lia.
      unfold slice. cbn [String.substring Nat.sub]. rewrite Nat.sub_0_r.
      rewrite substring_prefix, Hv.
      replace (10 - S (String.length l))%nat with (9 - String.length l)%nat by lia.
      exact Hval.
    + unfold slice_from. cbn [String.length String.substring Nat.sub].
      rewrite substring_skip, length_append.
      replace (String.length l + String.length "Z" - String.length l)%nat with 1%nat
        by (simpl; lia).
      reflexivity.
Qed.

Lemma slice_from_19 (c1 c2 c3 c4 c5 c6 c7 c8 c9 c10 c11 c12 c13 c14 c15 c16 c17 c18 c19 : ascii)
    (tail : string) :
  slice_from 19
    (String c1 (String c2 (String c3 (String c4 (String c5 (String c6 (String c7
    (String c8 (String c9 (String c10 (String c11 (String c12 (String c13 (String c14
    (String c15 (String c16 (String c17 (String c18 (String c19 tail)))))))))))))))))))
  = tail.
Proof.
  unfold slice_from. cbn [String.length String.substring Nat.sub].
  rewrite Nat.sub_0_r. apply substring_full.
Qed.

Lemma valid_fields (t : time.Time) :
  representable t = true ->
  0 <= time.Year t <= 9999 /\ 1 <= time.Month t <= 12 /\
  1 <= time.Day t <= time.daysIn (time.Month t) (time.Year t) /\
  0 <= time.Hour t <= 23 /\ 0 <= time.Minute t <= 59 /\ 0 <= time.Second t <= 59 /\
  0 <= time.Nanosecond t <= 999999999.
Proof.
  unfold representable, time.valid. rewrite !andb_true_iff, !Z.leb_le. lia.
Qed.

Lemma daysIn_le (m y : Z) : time.daysIn m y <= 31.
Proof.
  unfold time.daysIn.
  repeat match goal with |- context [if ?b then _ else _] => destruct b end; lia.
Qed.

(** The text [appendFormatRFC3339] writes for a representable timestamp. *)
Lemma appendFormatRFC3339_shape (t : time.Time) :
  representable t = true ->
  time.appendFormatRFC3339 t =
  time.fixed 4 (time.Year t) +:+ "-" +:+ time.fixed 2 (time.Month t) +:+ "-" +:+
  time.fixed 2 (time.Day t) +:+ "T" +:+ time.fixed 2 (time.Hour t) +:+ ":" +:+
  time.fixed 2 (time.Minute t) +:+ ":" +:+ time.fixed 2 (time.Second t) +:+
  (if time.Nanosecond t =? 0 then ""
   else "." +:+ time.trimRight0 (time.fixed 9 (time.Nanosecond t))) +:+ "Z".
Proof.
  intros H. destruct (valid_fields t H) as (HY & HM & HD & Hh & Hm & Hs & Hn).
  pose proof (daysIn_le (time.Month t) (time.Year t)).
  unfold time.appendFormatRFC3339, time.appendNano.
  rewrite appendInt_4, !appendInt_2 by lia.
  destruct (time.Nanosecond t =? 0) eqn:E.
  - rewrite !append_assoc. reflexivity.
  - apply Z.eqb_neq in E. rewrite appendInt_9 by lia.
    change ("." +:+ time.fixed 9 (time.Nanosecond t))
      with (String "." (time.fixed 9 (time.Nanosecond t))).
    rewrite trimRight0_after by reflexivity.
    rewrite !append_assoc. reflexivity.
Qed.

Lemma MarshalText_representable (t : time.Time) :
  representable t = true ->
  time.MarshalText t = Ok (time.appendFormatRFC3339 t).
Proof.
  intros H. unfold time.MarshalText. cbv zeta.
  rewrite (appendFormatRFC3339_shape t H).
  cbn [time.fixed]. norm_append. reflexivity.
Qed.

Lemma UnmarshalText_MarshalText (t : time.Time) :
  representable t = true ->
  time.UnmarshalText (time.appendFormatRFC3339 t) = Ok t.
Proof.
  intros H. destruct (valid_fields t H) as (HY & HM & HD & Hh & Hm & Hs & Hn).
  pose proof (daysIn_le (time.Month t) (time.Year t)).
  rewrite (appendFormatRFC3339_shape t H).
  pose proof (parse_tail (time.Nanosecond t) ltac:(lia)) as Ht. cbv zeta in Ht.
  pose proof (parseUint_fixed 4 (time.Year t) 0 9999 ltac:(simpl; lia) ltac:(lia)) as PY.
  pose proof (parseUint_fixed 2 (time.Month t) 1 12 ltac:(simpl; lia) ltac:(lia)) as PM.
  pose proof (parseUint_fixed 2 (time.Day t) 1 (time.daysIn (time.Month t) (time.Year t))
                ltac:(simpl; lia) ltac:(lia)) as PD.
  pose proof (parseUint_fixed 2 (time.Hour t) 0 23 ltac:(simpl; lia) ltac:(lia)) as Ph.
  pose proof (parseUint_fixed 2 (time.Minute t) 0 59 ltac:(simpl; lia) ltac:(lia)) as Pm.
  pose proof (parseUint_fixed 2 (time.Second t) 0 59 ltac:(simpl; lia) ltac:(lia)) as Ps.
  set (tail := (if time.Nanosecond t =? 0 then ""
                else "." +:+ time.trimRight0 (time.fixed 9 (time.Nanosecond t))) +:+ "Z") in *.
  clearbody tail.
  cbn [time.fixed] in *. norm_append_in PY. norm_append_in PM. norm_append_in PD.
  norm_append_in Ph. norm_append_in Pm. norm_append_in Ps. norm_append.
  revert tail Ht PY PM PD Ph Pm Ps.
  generalize (time.digit (time.Year t / 10 / 10 / 10 mod 10)),
             (time.digit (time.Year t / 10 / 10 mod 10)),
             (time.digit (time.Year t / 10 mod 10)),
             (time.digit (time.Year t mod 10)),
             (time.digit (time.Month t / 10 mod 10)), (time.digit (time.Month t mod 10)),
             (time.digit (time.Day t / 10 mod 10)), (time.digit (time.Day t mod 10)),
             (time.digit (time.Hour t / 10 mod 10)), (time.digit (time.Hour t mod 10)),
             (time.digit (time.Minute t / 10 mod 10)), (time.digit (time.Minute t mod 10)),
             (time.digit (time.Second t / 10 mod 10)), (time.digit (time.Second t mod 10)).
  intros y1 y2 y3 y4 m1 m2 d1 d2 h1 h2 i1 i2 s1 s2 tail Ht PY PM PD Ph Pm Ps.
  unfold time.UnmarshalText, time.parseRFC3339.
  rewrite slice_from_19. cbv zeta.
  cbn [String.length Nat.ltb Nat.leb slice String.substring Nat.sub byte_at String.get is_byte]
    in Ht |- *.
  rewrite (substring_none 0).
  rewrite PY. cbn [mbind option_bind]. rewrite PM. cbn [mbind option_bind].
  rewrite PD. cbn [mbind option_bind]. rewrite Ph. cbn [mbind option_bind].
  rewrite Pm. cbn [mbind option_bind]. rewrite Ps. cbn [mbind option_bind].
  change (Ascii.eqb "-" "-") with true. change (Ascii.eqb "T" "T") with true.
  change (Ascii.eqb ":" ":") with true. cbn [andb].
  rewrite Ht. change (String.eqb "Z" "Z") with true. cbv iota.
  destruct t; reflexivity.
Qed.

(** *** Plain text and tags in the tokenizer *)

Ltac by_byte c :=
  destruct c as [[] [] [] [] [] [] [] []]; vm_compute; try reflexivity; try discriminate.

Lemma plain_escape (c : ascii) : plain c = true -> xml.escape c = Ok (String c "").
Proof. by_byte c. Qed.

Lemma plain_ordinary (c : ascii) :
  plain c = true ->
  Ascii.eqb c "<" = false /\ Ascii.eqb c ">" = false /\ Ascii.eqb c "&" = false /\
  Ascii.eqb c xml.CR = false /\ Ascii.eqb c xml.LF = false /\
  xml.isHigh c = false /\
  (byte_of c <? 32) = false.
Proof. by_byte c; intros; repeat split. Qed.

Lemma EscapeText_plain (s : string) :
  xml.forall_bytes plain s = true -> xml.EscapeText s = Ok s.
Proof.
  induction s as [|c s IH]; intros H; [reflexivity|].
  cbn [xml.forall_bytes] in H. apply andb_true_iff in H as [Hc Hs].
  cbn [xml.EscapeText]. rewrite (plain_escape c Hc), (IH Hs). reflexivity.
Qed.

Lemma text_loop_plain (s rest : string) (b0 b1 : ascii) :
  xml.forall_bytes plain s = true ->
  xml.text_loop None 0 b0 b1 (s +:+ String "<" rest) = Ok (s, String "<" rest).
Proof.
  revert b0 b1. induction s as [|c s IH]; intros b0 b1 H; norm_append.
  - cbn [xml.text_loop]. change (Ascii.eqb "<" ">") with false.
    rewrite andb_false_r. reflexivity.
  - cbn [xml.forall_bytes] in H. apply andb_true_iff in H as [Hc Hs].
    destruct (plain_ordinary c Hc) as (E1 & E2 & E3 & E4 & E5 & _).
    cbn [xml.text_loop is_byte]. rewrite E1, E2, E3, E4, E5, andb_false_r, (IH _ _ Hs).
    cbn [mbind result_bind]. rewrite andb_false_r. reflexivity.
Qed.

Lemma check_data_plain (s : string) :
  xml.forall_bytes plain s = true -> xml.check_data s = Ok tt.
Proof.
  induction s as [|c s IH]; intros H; [reflexivity|].
  cbn [xml.forall_bytes] in H. apply andb_true_iff in H as [Hc Hs].
  destruct (plain_ordinary c Hc) as (_ & _ & _ & _ & _ & E6 & E7).
  cbn [xml.check_data]. rewrite E6, E7. exact (IH Hs).
Qed.

(** Character data made of plain bytes is one [CharData] token. *)
Lemma rawToken_text (c : ascii) (s rest : string) :
  xml.forall_bytes plain (String c s) = true ->
  xml.rawToken (String c s +:+ String "<" rest) =
  Ok ([xml.CharData (String c s)], String "<" rest).
Proof.
  intros H. pose proof H as H'.
  cbn [xml.forall_bytes] in H'. apply andb_true_iff in H' as [Hc _].
  destruct (plain_ordinary c Hc) as (E1 & _).
  rewrite append_cons. unfold xml.rawToken. rewrite E1. cbn [negb].
  rewrite <- append_cons. unfold xml.text.
  rewrite (text_loop_plain _ _ _ _ H). cbn [mbind result_bind].
  rewrite (check_data_plain _ H). reflexivity.
Qed.

Lemma tokens_from_skip (p rest : string) :
  xml.tokens_from (String.length p) (p +:+ rest) = xml.tokens_from 0 rest.
Proof.
  induction p as [|c p IH]; norm_append; [reflexivity|].
  cbn [String.length xml.tokens_from]. exact IH.
Qed.

Lemma tokens_step (c : ascii) (p rest : string) (ts : list xml.Token) :
  xml.rawToken (String c p +:+ rest) = Ok (ts, rest) ->
  xml.tokens_from 0 (String c p +:+ rest) =
  (ts ++ (xml.tokens_from 0 rest).1, (xml.tokens_from 0 rest).2).
Proof.
  intros H. rewrite append_cons in *. cbn [xml.tokens_from]. rewrite H.
  cbn [String.length]. rewrite length_append.
  replace (S (String.length p + String.length rest) - String.length rest - 1)%nat
    with (String.length p) by lia.
  rewrite tokens_from_skip. destruct (xml.tokens_from 0 rest). reflexivity.
Qed.

Lemma tokens_open_Retention (rest : string) :
  xml.tokens_from 0 ("<Retention>" +:+ rest) =
  (xml.StartElement (xml.mkName "" "Retention") [] :: (xml.tokens_from 0 rest).1,
   (xml.tokens_from 0 rest).2).
Proof. apply (tokens_step "<" "Retention>" rest [xml.StartElement (xml.mkName "" "Retention") []]). reflexivity. Qed.

Lemma tokens_close_Retention (rest : string) :
  xml.tokens_from 0 ("</Retention>" +:+ rest) =
  (xml.EndElement (xml.mkName "" "Retention") :: (xml.tokens_from 0 rest).1,
   (xml.tokens_from 0 rest).2).
Proof. apply (tokens_step "<" "/Retention>" rest [xml.EndElement (xml.mkName "" "Retention")]). reflexivity. Qed.

Lemma tokens_open_Mode (rest : string) :
  xml.tokens_from 0 ("<Mode>" +:+ rest) =
  (xml.StartElement (xml.mkName "" "Mode") [] :: (xml.tokens_from 0 rest).1,
   (xml.tokens_from 0 rest).2).
Proof. apply (tokens_step "<" "Mode>" rest [xml.StartElement (xml.mkName "" "Mode") []]). reflexivity. Qed.

Lemma tokens_close_Mode (rest : string) :
  xml.tokens_from 0 ("</Mode>" +:+ rest) =
  (xml.EndElement (xml.mkName "" "Mode") :: (xml.tokens_from 0 rest).1,
   (xml.tokens_from 0 rest).2).
Proof. apply (tokens_step "<" "/Mode>" rest [xml.EndElement (xml.mkName "" "Mode")]). reflexivity. Qed.

Lemma tokens_open_RetainUntilDate (rest : string) :
  xml.tokens_from 0 ("<RetainUntilDate>" +:+ rest) =
  (xml.StartElement (xml.mkName "" "RetainUntilDate") [] :: (xml.tokens_from 0 rest).1,
   (xml.tokens_from 0 rest).2).
Proof. apply (tokens_step "<" "RetainUntilDate>" rest [xml.StartElement (xml.mkName "" "RetainUntilDate") []]). reflexivity. Qed.

Lemma tokens_close_RetainUntilDate (rest : string) :
  xml.tokens_from 0 ("</RetainUntilDate>" +:+ rest) =
  (xml.EndElement (xml.mkName "" "RetainUntilDate") :: (xml.tokens_from 0 rest).1,
   (xml.tokens_from 0 rest).2).
Proof. apply (tokens_step "<" "/RetainUntilDate>" rest [xml.EndElement (xml.mkName "" "RetainUntilDate")]). reflexivity. Qed.

Lemma tokens_text (s rest : string) :
  s <> "" -> xml.forall_bytes plain s = true ->
  xml.tokens_from 0 (s +:+ String "<" rest) =
  (xml.CharData s :: (xml.tokens_from 0 (String "<" rest)).1,
   (xml.tokens_from 0 (String "<" rest)).2).
Proof.
  intros Hne H. destruct s as [|c s]; [congruence|].
  apply (tokens_step c s (String "<" rest) [xml.CharData (String c s)]).
  apply rawToken_text, H.
Qed.

(** *** The retention document as a token stream *)

Lemma tokens_text_then (s lit rest : string) :
  s <> "" -> xml.forall_bytes plain s = true ->
  xml.tokens_from 0 (s +:+ String "<" lit +:+ rest) =
  (xml.CharData s :: (xml.tokens_from 0 (String "<" lit +:+ rest)).1,
   (xml.tokens_from 0 (String "<" lit +:+ rest)).2).
Proof. intros Hne H. rewrite append_cons. apply tokens_text; assumption. Qed.

Ltac lex :=
  unfold xml.NewDecoder, xml.rawTokens;
  repeat first
    [ rewrite tokens_open_Retention
    | rewrite tokens_open_Mode
    | rewrite tokens_close_Mode
    | rewrite tokens_open_RetainUntilDate
    | rewrite tokens_close_RetainUntilDate
    | rewrite tokens_text_then by assumption ];
  change (xml.tokens_from 0 "</Retention>")
    with ([xml.EndElement (xml.mkName "" "Retention")], xml.AtEOF);
  cbn [fst snd];
  match goal with
  | |- context [xml.Tokens ?a ?b ?c ?d] =>
      let r := eval vm_compute in (xml.Tokens a b c d) in
      change (xml.Tokens a b c d) with r
  end;
  reflexivity.

(** The token streams of the four shapes of the retention document. *)
Lemma NewDecoder_mode_date (m d : string) :
  m <> "" -> xml.forall_bytes plain m = true ->
  d <> "" -> xml.forall_bytes plain d = true ->
  xml.NewDecoder ("<Retention>" +:+ "<Mode>" +:+ m +:+ "</Mode>" +:+
                  "<RetainUntilDate>" +:+ d +:+ "</RetainUntilDate>" +:+ "</Retention>") =
  ([xml.StartElement (xml.mkName "" "Retention") [];
    xml.StartElement (xml.mkName "" "Mode") []; xml.CharData m;
    xml.EndElement (xml.mkName "" "Mode");
    xml.StartElement (xml.mkName "" "RetainUntilDate") []; xml.CharData d;
    xml.EndElement (xml.mkName "" "RetainUntilDate");
    xml.EndElement (xml.mkName "" "Retention")], xml.AtEOF).
Proof. intros Hm Pm Hd Pd. lex. Qed.

Lemma NewDecoder_mode (m : string) :
  m <> "" -> xml.forall_bytes plain m = true ->
  xml.NewDecoder ("<Retention>" +:+ "<Mode>" +:+ m +:+ "</Mode>" +:+ "</Retention>") =
  ([xml.StartElement (xml.mkName "" "Retention") [];
    xml.StartElement (xml.mkName "" "Mode") []; xml.CharData m;
    xml.EndElement (xml.mkName "" "Mode");
    xml.EndElement (xml.mkName "" "Retention")], xml.AtEOF).
Proof. intros Hm Pm. lex. Qed.

Lemma NewDecoder_date (d : string) :
  d <> "" -> xml.forall_bytes plain d = true ->
  xml.NewDecoder ("<Retention>" +:+ "<RetainUntilDate>" +:+ d +:+
                  "</RetainUntilDate>" +:+ "</Retention>") =
  ([xml.StartElement (xml.mkName "" "Retention") [];
    xml.StartElement (xml.mkName "" "RetainUntilDate") []; xml.CharData d;
    xml.EndElement (xml.mkName "" "RetainUntilDate");
    xml.EndElement (xml.mkName "" "Retention")], xml.AtEOF).
Proof. intros Hd Pd. lex. Qed.

Lemma NewDecoder_empty :
  xml.NewDecoder "<Retention></Retention>" =
  ([xml.StartElement (xml.mkName "" "Retention") [];
    xml.EndElement (xml.mkName "" "Retention")], xml.AtEOF).
Proof. reflexivity. Qed.

Ltac run_unmarshal :=
  cbn [unmarshal unmarshal_children xml.Local String.eqb Ascii.eqb Bool.eqb negb
       foldl setMode setRetainUntilDate XMLNS XMLName Mode RetainUntilDate Nat.eqb];
  rewrite ?append_nil_l.

Lemma plain_trimmed (ns : Z) :
  xml.forall_bytes plain (time.trimRight0 (time.fixed 9 ns)) = true.
Proof.
  destruct (trimRight0_spec (time.fixed 9 ns)) as [k Hk].
  pose proof (forall_bytes_fixed plain 9 ns plain_digit) as H.
  rewrite Hk, forall_bytes_app in H. apply andb_true_iff in H as [H _]. exact H.
Qed.

Lemma plain_format (t : time.Time) :
  representable t = true ->
  xml.forall_bytes plain (time.appendFormatRFC3339 t) = true /\
  time.appendFormatRFC3339 t <> "".
Proof.
  intros H. rewrite (appendFormatRFC3339_shape t H). split.
  - rewrite !forall_bytes_app, !(forall_bytes_fixed plain) by apply plain_digit.
    destruct (time.Nanosecond t =? 0); [reflexivity|].
    rewrite forall_bytes_app, plain_trimmed. reflexivity.
  - cbn [time.fixed]. norm_append. discriminate.
Qed.

(** *** Elements the document does not have *)

Lemma setAttr_fields (attr : list xml.Attr) (v : objectRetention) :
  Mode (foldl setAttr v attr) = Mode v /\
  RetainUntilDate (foldl setAttr v attr) = RetainUntilDate v.
Proof.
  revert v. induction attr as [|a attr IH]; intros v; [split; reflexivity|].
  cbn [foldl]. destruct (IH (setAttr v a)) as [-> ->].
  unfold setAttr. destruct (String.eqb _ _); split; reflexivity.
Qed.

Lemma eqb_Local (n : xml.Name) (name : string) :
  xml.Local n <> name -> String.eqb (xml.Local n) name = false.
Proof. intros H. apply String.eqb_neq, H. Qed.

Ltac children_step IH Hno' H :=
  repeat match type of H with
         | context [match ?d with O => _ | S _ => _ end] => destruct d
         | context [time.UnmarshalText ?b] =>
             destruct (time.UnmarshalText b); try discriminate
         | context [String.eqb ?a ?b] => destruct (String.eqb a b)
         end;
  first [ injection H as <-; reflexivity | refine (IH _ _ Hno' _ H); exact I ].

Lemma unmarshal_children_keeps_Mode (toks : list xml.Token) (e : xml.Ending)
    (v r : objectRetention) (p : place) :
  (forall n attr, In (xml.StartElement n attr) toks -> xml.Local n <> "Mode") ->
  match p with inMode _ | inModeSkip _ _ => False | _ => True end ->
  unmarshal_children v p toks e = Ok r -> Mode r = Mode v.
Proof.
  revert v p. induction toks as [|t toks IH]; intros v p Hno Hp H.
  - destruct e; discriminate.
  - assert (forall n attr, In (xml.StartElement n attr) toks -> xml.Local n <> "Mode")
      as Hno' by (intros n attr Hin; apply (Hno n attr); right; exact Hin).
    destruct p as [|data|data depth|buf depth|depth]; try contradiction;
      destruct t as [n attr|n|d|target inst]; cbn [unmarshal_children] in H;
      try (rewrite (eqb_Local n "Mode") in H by (apply (Hno n attr); left; reflexivity));
      children_step IH Hno' H.
Qed.

Lemma unmarshal_children_keeps_date (toks : list xml.Token) (e : xml.Ending)
    (v r : objectRetention) (p : place) :
  (forall n attr, In (xml.StartElement n attr) toks -> xml.Local n <> "RetainUntilDate") ->
  match p with inDate _ _ => False | _ => True end ->
  unmarshal_children v p toks e = Ok r -> RetainUntilDate r = RetainUntilDate v.
Proof.
  revert v p. induction toks as [|t toks IH]; intros v p Hno Hp H.
  - destruct e; discriminate.
  - assert (forall n attr, In (xml.StartElement n attr) toks ->
                           xml.Local n <> "RetainUntilDate")
      as Hno' by (intros n attr Hin; apply (Hno n attr); right; exact Hin).
    destruct p as [|data|data depth|buf depth|depth]; try contradiction;
      destruct t as [n attr|n|d|target inst]; cbn [unmarshal_children] in H;
      try (rewrite (eqb_Local n "RetainUntilDate") in H
             by (apply (Hno n attr); left; reflexivity));
      children_step IH Hno' H.
Qed.

Lemma unmarshal_keeps (toks : list xml.Token) (e : xml.Ending) (v r : objectRetention) :
  unmarshal v toks e = Ok r ->
  ((forall n attr, In (xml.StartElement n attr) toks -> xml.Local n <> "Mode") ->
   Mode r = Mode v) /\
  ((forall n attr, In (xml.StartElement n attr) toks -> xml.Local n <> "RetainUntilDate") ->
   RetainUntilDate r = RetainUntilDate v).
Proof.
  induction toks as [|t toks IH]; intros H.
  - destruct e; discriminate.
  - destruct t as [n attr|n|d|target inst]; cbn [unmarshal] in H.
    + destruct (negb (String.eqb (xml.Local n) "Retention")); [discriminate|].
      destruct (setAttr_fields attr
                  (mkObjectRetention (XMLNS v) n (Mode v) (RetainUntilDate v)))
        as [Em Ed].
      cbn [Mode RetainUntilDate] in Em, Ed. split; intros Hno.
      * rewrite <- Em.
        refine (unmarshal_children_keeps_Mode toks e _ r atRoot _ I H).
        intros n' a' Hin. apply (Hno n' a'). right. exact Hin.
      * rewrite <- Ed.
        refine (unmarshal_children_keeps_date toks e _ r atRoot _ I H).
        intros n' a' Hin. apply (Hno n' a'). right. exact Hin.
    + destruct (IH H) as [Hm Hd]. split; intros Hno; [apply Hm | apply Hd];
        intros n' a' Hin; apply (Hno n' a'); right; exact Hin.
    + destruct (IH H) as [Hm Hd]. split; intros Hno; [apply Hm | apply Hd];
        intros n' a' Hin; apply (Hno n' a'); right; exact Hin.
    + destruct (IH H) as [Hm Hd]. split; intros Hno; [apply Hm | apply Hd];
        intros n' a' Hin; apply (Hno n' a'); right; exact Hin.
Qed.

(** A field whose element the document lacks is left as it was. *)
Lemma Decode_absent (body : string) (v r : objectRetention) :
  xml_Decode body v = Ok r ->
  (no_element "Mode" body -> Mode r = Mode v) /\
  (no_element "RetainUntilDate" body -> RetainUntilDate r = RetainUntilDate v).
Proof.
  unfold xml_Decode, no_element. destruct (xml.NewDecoder body) as [toks e].
  cbn [fst]. apply unmarshal_keeps.
Qed.

(** ** The retention document: construction and round trip *)

Lemma IsValid_spec (m : string) :
  IsValid m = true <-> m = Governance \/ m = Compliance.
Proof.
  unfold IsValid. rewrite orb_true_iff, !String.eqb_eq. reflexivity.
Qed.

(** What a successful construction returns. *)
Lemma newObjectRetention_Some (mode : option RetentionMode) (date : option time.Time)
    (c : objectRetention) :
  newObjectRetention mode date = (Some c, None) ->
  c = mkObjectRetention "" (xml.mkName "" "") (Mode c) (RetainUntilDate c) /\
  (Mode c = "" /\ mode = None \/
   mode = Some (Mode c) /\ (Mode c = Governance \/ Mode c = Compliance)) /\
  RetainUntilDate c =
    match date with
    | Some d => if time.IsZero d then None else Some d
    | None => None
    end.
Proof.
  unfold newObjectRetention. intros H.
  destruct mode as [m|];
    [destruct (IsValid m) eqn:E; cbn [negb] in H; [apply IsValid_spec in E | discriminate]|];
    (destruct date as [d|]; [destruct (time.IsZero d) eqn:Z|]);
    cbn [negb] in H; injection H as <-; cbn [Mode RetainUntilDate XMLNS XMLName];
    repeat split; auto.
Qed.

(** C1: constructing a retention configuration fails, with the
    invalid-retention-mode error and no configuration, exactly when a mode
    is supplied that is neither GOVERNANCE nor COMPLIANCE; with neither a
    mode nor a date it succeeds and both fields of the result are unset. *)
Theorem newObjectRetention_invalid_mode (mode : option RetentionMode)
    (date : option time.Time) :
  ((newObjectRetention mode date).2 <> None <->
   exists m, mode = Some m /\ m <> Governance /\ m <> Compliance) /\
  ((newObjectRetention mode date).2 = None \/
   newObjectRetention mode date =
     (None, Some (fmt_Errorf "invalid retention mode `%v`" mode))) /\
  newObjectRetention None None = (Some zeroObjectRetention, None) /\
  Mode zeroObjectRetention = "" /\
  RetainUntilDate zeroObjectRetention = None.
Proof.
  split; [|split; [|repeat split]].
  - unfold newObjectRetention. destruct mode as [m|]; cbn [snd].
    + destruct (IsValid m) eqn:E; cbn [negb snd].
      * apply IsValid_spec in E. split; [congruence|].
        intros (m' & [= <-] & Hg & Hc). destruct E; contradiction.
      * split; [|discriminate]. intros _. exists m.
        split; [reflexivity|]. split; intros ->; discriminate.
    + split; [congruence|]. intros (m & Hm & _). discriminate.
  - unfold newObjectRetention. destruct mode as [m|]; [|left; reflexivity].
    destruct (IsValid m); cbn [negb]; [left|right]; reflexivity.
Qed.

(** C9: a date that is supplied but zero is dropped; the date of the
    result is set exactly when the supplied date is non-nil and non-zero,
    and a zero date gives what a nil date gives. *)
Theorem newObjectRetention_zero_date (mode : option RetentionMode)
    (date : option time.Time) (c : objectRetention) :
  newObjectRetention mode date = (Some c, None) ->
  (forall d, RetainUntilDate c = Some d <-> date = Some d /\ time.IsZero d = false) /\
  (forall d, time.IsZero d = true ->
             newObjectRetention mode (Some d) = newObjectRetention mode None).
Proof.
  intros H. split.
  - destruct (newObjectRetention_Some mode date c H) as (_ & _ & ->).
    intros d. destruct date as [d'|].
    + destruct (time.IsZero d') eqn:E.
      * split; [discriminate|]. intros [[= ->] E']. congruence.
      * split; [intros [= ->]; split; [reflexivity | exact E]|].
        intros [[= ->] _]. reflexivity.
    + split; [discriminate|]. intros [? _]. discriminate.
  - intros d Hz. unfold newObjectRetention. rewrite Hz. reflexivity.
Qed.

Lemma xml_Marshal_shape (n : xml.Name) (m : string) (od : option time.Time) :
  xml.forall_bytes plain m = true ->
  (forall t, od = Some t -> representable t = true) ->
  xml_Marshal (Some (mkObjectRetention "" n m od)) =
  Ok ("<Retention>" +:+
      (if String.eqb m "" then "" else "<Mode>" +:+ m +:+ "</Mode>") +:+
      match od with
      | None => ""
      | Some t => "<RetainUntilDate>" +:+ time.appendFormatRFC3339 t +:+
                  "</RetainUntilDate>"
      end +:+ "</Retention>").
Proof.
  intros Pm Hod. unfold xml_Marshal. cbn [XMLNS Mode RetainUntilDate].
  change (String.eqb "" "") with true. cbv iota. cbn [mbind result_bind].
  assert ((if String.eqb m "" then Ok ""
           else xml.EscapeText m ≫= λ e, Ok ("<Mode>" +:+ e +:+ "</Mode>")) =
          Ok (if String.eqb m "" then "" else "<Mode>" +:+ m +:+ "</Mode>")) as ->.
  { destruct (String.eqb m ""); [reflexivity|]. rewrite (EscapeText_plain m Pm).
    reflexivity. }
  cbn [mbind result_bind]. destruct od as [t|]; [|reflexivity].
  pose proof (Hod t eq_refl) as Ht.
  rewrite (MarshalText_representable t Ht). cbn [mbind result_bind].
  rewrite (EscapeText_plain _ (proj1 (plain_format t Ht))). reflexivity.
Qed.

Ltac started :=
  let Hin := fresh "Hin" in
  intros ? ? Hin;
  repeat (destruct Hin as [Hin|Hin];
          [ try discriminate Hin;
            try (injection Hin as <- _; cbn [xml.Local];
                 first [ left; reflexivity
                       | right; left; split; [reflexivity | assumption]
                       | right; right; split; [reflexivity | discriminate] ])
          | ]);
  contradiction.

(** Encoding a document with the given mode and date, then decoding it
    into [v]. *)
Lemma Marshal_Decode (n : xml.Name) (m : string) (od : option time.Time)
    (v : objectRetention) :
  xml.forall_bytes plain m = true ->
  (forall t, od = Some t -> representable t = true) ->
  exists data toks,
    xml_Marshal (Some (mkObjectRetention "" n m od)) = Ok data /\
    xml.NewDecoder data = (toks, xml.AtEOF) /\
    (forall n' attr, In (xml.StartElement n' attr) toks ->
       xml.Local n' = "Retention" \/
       xml.Local n' = "Mode" /\ m <> "" \/
       xml.Local n' = "RetainUntilDate" /\ od <> None) /\
    (m <> "" -> In (xml.StartElement (xml.mkName "" "Mode") []) toks) /\
    (od <> None -> In (xml.StartElement (xml.mkName "" "RetainUntilDate") []) toks) /\
    xml_Decode data v =
    Ok (mkObjectRetention (XMLNS v) (xml.mkName "" "Retention")
          (if String.eqb m "" then Mode v else m)
          (match od with None => RetainUntilDate v | Some t => Some t end)).
Proof.
  intros Pm Hod. rewrite (xml_Marshal_shape n m od Pm Hod).
  exists ("<Retention>" +:+
          (if String.eqb m "" then "" else "<Mode>" +:+ m +:+ "</Mode>") +:+
          match od with
          | None => ""
          | Some t => "<RetainUntilDate>" +:+ time.appendFormatRFC3339 t +:+
                      "</RetainUntilDate>"
          end +:+ "</Retention>").
  destruct (String.eqb_spec m "") as [->|Hm], od as [t|];
    rewrite ?append_nil_l, ?append_assoc.
  - pose proof (Hod t eq_refl) as Ht. destruct (plain_format t Ht) as [Pd Hd].
    eexists. split; [reflexivity|]. split; [apply (NewDecoder_date _ Hd Pd)|].
    split; [started|split; [congruence|split]].
    + intros _. right. left. reflexivity.
    + unfold xml_Decode. rewrite (NewDecoder_date _ Hd Pd). run_unmarshal.
      rewrite (UnmarshalText_MarshalText t Ht). reflexivity.
  - eexists. split; [reflexivity|]. split; [apply NewDecoder_empty|].
    split; [started|split; [congruence|split; [congruence|reflexivity]]].
  - pose proof (Hod t eq_refl) as Ht. destruct (plain_format t Ht) as [Pd Hd].
    eexists. split; [reflexivity|].
    split; [apply (NewDecoder_mode_date _ _ Hm Pm Hd Pd)|].
    split; [started|split; [|split]].
    + intros _. right. left. reflexivity.
    + intros _. do 4 right. left. reflexivity.
    + unfold xml_Decode. rewrite (NewDecoder_mode_date _ _ Hm Pm Hd Pd). run_unmarshal.
      rewrite (UnmarshalText_MarshalText t Ht). reflexivity.
  - eexists. split; [reflexivity|]. split; [apply (NewDecoder_mode _ Hm Pm)|].
    split; [started|split; [|split; [congruence|]]].
    + intros _. right. left. reflexivity.
    + unfold xml_Decode. rewrite (NewDecoder_mode _ Hm Pm). run_unmarshal.
      reflexivity.
Qed.

(** Outside the representable timestamps the encoder fails, and the
    decoder records the name of the element it read. *)
Example MarshalText_year_10000 :
  xml_Marshal (Some (mkObjectRetention "" (xml.mkName "" "") ""
                       (Some (time.Date 10000 1 1 0 0 0 0)))) =
  Err (errors_New "Time.MarshalText: year outside of range [0,9999]").
Proof. vm_compute. reflexivity. Qed.

Example Decode_records_XMLName :
  xml_Decode "<Retention></Retention>" zeroObjectRetention =
  Ok (mkObjectRetention "" (xml.mkName "" "Retention") "" None).
Proof. vm_compute. reflexivity. Qed.

(** C2, as amended: for every configuration [newObjectRetention] builds,
    from a mode that is unset, GOVERNANCE or COMPLIANCE and a date that is
    unset or a UTC instant of a year within [0, 9999], decoding its
    encoding gives back its mode and its date; an unset field has no
    element in the document, a set field has one, and a document without
    the element of a field decodes to that field unset. *)
Theorem retention_roundtrip (mode : option RetentionMode) (date : option time.Time)
    (c : objectRetention) :
  newObjectRetention mode date = (Some c, None) ->
  (forall t, date = Some t -> representable t = true) ->
  exists data c',
    xml_Marshal (Some c) = Ok data /\
    xml_Decode data zeroObjectRetention = Ok c' /\
    Mode c' = Mode c /\ RetainUntilDate c' = RetainUntilDate c /\
    XMLNS c' = XMLNS c /\
    (Mode c = "" <-> no_element "Mode" data) /\
    (RetainUntilDate c = None <-> no_element "RetainUntilDate" data) /\
    (forall body r,
       xml_Decode body zeroObjectRetention = Ok r ->
       (no_element "Mode" body -> Mode r = "") /\
       (no_element "RetainUntilDate" body -> RetainUntilDate r = None)).
Proof.
  intros H Hrep.
  destruct (newObjectRetention_Some mode date c H) as (Hc & Hm & Hd).
  assert (xml.forall_bytes plain (Mode c) = true) as Pm.
  { destruct Hm as [[-> _]|[_ [-> | ->]]]; reflexivity. }
  assert (forall t, RetainUntilDate c = Some t -> representable t = true) as Hod.
  { intros t Ht. rewrite Hd in Ht. destruct date as [d|]; [|discriminate].
    destruct (time.IsZero d); [discriminate|]. injection Ht as <-.
    apply Hrep. reflexivity. }
  destruct (Marshal_Decode (xml.mkName "" "") (Mode c) (RetainUntilDate c)
              zeroObjectRetention Pm Hod)
    as (data & toks & HM & HT & Hin & Hmode & Hdate & HD).
  rewrite <- Hc in HM. exists data. eexists.
  split; [exact HM|]. split; [exact HD|]. cbn [Mode RetainUntilDate XMLNS].
  split; [destruct (String.eqb_spec (Mode c) "") as [E|E];
          [symmetry; exact E | reflexivity]|].
  split; [destruct (RetainUntilDate c); reflexivity|].
  split; [rewrite Hc; reflexivity|].
  unfold no_element. rewrite HT. cbn [fst].
  split; [|split].
  - split.
    + intros E n attr Hi.
      destruct (Hin n attr Hi) as [-> | [[_ Hne] | [-> _]]];
        [discriminate | contradiction | discriminate].
    + intros Hno. destruct (String.eqb_spec (Mode c) "") as [E|E]; [exact E|].
      exfalso. exact (Hno _ _ (Hmode E) eq_refl).
  - split.
    + intros E n attr Hi.
      destruct (Hin n attr Hi) as [-> | [[-> _] | [_ Hne]]];
        [discriminate | discriminate | contradiction].
    + intros Hno. destruct (RetainUntilDate c) as [t|] eqn:E; [|reflexivity].
      exfalso. exact (Hno _ _ (Hdate ltac:(discriminate)) eq_refl).
  - intros body r Hr. exact (Decode_absent body zeroObjectRetention r Hr).
Qed.

Section ClientProperties.

Context `{Env : Collaborators Context_ world sse_Configuration}.

(** ** The client calls: what is sent and what comes back *)

Lemma requests_none (c : @Client world) : requests c c = [].
Proof. unfold requests. apply drop_all. Qed.

Lemma requests_one (c : @Client world) (r : string * requestMetadata) (w : world) :
  requests c (mkClient (sent c ++ [r]) w) = [r].
Proof. unfold requests. cbn [sent]. apply drop_app_length. Qed.

(** The query of the two retention calls. *)
Lemma retention_query (versionID : string) :
  let q := if negb (String.eqb versionID "")
           then url_Values_Set "versionId" versionID (url_Values_Set "retention" "" ∅)
           else url_Values_Set "retention" "" ∅ in
  q !! "retention" = Some [""] /\
  q !! "versionId" = if String.eqb versionID "" then None else Some [versionID].
Proof.
  unfold url_Values_Set. destruct (String.eqb versionID ""); cbn [negb]; cbv zeta.
  - split; [apply lookup_insert_eq|]. rewrite lookup_insert_ne by discriminate.
    apply lookup_empty.
  - split; [|apply lookup_insert_eq]. rewrite lookup_insert_ne by discriminate.
    apply lookup_insert_eq.
Qed.

(** [PutObjectRetention] either stops before the transport and leaves the
    client as it was, or sends one request and classifies the answer. *)
Lemma PutObjectRetention_run (c : @Client world) (ctx : Context_)
    (bucket object : string) (opts : PutObjectRetentionOptions) :
  (PutObjectRetention c ctx bucket object opts).2 = c \/
  exists retention data,
    CheckValidBucketName bucket = None /\ CheckValidObjectName object = None /\
    newObjectRetention (opts_Mode opts) (opts_RetainUntilDate opts) = (retention, None) /\
    xml_Marshal retention = Ok data /\
    let meta :=
      mkRequestMetadata bucket object
        (if negb (String.eqb (VersionID opts) "")
         then url_Values_Set "versionId" (VersionID opts) (url_Values_Set "retention" "" ∅)
         else url_Values_Set "retention" "" ∅)
        (Some data) (int64_len data) (sumMD5Base64 data) (sum256Hex data)
        (if GovernanceBypass opts
         then Header_Set amzBypassGovernance "true" ∅ else ∅) in
    PutObjectRetention c ctx bucket object opts =
    (match (transport ctx http_MethodPut meta (remote c)).1 with
     | (_, Some err) => Returns (Some err)
     | (Some resp, None) =>
         if negb (StatusCode resp =? http_StatusOK) &&
            negb (StatusCode resp =? http_StatusNoContent)
         then Returns (httpRespToErrorResponse resp bucket object)
         else Returns None
     | (None, None) => Returns None
     end,
     mkClient (sent c ++ [(http_MethodPut, meta)])
       (transport ctx http_MethodPut meta (remote c)).2).
Proof.
  unfold PutObjectRetention.
  destruct (CheckValidBucketName bucket); [left; reflexivity|].
  destruct (CheckValidObjectName object); [left; reflexivity|].
  destruct (newObjectRetention (opts_Mode opts) (opts_RetainUntilDate opts))
    as [retention [err|]]; [left; reflexivity|].
  destruct (xml_Marshal retention) as [data|err|] eqn:EM;
    [|left; reflexivity|left; reflexivity].
  right. exists retention, data. repeat (split; [reflexivity|]).
  split; [exact EM|]. cbv zeta. unfold executeMethod.
  destruct (transport ctx http_MethodPut _ (remote c)) as [[[resp|] [err|]] w];
    cbn [fst snd]; try reflexivity.
  destruct (negb (StatusCode resp =? http_StatusOK) &&
            negb (StatusCode resp =? http_StatusNoContent)); reflexivity.
Qed.

Lemma GetObjectRetention_run (c : @Client world) (ctx : Context_)
    (bucket object versionID : string) :
  (GetObjectRetention c ctx bucket object versionID).2 = c /\
  (forall mode date, (GetObjectRetention c ctx bucket object versionID).1 <>
                     Returns (mode, date, None)) \/
  CheckValidBucketName bucket = None /\ CheckValidObjectName object = None /\
  let meta :=
    mkRequestMetadata bucket object
      (if negb (String.eqb versionID "")
       then url_Values_Set "versionId" versionID (url_Values_Set "retention" "" ∅)
       else url_Values_Set "retention" "" ∅)
      None 0 "" emptySHA256Hex ∅ in
  GetObjectRetention c ctx bucket object versionID =
  (match (transport ctx http_MethodGet meta (remote c)).1 with
   | (_, Some err) => Returns (None, None, Some err)
   | (Some resp, None) =>
       if negb (StatusCode resp =? http_StatusOK)
       then Returns (None, None, httpRespToErrorResponse resp bucket object)
       else match xml_Decode (Body resp) zeroObjectRetention with
            | Unmodelled => Outside
            | Err err => Returns (None, None, Some err)
            | Ok retention =>
                Returns (Some (Mode retention), RetainUntilDate retention, None)
            end
   | (None, None) => Panics
   end,
   mkClient (sent c ++ [(http_MethodGet, meta)])
     (transport ctx http_MethodGet meta (remote c)).2).
Proof.
  unfold GetObjectRetention.
  destruct (CheckValidBucketName bucket);
    [left; split; [reflexivity | intros ? ?; discriminate]|].
  destruct (CheckValidObjectName object);
    [left; split; [reflexivity | intros ? ?; discriminate]|].
  right. repeat (split; [reflexivity|]). cbv zeta. unfold executeMethod.
  destruct (transport ctx http_MethodGet _ (remote c)) as [[[resp|] [err|]] w];
    cbn [fst snd]; try reflexivity.
  destruct (negb (StatusCode resp =? http_StatusOK)); [reflexivity|].
  destruct (xml_Decode (Body resp) zeroObjectRetention); reflexivity.
Qed.

Lemma SetBucketEncryption_run (c : @Client world) (ctx : Context_) (bucket : string)
    (config : sse_Configuration) (buf : string) :
  CheckValidBucketName bucket = None -> sse_Marshal config = Ok buf ->
  let meta :=
    mkRequestMetadata bucket "" (url_Values_Set "encryption" "" ∅) (Some buf)
      (int64_len buf) (sumMD5Base64 buf) "" ∅ in
  SetBucketEncryption c ctx bucket (Some config) =
  (match (transport ctx http_MethodPut meta (remote c)).1 with
   | (_, Some err) => Returns (Some err)
   | (Some resp, None) =>
       if negb (StatusCode resp =? http_StatusOK)
       then Returns (httpRespToErrorResponse resp bucket "")
       else Returns None
   | (None, None) => Panics
   end,
   mkClient (sent c ++ [(http_MethodPut, meta)])
     (transport ctx http_MethodPut meta (remote c)).2).
Proof.
  intros Hb Hm. unfold SetBucketEncryption. rewrite Hb, Hm. cbv zeta.
  unfold executeMethod.
  destruct (transport ctx http_MethodPut _ (remote c)) as [[[resp|] [err|]] w];
    cbn [fst snd]; try reflexivity.
  destruct (negb (StatusCode resp =? http_StatusOK)); reflexivity.
Qed.

Lemma RemoveBucketEncryption_run (c : @Client world) (ctx : Context_) (bucket : string) :
  CheckValidBucketName bucket = None ->
  let meta :=
    mkRequestMetadata bucket "" (url_Values_Set "encryption" "" ∅) None 0 ""
      emptySHA256Hex ∅ in
  RemoveBucketEncryption c ctx bucket =
  (match (transport ctx http_MethodDelete meta (remote c)).1 with
   | (_, Some err) => Returns (Some err)
   | (Some resp, None) =>
       if negb (StatusCode resp =? http_StatusOK) &&
          negb (StatusCode resp =? http_StatusNoContent)
       then Returns (httpRespToErrorResponse resp bucket "")
       else Returns None
   | (None, None) => Panics
   end,
   mkClient (sent c ++ [(http_MethodDelete, meta)])
     (transport ctx http_MethodDelete meta (remote c)).2).
Proof.
  intros Hb. unfold RemoveBucketEncryption. rewrite Hb. cbv zeta.
  unfold executeMethod.
  destruct (transport ctx http_MethodDelete _ (remote c)) as [[[resp|] [err|]] w];
    cbn [fst snd]; try reflexivity.
  destruct (negb (StatusCode resp =? http_StatusOK) &&
            negb (StatusCode resp =? http_StatusNoContent)); reflexivity.
Qed.

Lemma GetBucketEncryption_run (c : @Client world) (ctx : Context_) (bucket : string) :
  CheckValidBucketName bucket = None ->
  let meta :=
    mkRequestMetadata bucket "" (url_Values_Set "encryption" "" ∅) None 0 "" "" ∅ in
  GetBucketEncryption c ctx bucket =
  (match (transport ctx http_MethodGet meta (remote c)).1 with
   | (_, Some err) => Returns (None, Some err)
   | (Some resp, None) =>
       if negb (StatusCode resp =? http_StatusOK)
       then Returns (None, httpRespToErrorResponse resp bucket "")
       else match sse_Decode (Body resp) with
            | Unmodelled => Outside
            | Err err => Returns (None, Some err)
            | Ok encryptionConfig => Returns (Some encryptionConfig, None)
            end
   | (None, None) => Panics
   end,
   mkClient (sent c ++ [(http_MethodGet, meta)])
     (transport ctx http_MethodGet meta (remote c)).2).
Proof.
  intros Hb. unfold GetBucketEncryption. rewrite Hb. cbv zeta.
  unfold executeMethod.
  destruct (transport ctx http_MethodGet _ (remote c)) as [[[resp|] [err|]] w];
    cbn [fst snd]; try reflexivity.
  destruct (negb (StatusCode resp =? http_StatusOK)); [reflexivity|].
  destruct (sse_Decode (Body resp)); reflexivity.
Qed.

Lemma Header_bypass (bypass : bool) :
  Header_Values amzBypassGovernance
    (if bypass then Header_Set amzBypassGovernance "true" ∅ else ∅) =
  if bypass then Some ["true"] else None.
Proof.
  unfold Header_Values, Header_Set. destruct bypass.
  - apply lookup_insert_eq.
  - apply lookup_empty.
Qed.

(** The request of a [PutObjectRetention] call, when there is one. *)
Lemma PutObjectRetention_request (c : @Client world) (ctx : Context_)
    (bucket object : string) (opts : PutObjectRetentionOptions)
    (method : string) (meta : requestMetadata) :
  In (method, meta) (requests c (PutObjectRetention c ctx bucket object opts).2) ->
  method = http_MethodPut /\
  bucketName meta = bucket /\ objectName meta = object /\
  queryValues meta =
    (if negb (String.eqb (VersionID opts) "")
     then url_Values_Set "versionId" (VersionID opts) (url_Values_Set "retention" "" ∅)
     else url_Values_Set "retention" "" ∅) /\
  customHeader meta =
    (if GovernanceBypass opts then Header_Set amzBypassGovernance "true" ∅ else ∅).
Proof.
  intros Hin.
  destruct (PutObjectRetention_run c ctx bucket object opts)
    as [E | (retention & data & _ & _ & _ & _ & E)].
  - rewrite E, requests_none in Hin. destruct Hin.
  - cbv zeta in E. rewrite E in Hin. cbn [snd] in Hin. rewrite requests_one in Hin.
    destruct Hin as [[= <- <-]|[]]. repeat split; reflexivity.
Qed.

(** C3: a request sent by [PutObjectRetention] carries the
    governance-bypass header, with the single value "true", exactly when
    the caller set [GovernanceBypass]; when the flag is false the request
    has no header at all, so the header is absent and not "false". *)
Theorem PutObjectRetention_bypass_header (c : @Client world) (ctx : Context_)
    (bucket object : string) (opts : PutObjectRetentionOptions)
    (method : string) (meta : requestMetadata) :
  In (method, meta) (requests c (PutObjectRetention c ctx bucket object opts).2) ->
  (Header_Values amzBypassGovernance (customHeader meta) = Some ["true"] <->
   GovernanceBypass opts = true) /\
  Header_Values amzBypassGovernance (customHeader meta) =
    (if GovernanceBypass opts then Some ["true"] else None) /\
  customHeader meta =
    (if GovernanceBypass opts
     then {[CanonicalMIMEHeaderKey amzBypassGovernance := ["true"]]} else ∅).
Proof.
  intros Hin.
  destruct (PutObjectRetention_request c ctx bucket object opts method meta Hin)
    as (_ & _ & _ & _ & ->).
  rewrite Header_bypass. destruct (GovernanceBypass opts);
    (split; [split; intros; (reflexivity || discriminate)|]); split; reflexivity.
Qed.

(** C4, as amended: for a [PutObjectRetention] call whose mode is
    COMPLIANCE the request carries the governance-bypass header, with the
    value "true", exactly when the caller set [GovernanceBypass], and none
    when the flag is unset. *)
Theorem PutObjectRetention_compliance_header (c : @Client world) (ctx : Context_)
    (bucket object : string) (opts : PutObjectRetentionOptions)
    (method : string) (meta : requestMetadata) :
  opts_Mode opts = Some Compliance ->
  In (method, meta) (requests c (PutObjectRetention c ctx bucket object opts).2) ->
  Header_Values amzBypassGovernance (customHeader meta) =
    (if GovernanceBypass opts then Some ["true"] else None).
Proof.
  intros _ Hin.
  destruct (PutObjectRetention_request c ctx bucket object opts method meta Hin)
    as (_ & _ & _ & _ & ->).
  apply Header_bypass.
Qed.

(** C7: a request sent by [PutObjectRetention] or [GetObjectRetention]
    always has the query marker [retention], and has the parameter
    [versionId], set to the version id supplied, exactly when that id is
    not empty. *)
Theorem retention_versionId_query (c : @Client world) (ctx : Context_)
    (bucket object versionID : string) (opts : PutObjectRetentionOptions)
    (method : string) (meta : requestMetadata) :
  (In (method, meta) (requests c (PutObjectRetention c ctx bucket object opts).2) ->
   queryValues meta !! "retention" = Some [""] /\
   queryValues meta !! "versionId" =
     if String.eqb (VersionID opts) "" then None else Some [VersionID opts]) /\
  (In (method, meta) (requests c (GetObjectRetention c ctx bucket object versionID).2) ->
   queryValues meta !! "retention" = Some [""] /\
   queryValues meta !! "versionId" =
     if String.eqb versionID "" then None else Some [versionID]).
Proof.
  split; intros Hin.
  - destruct (PutObjectRetention_request c ctx bucket object opts method meta Hin)
      as (_ & _ & _ & -> & _).
    apply retention_query.
  - destruct (GetObjectRetention_run c ctx bucket object versionID)
      as [[E _] | (_ & _ & E)].
    + rewrite E, requests_none in Hin. destruct Hin.
    + cbv zeta in E. rewrite E in Hin. cbn [snd] in Hin. rewrite requests_one in Hin.
      destruct Hin as [[= <- <-]|[]]. cbn [queryValues]. apply retention_query.
Qed.

(** C6: with a valid bucket name and a nil configuration,
    [SetBucketEncryption] returns the invalid-argument error and leaves the
    client as it was: nothing has been sent and the remote store is
    untouched, whatever the encoder and the transport are. *)
Theorem SetBucketEncryption_nil_config (c : @Client world) (ctx : Context_)
    (bucket : string) :
  CheckValidBucketName bucket = None ->
  SetBucketEncryption c ctx bucket None =
    (Returns (Some (errInvalidArgument "configuration cannot be empty")), c) /\
  requests c (SetBucketEncryption c ctx bucket None).2 = [] /\
  remote (SetBucketEncryption c ctx bucket None).2 = remote c.
Proof.
  intros Hb. unfold SetBucketEncryption. rewrite Hb. cbn [snd].
  rewrite requests_none. repeat split.
Qed.

Ltac answered E Hreq Hans :=
  cbv zeta in E; rewrite E in Hreq |- *; cbn [fst snd] in Hreq |- *;
  rewrite requests_one in Hreq; injection Hreq as <-; rewrite Hans; cbn [fst];
  unfold http_StatusOK, http_StatusNoContent;
  repeat match goal with
         | |- context [match ?o with Some _ => _ | None => _ end] =>
             is_var o; destruct o
         end;
  repeat match goal with
         | |- context [StatusCode ?r =? ?k] => destruct (StatusCode r =? k)
         end;
  cbn [negb andb orb]; try reflexivity.

(** C5, as amended: whatever the transport gives for the request of a
    call, the call classifies it.  An error of the transport is returned
    as it is.  With a response and no error, retention SET and encryption
    REMOVE return no error at status 200 and 204, and encryption SET at
    200; retention GET and encryption GET at status 200 return what
    decoding the body gives, the decoded value or the error of the
    decoder.  At every other status each call returns what
    [httpRespToErrorResponse] makes of the response, the bucket and, for
    retention, the object: the service error, or no error where the
    helper finds none.  With neither a response nor an error retention
    SET returns no error and the other four calls panic. *)
Theorem response_status_classification (c : @Client world) (ctx : Context_)
    (bucket object versionID : string) (opts : PutObjectRetentionOptions)
    (config : option sse_Configuration)
    (meta : requestMetadata) (resp : option Response) (err : option error)
    (w : world) :
  (requests c (PutObjectRetention c ctx bucket object opts).2 = [(http_MethodPut, meta)] ->
   transport ctx http_MethodPut meta (remote c) = ((resp, err), w) ->
   (PutObjectRetention c ctx bucket object opts).1 =
     match err, resp with
     | Some e, _ => Returns (Some e)
     | None, Some r =>
         Returns (if (StatusCode r =? 200) || (StatusCode r =? 204) then None
                  else httpRespToErrorResponse r bucket object)
     | None, None => Returns None
     end) /\
  (requests c (GetObjectRetention c ctx bucket object versionID).2 =
     [(http_MethodGet, meta)] ->
   transport ctx http_MethodGet meta (remote c) = ((resp, err), w) ->
   (GetObjectRetention c ctx bucket object versionID).1 =
     match err, resp with
     | Some e, _ => Returns (None, None, Some e)
     | None, Some r =>
         if StatusCode r =? 200
         then match xml_Decode (Body r) zeroObjectRetention with
              | Ok retention =>
                  Returns (Some (Mode retention), RetainUntilDate retention, None)
              | Err e => Returns (None, None, Some e)
              | Unmodelled => Outside
              end
         else Returns (None, None, httpRespToErrorResponse r bucket object)
     | None, None => Panics
     end) /\
  (requests c (SetBucketEncryption c ctx bucket config).2 = [(http_MethodPut, meta)] ->
   transport ctx http_MethodPut meta (remote c) = ((resp, err), w) ->
   (SetBucketEncryption c ctx bucket config).1 =
     match err, resp with
     | Some e, _ => Returns (Some e)
     | None, Some r =>
         Returns (if StatusCode r =? 200 then None
                  else httpRespToErrorResponse r bucket "")
     | None, None => Panics
     end) /\
  (requests c (RemoveBucketEncryption c ctx bucket).2 = [(http_MethodDelete, meta)] ->
   transport ctx http_MethodDelete meta (remote c) = ((resp, err), w) ->
   (RemoveBucketEncryption c ctx bucket).1 =
     match err, resp with
     | Some e, _ => Returns (Some e)
     | None, Some r =>
         Returns (if (StatusCode r =? 200) || (StatusCode r =? 204) then None
                  else httpRespToErrorResponse r bucket "")
     | None, None => Panics
     end) /\
  (requests c (GetBucketEncryption c ctx bucket).2 = [(http_MethodGet, meta)] ->
   transport ctx http_MethodGet meta (remote c) = ((resp, err), w) ->
   (GetBucketEncryption c ctx bucket).1 =
     match err, resp with
     | Some e, _ => Returns (None, Some e)
     | None, Some r =>
         if StatusCode r =? 200
         then match sse_Decode (Body r) with
              | Ok encryptionConfig => Returns (Some encryptionConfig, None)
              | Err e => Returns (None, Some e)
              | Unmodelled => Outside
              end
         else Returns (None, httpRespToErrorResponse r bucket "")
     | None, None => Panics
     end).
Proof.
  split; [|split; [|split; [|split]]]; intros Hreq Hans.
  - destruct (PutObjectRetention_run c ctx bucket object opts)
      as [E | (retention & data & _ & _ & _ & _ & E)];
      [rewrite E, requests_none in Hreq; discriminate|].
    answered E Hreq Hans.
  - destruct (GetObjectRetention_run c ctx bucket object versionID)
      as [[E _] | (_ & _ & E)];
      [rewrite E, requests_none in Hreq; discriminate|].
    answered E Hreq Hans.
  - destruct (CheckValidBucketName bucket) eqn:Hb, config as [config|];
      try (unfold SetBucketEncryption in Hreq; rewrite Hb in Hreq;
           rewrite requests_none in Hreq; discriminate).
    destruct (sse_Marshal config) as [buf|e|] eqn:Hm;
      try (unfold SetBucketEncryption in Hreq; rewrite Hb, Hm in Hreq;
           rewrite requests_none in Hreq; discriminate).
    pose proof (SetBucketEncryption_run c ctx bucket config buf Hb Hm) as E.
    answered E Hreq Hans.
  - destruct (CheckValidBucketName bucket) eqn:Hb;
      [unfold RemoveBucketEncryption in Hreq; rewrite Hb in Hreq;
       rewrite requests_none in Hreq; discriminate|].
    pose proof (RemoveBucketEncryption_run c ctx bucket Hb) as E.
    answered E Hreq Hans.
  - destruct (CheckValidBucketName bucket) eqn:Hb;
      [unfold GetBucketEncryption in Hreq; rewrite Hb in Hreq;
       rewrite requests_none in Hreq; discriminate|].
    pose proof (GetBucketEncryption_run c ctx bucket Hb) as E.
    answered E Hreq Hans.
Qed.


(** C10, as amended: when the transport answers [GetObjectRetention] with
    status 200 and a body that decodes, the call returns no error and a
    mode pointer that is not nil, which holds the empty mode when the body
    has no [Mode] element.  A return without an error comes from such an
    answer, or else from an answer of another status in which
    [httpRespToErrorResponse] finds no error: there, and only there, a nil
    mode pointer comes with a nil error. *)
Theorem GetObjectRetention_mode_pointer (c : @Client world) (ctx : Context_)
    (bucket object versionID : string) :
  (forall meta resp w r,
     requests c (GetObjectRetention c ctx bucket object versionID).2 =
       [(http_MethodGet, meta)] ->
     transport ctx http_MethodGet meta (remote c) = ((Some resp, None), w) ->
     StatusCode resp = 200 ->
     xml_Decode (Body resp) zeroObjectRetention = Ok r ->
     (GetObjectRetention c ctx bucket object versionID).1 =
       Returns (Some (Mode r), RetainUntilDate r, None) /\
     (no_element "Mode" (Body resp) -> Mode r = "")) /\
  (forall mode date,
     (GetObjectRetention c ctx bucket object versionID).1 = Returns (mode, date, None) ->
     exists meta resp,
       requests c (GetObjectRetention c ctx bucket object versionID).2 =
         [(http_MethodGet, meta)] /\
       (transport ctx http_MethodGet meta (remote c)).1 = (Some resp, None) /\
       (StatusCode resp = 200 /\
        (exists m, mode = Some m /\ (no_element "Mode" (Body resp) -> m = "")) \/
        StatusCode resp <> 200 /\
        httpRespToErrorResponse resp bucket object = None /\
        mode = None /\ date = None)).
Proof.
  split.
  - intros meta resp w r Hreq Hans Hs Hd.
    destruct (GetObjectRetention_run c ctx bucket object versionID)
      as [[E _] | (_ & _ & E)];
      [rewrite E, requests_none in Hreq; discriminate|].
    cbv zeta in E. rewrite E in Hreq |- *. cbn [fst snd] in Hreq |- *.
    rewrite requests_one in Hreq. injection Hreq as <-. rewrite Hans. cbn [fst].
    rewrite Hs, Hd. split; [reflexivity|].
    intros Hno. exact (proj1 (Decode_absent _ _ _ Hd) Hno).
  - intros mode date H.
    destruct (GetObjectRetention_run c ctx bucket object versionID)
      as [[_ E] | (_ & _ & E)]; [destruct (E mode date H)|].
    cbv zeta in E.
    match type of E with
    | context [transport ctx http_MethodGet ?m (remote c)] => set (meta := m) in E
    end.
    exists meta. rewrite E in H |- *. cbn [fst snd] in H |- *.
    rewrite requests_one.
    destruct (transport ctx http_MethodGet meta (remote c)) as [[[resp|] [err|]] w];
      cbn [fst] in H |- *; try discriminate.
    exists resp. split; [reflexivity|]. split; [reflexivity|].
    unfold http_StatusOK in H.
    destruct (StatusCode resp =? 200) eqn:Es; cbn [negb] in H.
    + left. split; [apply Z.eqb_eq, Es|].
      destruct (xml_Decode (Body resp) zeroObjectRetention) as [r| |] eqn:Ed;
        try discriminate.
      injection H as <- <-. exists (Mode r). split; [reflexivity|].
      intros Hno. exact (proj1 (Decode_absent _ _ _ Ed) Hno).
    + right. split; [apply Z.eqb_neq, Es|]. injection H as <- <- ->.
      repeat split.
Qed.

End ClientProperties.

(** ** Years that do not fit four digits *)

Lemma forall_bytes_get (p : ascii -> bool) (s : string) (i : nat) :
  xml.forall_bytes p s = true -> (i < String.length s)%nat ->
  exists c, byte_at i s = Some c /\ p c = true.
Proof.
  revert i. induction s as [|c s IH]; intros i H Hi; cbn [String.length] in Hi; [lia|].
  cbn [xml.forall_bytes] in H. apply andb_true_iff in H as [Hc Hs].
  destruct i as [|i].
  - exists c. split; [reflexivity | exact Hc].
  - apply (IH i Hs). lia.
Qed.

Lemma forall_bytes_zeros (w : nat) : xml.forall_bytes isDigit (zeros w) = true.
Proof. induction w as [|w IH]; [reflexivity|]. cbn [zeros xml.forall_bytes]. rewrite IH. reflexivity. Qed.

Lemma decimal_digits (u : Z) :
  0 <= u -> xml.forall_bytes isDigit (time.decimal u) = true.
Proof.
  intros Hu.
  assert (forall n v, 0 <= v < Z.of_nat n ->
                      xml.forall_bytes isDigit (time.decimal v) = true) as H.
  { induction n as [|n IH]; intros v Hv; [lia|].
    destruct (Z.ltb_spec v 10) as [Hs|Hs].
    - rewrite decimal_small by lia. cbn [xml.forall_bytes].
      rewrite isDigit_digit by lia. reflexivity.
    - rewrite decimal_step by lia. rewrite forall_bytes_app.
      rewrite IH by (Z.div_mod_to_equations; lia). cbn [xml.forall_bytes].
      rewrite isDigit_digit by apply mod10_range. reflexivity. }
  apply (H (S (Z.to_nat u))). lia.
Qed.

Lemma decimal_length (k : nat) (u : Z) :
  10 ^ Z.of_nat k <= u -> (k < String.length (time.decimal u))%nat.
Proof.
  revert u. induction k as [|k IH]; intros u Hu.
  - change (10 ^ Z.of_nat 0) with 1 in Hu.
    destruct (Z.ltb_spec u 10) as [Hs|Hs].
    + rewrite decimal_small by lia. cbn [String.length]. lia.
    + rewrite decimal_step, length_append by lia. cbn [String.length]. lia.
  - rewrite Nat2Z.inj_succ, Z.pow_succ_r in Hu by lia.
    assert (0 < 10 ^ Z.of_nat k) by (apply Z.pow_pos_nonneg; lia).
    rewrite decimal_step, length_append by lia. cbn [String.length].
    specialize (IH (u / 10)). assert (10 ^ Z.of_nat k <= u / 10) as Hd.
    { apply Z.div_le_lower_bound; lia. }
    specialize (IH Hd). lia.
Qed.

(** Outside [0, 9999] the year is written on at least five bytes, and the
    fifth is a digit. *)
Lemma appendInt_wide (x : Z) :
  ~ 0 <= x <= 9999 ->
  (4 < String.length (time.appendInt x 4))%nat /\
  exists c, byte_at 4 (time.appendInt x 4) = Some c /\ isDigit c = true.
Proof.
  intros Hx.
  assert (exists sign body,
            time.appendInt x 4 = sign +:+ body /\
            xml.forall_bytes isDigit body = true /\
            (sign = "-" /\ (3 < String.length body)%nat \/
             sign = "" /\ (4 < String.length body)%nat)) as (sign & body & -> & Hd & Hl).
  { unfold time.appendInt. cbv zeta.
    change (Nat.eqb 4 2) with false. change (Nat.eqb 4 4) with true. cbn [andb orb].
    destruct (Z.ltb_spec (Z.abs x) 10000) as [Hs|Hs].
    - destruct (Z.ltb_spec x 0) as [Hn|Hn]; [|lia].
      exists "-", (time.fixed 4 (Z.abs x)). split; [reflexivity|].
      split; [apply forall_bytes_fixed, isDigit_digit|].
      left. rewrite length_fixed. split; [reflexivity | lia].
    - pose proof (decimal_length 4 (Z.abs x) Hs) as Hl.
      exists (if x <? 0 then "-" else ""),
             (zeros (4 - String.length (time.decimal (Z.abs x))) +:+
              time.decimal (Z.abs x)).
      split; [reflexivity|]. split.
      + rewrite forall_bytes_app, forall_bytes_zeros, decimal_digits by lia. reflexivity.
      + rewrite length_append. destruct (x <? 0); [left | right]; (split; [reflexivity | lia]). }
  destruct Hl as [[-> Hl] | [-> Hl]]; norm_append; cbn [String.length].
  - split; [lia|]. exact (forall_bytes_get isDigit body 3 Hd Hl).
  - split; [lia|]. exact (forall_bytes_get isDigit body 4 Hd Hl).
Qed.

Lemma MarshalText_out_of_range (t : time.Time) :
  ~ 0 <= time.Year t <= 9999 ->
  time.MarshalText t =
  Err (errors_New "Time.MarshalText: year outside of range [0,9999]").
Proof.
  intros Hy. destruct (appendInt_wide (time.Year t) Hy) as (Hl & c & Hc & Hd).
  unfold time.MarshalText. cbv zeta.
  assert (byte_at 4 (time.appendFormatRFC3339 t) = Some c) as ->.
  { unfold time.appendFormatRFC3339, time.appendNano. cbv zeta.
    set (year := time.appendInt (time.Year t) 4) in *.
    match goal with |- context [year +:+ ?r] => set (rest := r) end.
    unfold byte_at in *.
    destruct (time.Nanosecond t =? 0).
    - rewrite append_assoc, <- (String.append_correct1 year) by exact Hl. exact Hc.
    - change ("." +:+ time.appendInt (time.Nanosecond t) 9)
        with (String "." (time.appendInt (time.Nanosecond t) 9)).
      rewrite trimRight0_after by reflexivity.
      rewrite !append_assoc, <- (String.append_correct1 year) by exact Hl. exact Hc. }
  assert (Ascii.eqb c "-" = false) as E.
  { destruct (Ascii.eqb_spec c "-") as [->|]; [discriminate Hd | reflexivity]. }
  unfold is_byte. rewrite E. reflexivity.
Qed.

(** ** The retention document of a call *)

(** A constructor call gives a configuration or an error, never both and
    never neither. *)
Lemma newObjectRetention_cases (mode : option RetentionMode) (date : option time.Time) :
  (exists c, newObjectRetention mode date = (Some c, None) /\
             forall m, mode = Some m -> IsValid m = true) \/
  (exists m, mode = Some m /\ IsValid m = false /\
             newObjectRetention mode date =
             (None, Some (fmt_Errorf "invalid retention mode `%v`" mode))).
Proof.
  unfold newObjectRetention. destruct mode as [m|].
  - destruct (IsValid m) eqn:E; cbn [negb].
    + left. eexists. split; [reflexivity|]. intros m' [= <-]. exact E.
    + right. exists m. split; [reflexivity|]. split; [exact E | reflexivity].
  - left. eexists. split; [reflexivity|]. intros m [=].
Qed.

(** The encoder on a constructed configuration: with a date that
    [MarshalText] can write it gives the document, and with a year outside
    [0, 9999] the error of [MarshalText]. *)
Lemma xml_Marshal_constructed (mode : option RetentionMode) (date : option time.Time)
    (c : objectRetention) :
  newObjectRetention mode date = (Some c, None) ->
  (forall d, RetainUntilDate c = Some d -> representable d = true) ->
  xml.forall_bytes plain (Mode c) = true /\
  xml_Marshal (Some c) =
    Ok ("<Retention>" +:+
        match mode with
        | Some m => "<Mode>" +:+ m +:+ "</Mode>"
        | None => ""
        end +:+
        match RetainUntilDate c with
        | None => ""
        | Some t => "<RetainUntilDate>" +:+ time.appendFormatRFC3339 t +:+
                    "</RetainUntilDate>"
        end +:+ "</Retention>").
Proof.
  intros H Hr. destruct (newObjectRetention_Some mode date c H) as (Hc & Hm & Hd).
  assert (xml.forall_bytes plain (Mode c) = true) as Pm.
  { destruct Hm as [[-> _]|[_ [-> | ->]]]; reflexivity. }
  split; [exact Pm|]. rewrite Hc at 1.
  rewrite (xml_Marshal_shape _ (Mode c) (RetainUntilDate c) Pm Hr).
  destruct Hm as [[-> ->]|[-> [-> | ->]]]; reflexivity.
Qed.

Lemma xml_Marshal_out_of_range (mode : option RetentionMode) (date : option time.Time)
    (c : objectRetention) (d : time.Time) :
  newObjectRetention mode date = (Some c, None) ->
  RetainUntilDate c = Some d -> ~ 0 <= time.Year d <= 9999 ->
  xml_Marshal (Some c) =
    Err (errors_New "Time.MarshalText: year outside of range [0,9999]").
Proof.
  intros H Ed Hy. destruct (newObjectRetention_Some mode date c H) as (Hc & Hm & Hd).
  assert (xml.forall_bytes plain (Mode c) = true) as Pm.
  { destruct Hm as [[-> _]|[_ [-> | ->]]]; reflexivity. }
  rewrite Hc. unfold xml_Marshal. cbn [XMLNS Mode RetainUntilDate]. rewrite Ed.
  change (String.eqb "" "") with true. cbv iota. cbn [mbind result_bind].
  destruct (String.eqb (Mode c) ""); cbn [mbind result_bind];
    rewrite ?(EscapeText_plain _ Pm); cbn [mbind result_bind];
    rewrite (MarshalText_out_of_range d Hy); reflexivity.
Qed.

(** The date a constructed configuration keeps. *)
Lemma constructed_date (mode : option RetentionMode) (date : option time.Time)
    (c : objectRetention) :
  newObjectRetention mode date = (Some c, None) ->
  RetainUntilDate c =
    match date with
    | Some d => if time.IsZero d then None else Some d
    | None => None
    end /\
  Mode c = default "" mode.
Proof.
  intros H. destruct (newObjectRetention_Some mode date c H) as (_ & Hm & Hd).
  split; [exact Hd|]. destruct Hm as [[-> ->]|[-> _]]; reflexivity.
Qed.

(** ** What the decoder passes over *)

(** Before the root element the decoder passes over everything that is
    not a start element, and a root of another name is refused. *)
Lemma unmarshal_wrong_root (v : objectRetention) (pre rest : list xml.Token)
    (n : xml.Name) (attr : list xml.Attr) (e : xml.Ending) :
  (forall n' a', ~ In (xml.StartElement n' a') pre) ->
  xml.Local n <> "Retention" ->
  unmarshal v (pre ++ xml.StartElement n attr :: rest) e =
  Err (xml_UnmarshalError ("expected element type <Retention> but have <"
                            +:+ xml.Local n +:+ ">")).
Proof.
  intros Hpre Hn. induction pre as [|t pre IH]; cbn [app unmarshal].
  - destruct (String.eqb_spec (xml.Local n) "Retention") as [E|_]; [contradiction|].
    reflexivity.
  - destruct t as [n' a'|n'|d|target inst].
    + exfalso. apply (Hpre n' a'). left. reflexivity.
    + apply IH. intros n'' a'' Hin. apply (Hpre n'' a''). right. exact Hin.
    + apply IH. intros n'' a'' Hin. apply (Hpre n'' a''). right. exact Hin.
    + apply IH. intros n'' a'' Hin. apply (Hpre n'' a''). right. exact Hin.
Qed.





(** A date kept by a constructed configuration can be written, or its year
    does not fit. *)
Lemma constructed_date_cases (mode : option RetentionMode) (date : option time.Time)
    (c : objectRetention) :
  newObjectRetention mode date = (Some c, None) ->
  (forall d, date = Some d -> time.valid d = true) ->
  (forall d, RetainUntilDate c = Some d -> representable d = true) \/
  exists d, RetainUntilDate c = Some d /\ ~ 0 <= time.Year d <= 9999.
Proof.
  intros Hr Hv. destruct (constructed_date _ _ _ Hr) as [Hd _].
  destruct (RetainUntilDate c) as [d|] eqn:Ed; [|left; intros d [=]].
  assert (time.valid d = true) as Hvd.
  { apply Hv. destruct date as [d'|]; [|discriminate].
    destruct (time.IsZero d'); [discriminate | congruence]. }
  destruct (Z.leb_spec 0 (time.Year d)) as [H0|H0];
    [destruct (Z.leb_spec (time.Year d) 9999) as [H9|H9]|].
  - left. intros d' [= <-]. unfold representable. rewrite Hvd. cbn [andb].
    apply andb_true_iff. split; apply Z.leb_le; lia.
  - right. exists d. split; [reflexivity | lia].
  - right. exists d. split; [reflexivity | lia].
Qed.

(** The document of a constructed configuration, when the encoder gives
    one, and what it decodes to. *)
Lemma constructed_document (mode : option RetentionMode) (date : option time.Time)
    (retention : option objectRetention) (data : string) :
  newObjectRetention mode date = (retention, None) ->
  (forall d, date = Some d -> time.valid d = true) ->
  xml_Marshal retention = Ok data ->
  data =
    "<Retention>" +:+
    match mode with
    | Some m => "<Mode>" +:+ m +:+ "</Mode>"
    | None => ""
    end +:+
    match date with
    | Some d =>
        if time.IsZero d then ""
        else "<RetainUntilDate>" +:+ time.appendFormatRFC3339 d +:+ "</RetainUntilDate>"
    | None => ""
    end +:+ "</Retention>" /\
  xml_Decode data zeroObjectRetention =
    Ok (mkObjectRetention "" (xml.mkName "" "Retention") (default "" mode)
          match date with
          | Some d => if time.IsZero d then None else Some d
          | None => None
          end).
Proof.
  intros Hn Hv HM.
  destruct (newObjectRetention_cases mode date) as [(c & Hr & _) | (m & _ & _ & Hr)];
    [|rewrite Hr in Hn; discriminate].
  rewrite Hr in Hn. injection Hn as <-.
  destruct (constructed_date _ _ _ Hr) as [Hd Hm].
  destruct (constructed_date_cases _ _ _ Hr Hv) as [Hok|(d & Ed & Hy)];
    [|rewrite (xml_Marshal_out_of_range _ _ c d Hr Ed Hy) in HM; discriminate].
  destruct (xml_Marshal_constructed _ _ c Hr Hok) as [Pm HS].
  destruct (newObjectRetention_Some mode date c Hr) as (Hc & _ & _).
  destruct (Marshal_Decode (xml.mkName "" "") (Mode c) (RetainUntilDate c)
              zeroObjectRetention Pm Hok) as (data' & toks & HM' & _ & _ & _ & _ & HD).
  rewrite <- Hc, HM in HM'. injection HM' as <-.
  rewrite HM in HS. injection HS as HS. split.
  - rewrite HS, Hd. destruct date as [d|]; [destruct (time.IsZero d)|]; reflexivity.
  - rewrite HD. cbn [XMLNS Mode RetainUntilDate zeroObjectRetention].
    rewrite <- Hm, <- Hd.
    destruct (String.eqb_spec (Mode c) "") as [<-|_], (RetainUntilDate c); reflexivity.
Qed.

(** ** A root element that declares a name space *)

Lemma plain_unquoted (c : ascii) : plain c = true -> Ascii.eqb xml.quot c = false.
Proof. by_byte c. Qed.

(** A quoted attribute value made of plain bytes. *)
Lemma text_loop_quoted (s rest : string) (b0 b1 : ascii) :
  xml.forall_bytes plain s = true ->
  xml.text_loop (Some xml.quot) 0 b0 b1 (s +:+ String xml.quot rest) = Ok (s, rest).
Proof.
  revert b0 b1. induction s as [|c s IH]; intros b0 b1 H; norm_append.
  - cbn [xml.text_loop is_byte]. change (Ascii.eqb xml.quot ">") with false.
    change (Ascii.eqb xml.quot "<") with false.
    change (Ascii.eqb xml.quot xml.quot) with true.
    rewrite andb_false_r. reflexivity.
  - cbn [xml.forall_bytes] in H. apply andb_true_iff in H as [Hc Hs].
    destruct (plain_ordinary c Hc) as (E1 & E2 & E3 & E4 & E5 & _).
    cbn [xml.text_loop is_byte].
    rewrite E1, E2, E3, E4, E5, andb_false_r, (plain_unquoted c Hc), (IH _ _ Hs).
    cbn [mbind result_bind]. rewrite andb_false_r. reflexivity.
Qed.

Lemma attribute_xmlns (u rest : string) :
  xml.forall_bytes plain u = true ->
  xml.attribute ("xmlns=" +:+ String xml.quot (u +:+ String xml.quot rest)) =
  Ok (xml.mkAttr (xml.mkName "" "xmlns") u, rest).
Proof.
  intros Pu. unfold xml.attribute.
  change (xml.nsname ("xmlns=" +:+ String xml.quot (u +:+ String xml.quot rest)))
    with (Ok (Some (xml.mkName "" "xmlns"),
              String "=" (String xml.quot (u +:+ String xml.quot rest)))).
  cbn [mbind result_bind].
  change (xml.space (String "=" (String xml.quot (u +:+ String xml.quot rest))))
    with (String "=" (String xml.quot (u +:+ String xml.quot rest))).
  cbv iota.
  change (xml.space (String xml.quot (u +:+ String xml.quot rest)))
    with (String xml.quot (u +:+ String xml.quot rest)).
  cbv iota. change (Ascii.eqb xml.quot xml.quot) with true. cbn [orb].
  unfold xml.text. rewrite (text_loop_quoted u rest _ _ Pu). cbn [mbind result_bind].
  rewrite (check_data_plain u Pu). reflexivity.
Qed.

Lemma attributes_skip (p rest : string) :
  xml.attributes (String.length p) (p +:+ rest) = xml.attributes 0 rest.
Proof.
  induction p as [|c p IH]; norm_append; [reflexivity|].
  cbn [String.length xml.attributes]. exact IH.
Qed.

Lemma attributes_eq (b : ascii) (r : string) :
  xml.attributes 0 (String b r) =
  if xml.isSpace b then xml.attributes 0 r
  else if Ascii.eqb b "/" then
    match r with
    | EmptyString => xml.syntaxError "unexpected EOF"
    | String c r' =>
        if Ascii.eqb c ">" then Ok ([], true, r')
        else xml.syntaxError "expected /> in element"
    end
  else if Ascii.eqb b ">" then Ok ([], false, r)
  else
    '(a, rest) ← xml.attribute (String b r);
    '(l, empty, rest') ←
      xml.attributes (String.length (String b r) - String.length rest - 1) r;
    Ok (a :: l, empty, rest').
Proof. reflexivity. Qed.

(** The start tag of a root that declares the default name space. *)
Lemma rawToken_open_xmlns (u rest : string) :
  xml.forall_bytes plain u = true ->
  xml.rawToken ("<Retention xmlns=" +:+
                String xml.quot (u +:+ String xml.quot (String ">" rest))) =
  Ok ([xml.StartElement (xml.mkName "" "Retention")
         [xml.mkAttr (xml.mkName "" "xmlns") u]], rest).
Proof.
  intros Pu. unfold xml.rawToken. norm_append.
  change (Ascii.eqb "<" "<") with true. cbn [negb].
  change (Ascii.eqb "R" "/") with false. cbv iota.
  change (Ascii.eqb "R" "?" || Ascii.eqb "R" "!") with false. cbv iota.
  match goal with
  | |- context [xml.nsname (String "R" ?t)] =>
      match t with
      | context [String " " ?r] =>
          change (xml.nsname (String "R" t))
            with (Ok (Some (xml.mkName "" "Retention"), String " " r))
      end
  end.
  cbn [mbind result_bind]. rewrite attributes_eq.
  change (xml.isSpace " ") with true. cbv iota. rewrite attributes_eq.
  change (xml.isSpace "x") with false. change (Ascii.eqb "x" "/") with false.
  change (Ascii.eqb "x" ">") with false. cbv iota.
  pose proof (attribute_xmlns u (String ">" rest) Pu) as Ha. norm_append_in Ha.
  rewrite Ha. cbn [mbind result_bind].
  pose proof (attributes_skip ("mlns=" +:+ String xml.quot (u +:+ String xml.quot ""))
                (String ">" rest)) as Hs.
  rewrite !length_append in Hs. cbn [String.length] in Hs.
  rewrite length_append in Hs. cbn [String.length] in Hs.
  rewrite !append_assoc in Hs. norm_append_in Hs. rewrite append_assoc in Hs.
  norm_append_in Hs.
  cbn [String.length]. rewrite length_append. cbn [String.length].
  replace (S (S (S (S (S (S (S (String.length u + S (S (String.length rest))))))))) -
           S (String.length rest) - 1)%nat
    with (5 + S (String.length u + 1))%nat by lia.
  rewrite Hs. rewrite attributes_eq.
  change (xml.isSpace ">") with false. change (Ascii.eqb ">" "/") with false.
  change (Ascii.eqb ">" ">") with true. cbv iota. reflexivity.
Qed.

Lemma tokens_open_xmlns (u rest : string) :
  xml.forall_bytes plain u = true ->
  xml.tokens_from 0 ("<Retention xmlns=" +:+
                     String xml.quot (u +:+ String xml.quot (String ">" rest))) =
  (xml.StartElement (xml.mkName "" "Retention") [xml.mkAttr (xml.mkName "" "xmlns") u]
     :: (xml.tokens_from 0 rest).1,
   (xml.tokens_from 0 rest).2).
Proof.
  intros Pu.
  pose proof (tokens_step "<"
                ("Retention xmlns=" +:+ String xml.quot (u +:+ String xml.quot ">")) rest
                [xml.StartElement (xml.mkName "" "Retention")
                   [xml.mkAttr (xml.mkName "" "xmlns") u]]) as H.
  assert (String "<" ("Retention xmlns=" +:+ String xml.quot (u +:+ String xml.quot ">"))
          +:+ rest =
          "<Retention xmlns=" +:+
          String xml.quot (u +:+ String xml.quot (String ">" rest))) as E.
  { norm_append. rewrite append_assoc. norm_append. reflexivity. }
  rewrite E in H. apply H. apply rawToken_open_xmlns, Pu.
Qed.

Ltac lex_xmlns :=
  unfold xml_Decode, xml.NewDecoder, xml.rawTokens;
  rewrite tokens_open_xmlns by assumption;
  repeat first
    [ rewrite tokens_open_Mode
    | rewrite tokens_close_Mode
    | rewrite tokens_open_RetainUntilDate
    | rewrite tokens_close_RetainUntilDate
    | rewrite tokens_text_then by assumption ];
  change (xml.tokens_from 0 "</Retention>")
    with ([xml.EndElement (xml.mkName "" "Retention")], xml.AtEOF);
  cbn [fst snd];
  match goal with
  | |- context [xml.Tokens ?a ?b ?c ?d] =>
      let r := eval vm_compute in (xml.Tokens a b c d) in
      change (xml.Tokens a b c d) with r
  end;
  cbv beta iota;
  cbn [unmarshal unmarshal_children xml.Local xml.AttrName xml.Value String.eqb Ascii.eqb
       Bool.eqb negb foldl setAttr setMode setRetainUntilDate XMLNS XMLName Mode
       RetainUntilDate Nat.eqb];
  rewrite ?append_nil_l.

(** Decoding a retention document whose root declares the default name
    space [u]: the fields are matched by their local names, and the name
    space is kept in [XMLNS] and in the name of the root. *)
Lemma Decode_xmlns (u m : string) (od : option time.Time) (v : objectRetention) :
  xml.forall_bytes plain u = true ->
  xml.forall_bytes plain m = true ->
  (forall t, od = Some t -> representable t = true) ->
  xml_Decode ("<Retention xmlns=" +:+ String xml.quot u +:+ String xml.quot ">" +:+
              (if String.eqb m "" then "" else "<Mode>" +:+ m +:+ "</Mode>") +:+
              match od with
              | None => ""
              | Some t => "<RetainUntilDate>" +:+ time.appendFormatRFC3339 t +:+
                          "</RetainUntilDate>"
              end +:+ "</Retention>") v =
  Ok (mkObjectRetention u (xml.mkName u "Retention")
        (if String.eqb m "" then Mode v else m)
        (match od with None => RetainUntilDate v | Some t => Some t end)).
Proof.
  intros Pu Pm Hod.
  rewrite (append_cons xml.quot u), (append_cons xml.quot ">"), (append_cons ">" ""),
    append_nil_l.
  destruct (String.eqb_spec m "") as [->|Hm], od as [t|];
    rewrite ?append_nil_l, ?append_assoc.
  - pose proof (Hod t eq_refl) as Ht. destruct (plain_format t Ht) as [Pd Hd].
    pose proof (UnmarshalText_MarshalText t Ht) as HU.
    set (d := time.appendFormatRFC3339 t) in *. clearbody d.
    lex_xmlns. rewrite HU. reflexivity.
  - lex_xmlns. reflexivity.
  - pose proof (Hod t eq_refl) as Ht. destruct (plain_format t Ht) as [Pd Hd].
    pose proof (UnmarshalText_MarshalText t Ht) as HU.
    set (d := time.appendFormatRFC3339 t) in *. clearbody d.
    lex_xmlns. rewrite HU. reflexivity.
  - lex_xmlns. reflexivity.
Qed.

(** The document of a configuration that has a name space. *)
Lemma xml_Marshal_xmlns (u m : string) (n : xml.Name) (od : option time.Time) :
  u <> "" ->
  xml.forall_bytes plain u = true ->
  xml.forall_bytes plain m = true ->
  (forall t, od = Some t -> representable t = true) ->
  xml_Marshal (Some (mkObjectRetention u n m od)) =
  Ok ("<Retention xmlns=" +:+ String xml.quot u +:+ String xml.quot ">" +:+
      (if String.eqb m "" then "" else "<Mode>" +:+ m +:+ "</Mode>") +:+
      match od with
      | None => ""
      | Some t => "<RetainUntilDate>" +:+ time.appendFormatRFC3339 t +:+
                  "</RetainUntilDate>"
      end +:+ "</Retention>").
Proof.
  intros Hu Pu Pm Hod. unfold xml_Marshal. cbn [XMLNS Mode RetainUntilDate].
  destruct (String.eqb_spec u "") as [E|_]; [contradiction|].
  rewrite (EscapeText_plain u Pu). cbn [mbind result_bind].
  assert ((if String.eqb m "" then Ok ""
           else xml.EscapeText m ≫= λ e, Ok ("<Mode>" +:+ e +:+ "</Mode>")) =
          Ok (if String.eqb m "" then "" else "<Mode>" +:+ m +:+ "</Mode>")) as ->.
  { destruct (String.eqb m ""); [reflexivity|]. rewrite (EscapeText_plain m Pm).
    reflexivity. }
  cbn [mbind result_bind].
  assert (forall body : string,
            "<Retention" +:+ (" xmlns=" +:+ String xml.quot u +:+ String xml.quot "") +:+
            ">" +:+ body =
            "<Retention xmlns=" +:+ String xml.quot u +:+ String xml.quot ">" +:+ body)
    as Hshape.
  { intros body. rewrite !(append_cons xml.quot), !append_assoc. norm_append.
    rewrite !append_assoc. norm_append. reflexivity. }
  destruct od as [t|].
  - pose proof (Hod t eq_refl) as Ht.
    rewrite (MarshalText_representable t Ht). cbn [mbind result_bind].
    rewrite (EscapeText_plain _ (proj1 (plain_format t Ht))). cbn [mbind result_bind].
    rewrite Hshape. reflexivity.
  - cbn [mbind result_bind]. rewrite Hshape. reflexivity.
Qed.

Section CallProperties.

Context `{Env : Collaborators Context_ world sse_Configuration}.

(** ** The calls, by what stops them *)

Lemma requests_some (c : @Client world) (r : string * requestMetadata) (w : world) :
  mkClient (sent c ++ [r]) w <> c.
Proof.
  intros E. apply (f_equal (fun x => List.length (sent x))) in E. cbn [sent] in E.
  rewrite length_app in E. cbn [List.length] in E. lia.
Qed.

(** [PutObjectRetention] past its checks. *)
Lemma PutObjectRetention_sent (c : @Client world) (ctx : Context_)
    (bucket object : string) (opts : PutObjectRetentionOptions)
    (retention : option objectRetention) (data : string) :
  CheckValidBucketName bucket = None -> CheckValidObjectName object = None ->
  newObjectRetention (opts_Mode opts) (opts_RetainUntilDate opts) = (retention, None) ->
  xml_Marshal retention = Ok data ->
  exists meta,
    requests c (PutObjectRetention c ctx bucket object opts).2 = [(http_MethodPut, meta)] /\
    contentBody meta = Some data.
Proof.
  intros Hb Ho Hn Hm.
  destruct (PutObjectRetention_run c ctx bucket object opts)
    as [E | (retention' & data' & _ & _ & Hn' & Hm' & E)].
  - exfalso. revert E. unfold PutObjectRetention. rewrite Hb, Ho, Hn, Hm.
    cbv zeta. unfold executeMethod.
    destruct (transport ctx http_MethodPut _ (remote c)) as [[[resp|] [err|]] w];
      cbn [snd]; try apply requests_some.
    destruct (negb (StatusCode resp =? http_StatusOK) &&
              negb (StatusCode resp =? http_StatusNoContent)); apply requests_some.
  - rewrite Hn in Hn'. injection Hn' as <-. rewrite Hm in Hm'. injection Hm' as <-.
    cbv zeta in E. rewrite E. cbn [snd]. rewrite requests_one.
    eexists. split; reflexivity.
Qed.

(** The three encryption calls: each stops before the transport and leaves
    the client as it was, or sends one request and classifies the answer. *)
Lemma SetBucketEncryption_cases (c : @Client world) (ctx : Context_) (bucket : string)
    (config : option sse_Configuration) :
  (exists r, SetBucketEncryption c ctx bucket config = (r, c)) \/
  exists cfg buf,
    config = Some cfg /\ CheckValidBucketName bucket = None /\ sse_Marshal cfg = Ok buf /\
    let meta :=
      mkRequestMetadata bucket "" (url_Values_Set "encryption" "" ∅) (Some buf)
        (int64_len buf) (sumMD5Base64 buf) "" ∅ in
    SetBucketEncryption c ctx bucket config =
    (match (transport ctx http_MethodPut meta (remote c)).1 with
     | (_, Some err) => Returns (Some err)
     | (Some resp, None) =>
         if negb (StatusCode resp =? http_StatusOK)
         then Returns (httpRespToErrorResponse resp bucket "")
         else Returns None
     | (None, None) => Panics
     end,
     mkClient (sent c ++ [(http_MethodPut, meta)])
       (transport ctx http_MethodPut meta (remote c)).2).
Proof.
  destruct (CheckValidBucketName bucket) as [e|] eqn:Hb;
    [left; unfold SetBucketEncryption; rewrite Hb; eexists; reflexivity|].
  destruct config as [cfg|];
    [|left; unfold SetBucketEncryption; rewrite Hb; eexists; reflexivity].
  destruct (sse_Marshal cfg) as [buf|e|] eqn:Hm;
    try (left; unfold SetBucketEncryption; rewrite Hb, Hm; eexists; reflexivity).
  right. exists cfg, buf. repeat (split; [reflexivity || assumption|]).
  exact (SetBucketEncryption_run c ctx bucket cfg buf Hb Hm).
Qed.

Lemma RemoveBucketEncryption_cases (c : @Client world) (ctx : Context_) (bucket : string) :
  (exists r, RemoveBucketEncryption c ctx bucket = (r, c)) \/
  CheckValidBucketName bucket = None /\
  let meta :=
    mkRequestMetadata bucket "" (url_Values_Set "encryption" "" ∅) None 0 ""
      emptySHA256Hex ∅ in
  RemoveBucketEncryption c ctx bucket =
  (match (transport ctx http_MethodDelete meta (remote c)).1 with
   | (_, Some err) => Returns (Some err)
   | (Some resp, None) =>
       if negb (StatusCode resp =? http_StatusOK) &&
          negb (StatusCode resp =? http_StatusNoContent)
       then Returns (httpRespToErrorResponse resp bucket "")
       else Returns None
   | (None, None) => Panics
   end,
   mkClient (sent c ++ [(http_MethodDelete, meta)])
     (transport ctx http_MethodDelete meta (remote c)).2).
Proof.
  destruct (CheckValidBucketName bucket) as [e|] eqn:Hb;
    [left; unfold RemoveBucketEncryption; rewrite Hb; eexists; reflexivity|].
  right. split; [reflexivity|]. exact (RemoveBucketEncryption_run c ctx bucket Hb).
Qed.

Lemma GetBucketEncryption_cases (c : @Client world) (ctx : Context_) (bucket : string) :
  (exists r, GetBucketEncryption c ctx bucket = (r, c)) \/
  CheckValidBucketName bucket = None /\
  let meta :=
    mkRequestMetadata bucket "" (url_Values_Set "encryption" "" ∅) None 0 "" "" ∅ in
  GetBucketEncryption c ctx bucket =
  (match (transport ctx http_MethodGet meta (remote c)).1 with
   | (_, Some err) => Returns (None, Some err)
   | (Some resp, None) =>
       if negb (StatusCode resp =? http_StatusOK)
       then Returns (None, httpRespToErrorResponse resp bucket "")
       else match sse_Decode (Body resp) with
            | Unmodelled => Outside
            | Err err => Returns (None, Some err)
            | Ok encryptionConfig => Returns (Some encryptionConfig, None)
            end
   | (None, None) => Panics
   end,
   mkClient (sent c ++ [(http_MethodGet, meta)])
     (transport ctx http_MethodGet meta (remote c)).2).
Proof.
  destruct (CheckValidBucketName bucket) as [e|] eqn:Hb;
    [left; unfold GetBucketEncryption; rewrite Hb; eexists; reflexivity|].
  right. split; [reflexivity|]. exact (GetBucketEncryption_run c ctx bucket Hb).
Qed.

(** X1: a call whose bucket name the validator refuses returns the error of
    the validator and leaves the client as it was, whatever else it was
    given: nothing is sent and the remote store is untouched.  The two
    retention calls do the same for an object name that is refused. *)
Theorem invalid_name_sends_nothing (c : @Client world) (ctx : Context_)
    (bucket object versionID : string) (opts : PutObjectRetentionOptions)
    (config : option sse_Configuration) (e : error) :
  (CheckValidBucketName bucket = Some e ->
   PutObjectRetention c ctx bucket object opts = (Returns (Some e), c) /\
   GetObjectRetention c ctx bucket object versionID = (Returns (None, None, Some e), c) /\
   SetBucketEncryption c ctx bucket config = (Returns (Some e), c) /\
   RemoveBucketEncryption c ctx bucket = (Returns (Some e), c) /\
   GetBucketEncryption c ctx bucket = (Returns (None, Some e), c)) /\
  (CheckValidBucketName bucket = None -> CheckValidObjectName object = Some e ->
   PutObjectRetention c ctx bucket object opts = (Returns (Some e), c) /\
   GetObjectRetention c ctx bucket object versionID = (Returns (None, None, Some e), c)).
Proof.
  split.
  - intros Hb.
    unfold PutObjectRetention, GetObjectRetention, SetBucketEncryption,
      RemoveBucketEncryption, GetBucketEncryption.
    rewrite Hb. repeat split.
  - intros Hb Ho. unfold PutObjectRetention, GetObjectRetention.
    rewrite Hb, Ho. split; reflexivity.
Qed.

(** X2: with names that pass, [PutObjectRetention] given a mode that is
    not valid returns the invalid-retention-mode error of the constructor,
    and given a valid or no mode and a non-zero date whose year is outside
    [0, 9999] it returns the error of the encoder; in both cases it leaves
    the client as it was. *)
Theorem PutObjectRetention_rejected_options (c : @Client world) (ctx : Context_)
    (bucket object : string) (opts : PutObjectRetentionOptions) :
  CheckValidBucketName bucket = None -> CheckValidObjectName object = None ->
  (forall m, opts_Mode opts = Some m -> IsValid m = false ->
     PutObjectRetention c ctx bucket object opts =
     (Returns (Some (fmt_Errorf "invalid retention mode `%v`" (Some m))), c)) /\
  (forall d, (forall m, opts_Mode opts = Some m -> IsValid m = true) ->
     opts_RetainUntilDate opts = Some d -> ~ 0 <= time.Year d <= 9999 ->
     PutObjectRetention c ctx bucket object opts =
     (Returns (Some (errors_New "Time.MarshalText: year outside of range [0,9999]")), c)).
Proof.
  intros Hb Ho. split.
  - intros m Hm Hi. unfold PutObjectRetention. rewrite Hb, Ho, Hm.
    unfold newObjectRetention. rewrite Hi. reflexivity.
  - intros d Hm Hd Hy.
    destruct (newObjectRetention_cases (opts_Mode opts) (opts_RetainUntilDate opts))
      as [(r & Hr & _) | (m & Em & Ei & _)];
      [|rewrite (Hm m Em) in Ei; discriminate].
    assert (RetainUntilDate r = Some d) as Ed.
    { rewrite (proj1 (constructed_date _ _ _ Hr)), Hd.
      destruct (time.IsZero d) eqn:Z; [|reflexivity].
      exfalso. apply Hy. unfold time.IsZero in Z.
      rewrite !andb_true_iff, Z.eqb_eq in Z. lia. }
    unfold PutObjectRetention. rewrite Hb, Ho, Hr.
    rewrite (xml_Marshal_out_of_range _ _ r d Hr Ed Hy). reflexivity.
Qed.

(** X3: given dates that are values of the Go type, [PutObjectRetention]
    hands a request to the transport exactly when both names pass, the
    mode is unset or valid, and the date is unset, zero or of a year within
    [0, 9999]; and when it sends nothing it returns an error and leaves the
    client as it was. *)
Theorem PutObjectRetention_sends_iff (c : @Client world) (ctx : Context_)
    (bucket object : string) (opts : PutObjectRetentionOptions) :
  (forall d, opts_RetainUntilDate opts = Some d -> time.valid d = true) ->
  (requests c (PutObjectRetention c ctx bucket object opts).2 <> [] <->
   CheckValidBucketName bucket = None /\ CheckValidObjectName object = None /\
   (forall m, opts_Mode opts = Some m -> IsValid m = true) /\
   (forall d, opts_RetainUntilDate opts = Some d -> time.IsZero d = false ->
              0 <= time.Year d <= 9999)) /\
  (requests c (PutObjectRetention c ctx bucket object opts).2 = [] ->
   exists e, PutObjectRetention c ctx bucket object opts = (Returns (Some e), c)).
Proof.
  intros Hv.
  destruct (CheckValidBucketName bucket) as [e|] eqn:Hb.
  { assert (PutObjectRetention c ctx bucket object opts = (Returns (Some e), c)) as E
      by (unfold PutObjectRetention; rewrite Hb; reflexivity).
    rewrite E. cbn [snd]. rewrite requests_none. split; [|intros _; exists e; reflexivity].
    split; [congruence | intros (? & _); discriminate]. }
  destruct (CheckValidObjectName object) as [e|] eqn:Ho.
  { assert (PutObjectRetention c ctx bucket object opts = (Returns (Some e), c)) as E
      by (unfold PutObjectRetention; rewrite Hb, Ho; reflexivity).
    rewrite E. cbn [snd]. rewrite requests_none. split; [|intros _; exists e; reflexivity].
    split; [congruence | intros (_ & ? & _); discriminate]. }
  destruct (newObjectRetention_cases (opts_Mode opts) (opts_RetainUntilDate opts))
    as [(r & Hr & Hm) | (m & Em & Ei & Hr)].
  2:{ assert (PutObjectRetention c ctx bucket object opts =
              (Returns (Some (fmt_Errorf "invalid retention mode `%v`" (opts_Mode opts))), c))
        as E by (unfold PutObjectRetention; rewrite Hb, Ho, Hr; reflexivity).
      rewrite E. cbn [snd]. rewrite requests_none.
      split; [|intros _; eexists; reflexivity].
      split; [congruence|]. intros (_ & _ & Hm & _). rewrite (Hm m Em) in Ei. discriminate. }
  destruct (constructed_date _ _ _ Hr) as [Hd _].
  destruct (constructed_date_cases _ _ r Hr Hv) as [Hok|(d & Ed & Hy)].
  - destruct (xml_Marshal_constructed _ _ r Hr Hok) as [_ HM].
    destruct (PutObjectRetention_sent c ctx bucket object opts _ _ Hb Ho Hr HM)
      as (meta & -> & _).
    split; [|discriminate]. split; [|discriminate]. intros _.
    repeat (split; [reflexivity || assumption|]).
    intros d E Z. rewrite E, Z in Hd.
    pose proof (Hok d Hd) as Hrep. apply valid_fields in Hrep. lia.
  - assert (PutObjectRetention c ctx bucket object opts =
            (Returns (Some (errors_New "Time.MarshalText: year outside of range [0,9999]")), c))
      as E.
    { unfold PutObjectRetention. rewrite Hb, Ho, Hr.
      rewrite (xml_Marshal_out_of_range _ _ r d Hr Ed Hy). reflexivity. }
    rewrite E. cbn [snd]. rewrite requests_none.
    split; [|intros _; eexists; reflexivity].
    split; [congruence|]. intros (_ & _ & _ & Hin). exfalso. apply Hy.
    rewrite Hd in Ed. destruct (opts_RetainUntilDate opts) as [d'|]; [|discriminate].
    destruct (time.IsZero d') eqn:Z; [discriminate|]. injection Ed as ->.
    apply (Hin d eq_refl Z).
Qed.


(** X4: [GetObjectRetention] hands a request to the transport exactly
    when both names pass; [SetBucketEncryption] exactly when the bucket
    name passes, the configuration is not nil and its encoding succeeds;
    [RemoveBucketEncryption] and [GetBucketEncryption] exactly when the
    bucket name passes. *)
Theorem calls_send_iff (c : @Client world) (ctx : Context_)
    (bucket object versionID : string) (config : option sse_Configuration) :
  (requests c (GetObjectRetention c ctx bucket object versionID).2 <> [] <->
   CheckValidBucketName bucket = None /\ CheckValidObjectName object = None) /\
  (requests c (SetBucketEncryption c ctx bucket config).2 <> [] <->
   CheckValidBucketName bucket = None /\
   exists cfg buf, config = Some cfg /\ sse_Marshal cfg = Ok buf) /\
  (requests c (RemoveBucketEncryption c ctx bucket).2 <> [] <->
   CheckValidBucketName bucket = None) /\
  (requests c (GetBucketEncryption c ctx bucket).2 <> [] <->
   CheckValidBucketName bucket = None).
Proof.
  split; [|split; [|split]].
  - destruct (CheckValidBucketName bucket) as [e|] eqn:Hb;
      [|destruct (CheckValidObjectName object) as [e|] eqn:Ho].
    + unfold GetObjectRetention. rewrite Hb. cbn [snd]. rewrite requests_none.
      split; [congruence | intros [? _]; discriminate].
    + unfold GetObjectRetention. rewrite Hb, Ho. cbn [snd]. rewrite requests_none.
      split; [congruence | intros [_ ?]; discriminate].
    + destruct (GetObjectRetention_run c ctx bucket object versionID)
        as [[E _] | (_ & _ & E)].
      * exfalso. revert E. unfold GetObjectRetention. rewrite Hb, Ho. cbv zeta.
        unfold executeMethod.
        destruct (transport ctx http_MethodGet _ (remote c)) as [[[resp|] [err|]] w];
          cbn [snd]; try apply requests_some.
        destruct (negb (StatusCode resp =? http_StatusOK)); [apply requests_some|].
        destruct (xml_Decode (Body resp) zeroObjectRetention); apply requests_some.
      * cbv zeta in E. rewrite E. cbn [snd]. rewrite requests_one.
        split; [intros _; split; reflexivity | discriminate].
  - destruct (CheckValidBucketName bucket) as [e|] eqn:Hb.
    { unfold SetBucketEncryption. rewrite Hb. cbn [snd]. rewrite requests_none.
      split; [congruence | intros [? _]; discriminate]. }
    destruct config as [cfg|].
    2:{ unfold SetBucketEncryption. rewrite Hb. cbn [snd]. rewrite requests_none.
        split; [congruence | intros [_ (? & ? & ? & _)]; discriminate]. }
    destruct (sse_Marshal cfg) as [buf|e|] eqn:Hm.
    + rewrite (SetBucketEncryption_run c ctx bucket cfg buf Hb Hm). cbn [snd].
      rewrite requests_one. split; [|discriminate].
      intros _. split; [reflexivity|]. exists cfg, buf. split; [reflexivity | exact Hm].
    + unfold SetBucketEncryption. rewrite Hb, Hm. cbn [snd]. rewrite requests_none.
      split; [congruence | intros [_ (? & ? & [= <-] & ?)]; congruence].
    + unfold SetBucketEncryption. rewrite Hb, Hm. cbn [snd]. rewrite requests_none.
      split; [congruence | intros [_ (? & ? & [= <-] & ?)]; congruence].
  - destruct (CheckValidBucketName bucket) as [e|] eqn:Hb.
    + unfold RemoveBucketEncryption. rewrite Hb. cbn [snd]. rewrite requests_none.
      split; [congruence | discriminate].
    + rewrite (RemoveBucketEncryption_run c ctx bucket Hb). cbn [snd].
      rewrite requests_one. split; [reflexivity | discriminate].
  - destruct (CheckValidBucketName bucket) as [e|] eqn:Hb.
    + unfold GetBucketEncryption. rewrite Hb. cbn [snd]. rewrite requests_none.
      split; [congruence | discriminate].
    + rewrite (GetBucketEncryption_run c ctx bucket Hb). cbn [snd].
      rewrite requests_one. split; [reflexivity | discriminate].
Qed.

End CallProperties.

Ltac sent_one E Hreq :=
  cbv zeta in E; rewrite E in Hreq; rewrite ?E; cbn [fst snd] in Hreq |- *;
  rewrite requests_one in Hreq.

Ltac no_result :=
  split;
  [ intros ?H; first [split; reflexivity | contradiction H; reflexivity]
  | intros ?H; first [discriminate | contradiction H; reflexivity] ].

Ltac not_sent E Hreq :=
  rewrite E in Hreq; cbn [snd] in Hreq; rewrite requests_none in Hreq;
  first [discriminate Hreq | destruct Hreq].

Section AnswerProperties.

Context `{Env : Collaborators Context_ world sse_Configuration}.

(** ** The calls, by what the transport answers *)

(** X5: an error of the transport is what the call returns, unchanged and
    with no other result, whether or not a response came with it and
    whatever its status. *)
Theorem transport_error_returned (c : @Client world) (ctx : Context_)
    (bucket object versionID : string) (opts : PutObjectRetentionOptions)
    (config : option sse_Configuration)
    (meta : requestMetadata) (resp : option Response) (e : error) (w : world) :
  (requests c (PutObjectRetention c ctx bucket object opts).2 = [(http_MethodPut, meta)] ->
   transport ctx http_MethodPut meta (remote c) = ((resp, Some e), w) ->
   (PutObjectRetention c ctx bucket object opts).1 = Returns (Some e)) /\
  (requests c (GetObjectRetention c ctx bucket object versionID).2 =
     [(http_MethodGet, meta)] ->
   transport ctx http_MethodGet meta (remote c) = ((resp, Some e), w) ->
   (GetObjectRetention c ctx bucket object versionID).1 =
     Returns (None, None, Some e)) /\
  (requests c (SetBucketEncryption c ctx bucket config).2 = [(http_MethodPut, meta)] ->
   transport ctx http_MethodPut meta (remote c) = ((resp, Some e), w) ->
   (SetBucketEncryption c ctx bucket config).1 = Returns (Some e)) /\
  (requests c (RemoveBucketEncryption c ctx bucket).2 = [(http_MethodDelete, meta)] ->
   transport ctx http_MethodDelete meta (remote c) = ((resp, Some e), w) ->
   (RemoveBucketEncryption c ctx bucket).1 = Returns (Some e)) /\
  (requests c (GetBucketEncryption c ctx bucket).2 = [(http_MethodGet, meta)] ->
   transport ctx http_MethodGet meta (remote c) = ((resp, Some e), w) ->
   (GetBucketEncryption c ctx bucket).1 = Returns (None, Some e)).
Proof.
  split; [|split; [|split; [|split]]]; intros Hreq Hans.
  - destruct (PutObjectRetention_run c ctx bucket object opts)
      as [E | (retention & data & _ & _ & _ & _ & E)]; [not_sent E Hreq|].
    sent_one E Hreq. injection Hreq as <-. rewrite Hans. destruct resp; reflexivity.
  - destruct (GetObjectRetention_run c ctx bucket object versionID)
      as [[E _] | (_ & _ & E)]; [not_sent E Hreq|].
    sent_one E Hreq. injection Hreq as <-. rewrite Hans. destruct resp; reflexivity.
  - destruct (SetBucketEncryption_cases c ctx bucket config)
      as [[r E] | (cfg & buf & _ & _ & _ & E)]; [not_sent E Hreq|].
    sent_one E Hreq. injection Hreq as <-. rewrite Hans. destruct resp; reflexivity.
  - destruct (RemoveBucketEncryption_cases c ctx bucket) as [[r E] | (_ & E)];
      [not_sent E Hreq|].
    sent_one E Hreq. injection Hreq as <-. rewrite Hans. destruct resp; reflexivity.
  - destruct (GetBucketEncryption_cases c ctx bucket) as [[r E] | (_ & E)];
      [not_sent E Hreq|].
    sent_one E Hreq. injection Hreq as <-. rewrite Hans. destruct resp; reflexivity.
Qed.

(** X6: when the transport gives neither a response nor an error,
    [PutObjectRetention] returns no error, and each of the other four calls
    panics on the nil response. *)
Theorem nil_response (c : @Client world) (ctx : Context_)
    (bucket object versionID : string) (opts : PutObjectRetentionOptions)
    (config : option sse_Configuration) (meta : requestMetadata) (w : world) :
  (requests c (PutObjectRetention c ctx bucket object opts).2 = [(http_MethodPut, meta)] ->
   transport ctx http_MethodPut meta (remote c) = ((None, None), w) ->
   (PutObjectRetention c ctx bucket object opts).1 = Returns None) /\
  (requests c (GetObjectRetention c ctx bucket object versionID).2 =
     [(http_MethodGet, meta)] ->
   transport ctx http_MethodGet meta (remote c) = ((None, None), w) ->
   (GetObjectRetention c ctx bucket object versionID).1 = Panics) /\
  (requests c (SetBucketEncryption c ctx bucket config).2 = [(http_MethodPut, meta)] ->
   transport ctx http_MethodPut meta (remote c) = ((None, None), w) ->
   (SetBucketEncryption c ctx bucket config).1 = Panics) /\
  (requests c (RemoveBucketEncryption c ctx bucket).2 = [(http_MethodDelete, meta)] ->
   transport ctx http_MethodDelete meta (remote c) = ((None, None), w) ->
   (RemoveBucketEncryption c ctx bucket).1 = Panics) /\
  (requests c (GetBucketEncryption c ctx bucket).2 = [(http_MethodGet, meta)] ->
   transport ctx http_MethodGet meta (remote c) = ((None, None), w) ->
   (GetBucketEncryption c ctx bucket).1 = Panics).
Proof.
  split; [|split; [|split; [|split]]]; intros Hreq Hans.
  - destruct (PutObjectRetention_run c ctx bucket object opts)
      as [E | (retention & data & _ & _ & _ & _ & E)]; [not_sent E Hreq|].
    sent_one E Hreq. injection Hreq as <-. rewrite Hans. reflexivity.
  - destruct (GetObjectRetention_run c ctx bucket object versionID)
      as [[E _] | (_ & _ & E)]; [not_sent E Hreq|].
    sent_one E Hreq. injection Hreq as <-. rewrite Hans. reflexivity.
  - destruct (SetBucketEncryption_cases c ctx bucket config)
      as [[r E] | (cfg & buf & _ & _ & _ & E)]; [not_sent E Hreq|].
    sent_one E Hreq. injection Hreq as <-. rewrite Hans. reflexivity.
  - destruct (RemoveBucketEncryption_cases c ctx bucket) as [[r E] | (_ & E)];
      [not_sent E Hreq|].
    sent_one E Hreq. injection Hreq as <-. rewrite Hans. reflexivity.
  - destruct (GetBucketEncryption_cases c ctx bucket) as [[r E] | (_ & E)];
      [not_sent E Hreq|].
    sent_one E Hreq. injection Hreq as <-. rewrite Hans. reflexivity.
Qed.

(** X7: every call hands the transport at most one request, after the
    requests sent before: [PutObjectRetention] a PUT and
    [GetObjectRetention] a GET for the bucket and the object,
    [SetBucketEncryption] a PUT, [RemoveBucketEncryption] a DELETE and
    [GetBucketEncryption] a GET for the bucket and no object. *)
Theorem one_request_per_call (c : @Client world) (ctx : Context_)
    (bucket object versionID : string) (opts : PutObjectRetentionOptions)
    (config : option sse_Configuration) :
  at_most_one http_MethodPut bucket object c
    (PutObjectRetention c ctx bucket object opts).2 /\
  at_most_one http_MethodGet bucket object c
    (GetObjectRetention c ctx bucket object versionID).2 /\
  at_most_one http_MethodPut bucket "" c (SetBucketEncryption c ctx bucket config).2 /\
  at_most_one http_MethodDelete bucket "" c (RemoveBucketEncryption c ctx bucket).2 /\
  at_most_one http_MethodGet bucket "" c (GetBucketEncryption c ctx bucket).2.
Proof.
  unfold at_most_one. split; [|split; [|split; [|split]]].
  - destruct (PutObjectRetention_run c ctx bucket object opts)
      as [E | (retention & data & _ & _ & _ & _ & E)]; [left; exact E|].
    right. cbv zeta in E. rewrite E. cbn [snd]. eexists. eexists.
    split; [reflexivity|]. split; reflexivity.
  - destruct (GetObjectRetention_run c ctx bucket object versionID)
      as [[E _] | (_ & _ & E)]; [left; exact E|].
    right. cbv zeta in E. rewrite E. cbn [snd]. eexists. eexists.
    split; [reflexivity|]. split; reflexivity.
  - destruct (SetBucketEncryption_cases c ctx bucket config)
      as [[r E] | (cfg & buf & _ & _ & _ & E)]; [left; rewrite E; reflexivity|].
    right. cbv zeta in E. rewrite E. cbn [snd]. eexists. eexists.
    split; [reflexivity|]. split; reflexivity.
  - destruct (RemoveBucketEncryption_cases c ctx bucket) as [[r E] | (_ & E)];
      [left; rewrite E; reflexivity|].
    right. cbv zeta in E. rewrite E. cbn [snd]. eexists. eexists.
    split; [reflexivity|]. split; reflexivity.
  - destruct (GetBucketEncryption_cases c ctx bucket) as [[r E] | (_ & E)];
      [left; rewrite E; reflexivity|].
    right. cbv zeta in E. rewrite E. cbn [snd]. eexists. eexists.
    split; [reflexivity|]. split; reflexivity.
Qed.


(** ** What the calls send *)

(** X8: given dates that are values of the Go type, a request sent by
    [PutObjectRetention] carries the retention document as its body, with
    the length and the MD5 and SHA-256 digests of those very bytes.  The
    document has the root [Retention] without attributes, then the [Mode]
    element when a mode was given, then the [RetainUntilDate] element, in
    RFC 3339, when a date was given that is not zero; and it decodes to
    that mode and that date. *)
Theorem PutObjectRetention_payload (c : @Client world) (ctx : Context_)
    (bucket object : string) (opts : PutObjectRetentionOptions)
    (method : string) (meta : requestMetadata) :
  (forall d, opts_RetainUntilDate opts = Some d -> time.valid d = true) ->
  In (method, meta) (requests c (PutObjectRetention c ctx bucket object opts).2) ->
  exists data,
    contentBody meta = Some data /\
    contentLength meta = Z.of_nat (String.length data) /\
    contentMD5Base64 meta = sumMD5Base64 data /\
    contentSHA256Hex meta = sum256Hex data /\
    data =
      "<Retention>" +:+
      match opts_Mode opts with
      | Some m => "<Mode>" +:+ m +:+ "</Mode>"
      | None => ""
      end +:+
      match opts_RetainUntilDate opts with
      | Some d =>
          if time.IsZero d then ""
          else "<RetainUntilDate>" +:+ time.appendFormatRFC3339 d +:+
               "</RetainUntilDate>"
      | None => ""
      end +:+ "</Retention>" /\
    xml_Decode data zeroObjectRetention =
      Ok (mkObjectRetention "" (xml.mkName "" "Retention") (default "" (opts_Mode opts))
            match opts_RetainUntilDate opts with
            | Some d => if time.IsZero d then None else Some d
            | None => None
            end).
Proof.
  intros Hv Hin.
  destruct (PutObjectRetention_run c ctx bucket object opts)
    as [E | (retention & data & _ & _ & Hn & Hm & E)]; [not_sent E Hin|].
  sent_one E Hin. destruct Hin as [[= <- <-]|[]].
  exists data. cbn [contentBody contentLength contentMD5Base64 contentSHA256Hex].
  repeat (split; [reflexivity|]).
  exact (constructed_document _ _ retention data Hn Hv Hm).
Qed.

(** X9: a request sent by [SetBucketEncryption] is a PUT for the bucket and
    no object, with the query marker [encryption] and nothing else in the
    query, no header of its own, and as the body the encoding of the
    configuration with its length and its MD5 digest; the SHA-256 digest is
    left empty. *)
Theorem SetBucketEncryption_request (c : @Client world) (ctx : Context_)
    (bucket : string) (config : option sse_Configuration)
    (method : string) (meta : requestMetadata) :
  In (method, meta) (requests c (SetBucketEncryption c ctx bucket config).2) ->
  method = http_MethodPut /\
  exists cfg buf,
    config = Some cfg /\ sse_Marshal cfg = Ok buf /\
    meta = mkRequestMetadata bucket "" {["encryption" := [""]]} (Some buf)
             (Z.of_nat (String.length buf)) (sumMD5Base64 buf) "" ∅.
Proof.
  intros Hin.
  destruct (SetBucketEncryption_cases c ctx bucket config)
    as [[r E] | (cfg & buf & Hc & _ & Hm & E)]; [not_sent E Hin|].
  sent_one E Hin. destruct Hin as [[= <- <-]|[]].
  split; [reflexivity|]. exists cfg, buf. split; [exact Hc|]. split; [exact Hm|].
  unfold url_Values_Set. rewrite insert_empty. reflexivity.
Qed.

(** X10: the requests of the three calls that send no document have no
    body, length zero, no MD5 digest and no header of their own.
    [GetObjectRetention] and [RemoveBucketEncryption] give the SHA-256
    digest of the empty body, [GetBucketEncryption] leaves the digest
    empty; the two encryption requests are for the bucket and no object,
    with [encryption] alone in the query. *)
Theorem requests_without_body (c : @Client world) (ctx : Context_)
    (bucket object versionID : string) (method : string) (meta : requestMetadata) :
  (In (method, meta) (requests c (GetObjectRetention c ctx bucket object versionID).2) ->
   method = http_MethodGet /\ bucketName meta = bucket /\ objectName meta = object /\
   contentBody meta = None /\ contentLength meta = 0 /\ contentMD5Base64 meta = "" /\
   contentSHA256Hex meta = emptySHA256Hex /\ customHeader meta = ∅) /\
  (In (method, meta) (requests c (RemoveBucketEncryption c ctx bucket).2) ->
   method = http_MethodDelete /\
   meta = mkRequestMetadata bucket "" {["encryption" := [""]]} None 0 ""
            emptySHA256Hex ∅) /\
  (In (method, meta) (requests c (GetBucketEncryption c ctx bucket).2) ->
   method = http_MethodGet /\
   meta = mkRequestMetadata bucket "" {["encryption" := [""]]} None 0 "" "" ∅).
Proof.
  split; [|split]; intros Hin.
  - destruct (GetObjectRetention_run c ctx bucket object versionID)
      as [[E _] | (_ & _ & E)]; [not_sent E Hin|].
    sent_one E Hin. destruct Hin as [[= <- <-]|[]]. repeat split.
  - destruct (RemoveBucketEncryption_cases c ctx bucket) as [[r E] | (_ & E)];
      [not_sent E Hin|].
    sent_one E Hin. destruct Hin as [[= <- <-]|[]]. split; [reflexivity|].
    unfold url_Values_Set. rewrite insert_empty. reflexivity.
  - destruct (GetBucketEncryption_cases c ctx bucket) as [[r E] | (_ & E)];
      [not_sent E Hin|].
    sent_one E Hin. destruct Hin as [[= <- <-]|[]]. split; [reflexivity|].
    unfold url_Values_Set. rewrite insert_empty. reflexivity.
Qed.

(** ** What the two reading calls return *)

(** X11: a result never comes with an error.  Whenever
    [GetObjectRetention] returns an error, the mode pointer and the date
    pointer it returns are nil, and it returns a date only with a mode;
    whenever [GetBucketEncryption] returns an error, the configuration it
    returns is nil. *)
Theorem results_or_error (c : @Client world) (ctx : Context_)
    (bucket object versionID : string) :
  (forall mode date err,
     (GetObjectRetention c ctx bucket object versionID).1 = Returns (mode, date, err) ->
     (err <> None -> mode = None /\ date = None) /\ (date <> None -> mode <> None)) /\
  (forall config err,
     (GetBucketEncryption c ctx bucket).1 = Returns (config, err) ->
     err <> None -> config = None).
Proof.
  split.
  - intros mode date err. unfold GetObjectRetention.
    destruct (CheckValidBucketName bucket); [intros [= <- <- <-]; no_result|].
    destruct (CheckValidObjectName object); [intros [= <- <- <-]; no_result|].
    cbv zeta. unfold executeMethod.
    destruct (transport ctx http_MethodGet _ (remote c)) as [[[resp|] [e|]] w];
      cbn [fst]; try (intros [= <- <- <-]; no_result); try discriminate.
    destruct (negb (StatusCode resp =? http_StatusOK));
      [intros [= <- <- <-]; no_result|].
    destruct (xml_Decode (Body resp) zeroObjectRetention);
      try discriminate; intros [= <- <- <-]; no_result.
  - intros config err. unfold GetBucketEncryption.
    destruct (CheckValidBucketName bucket); [intros [= <- <-]; reflexivity|].
    cbv zeta. unfold executeMethod.
    destruct (transport ctx http_MethodGet _ (remote c)) as [[[resp|] [e|]] w];
      cbn [fst]; try (intros [= <- <-]; reflexivity); try discriminate.
    destruct (negb (StatusCode resp =? http_StatusOK)); [intros [= <- <-]; reflexivity|].
    destruct (sse_Decode (Body resp));
      try discriminate; intros [= <- <-] H;
      first [reflexivity | contradiction H; reflexivity].
Qed.

(** X12: when [GetObjectRetention] returns a mode pointer that is not nil,
    it returns no error, the transport answered the one request with
    status 200, and the mode and the date returned are those of the
    document decoded from the body of the response; the date pointer is
    nil when the body has no [RetainUntilDate] element. *)
Theorem GetObjectRetention_date_pointer (c : @Client world) (ctx : Context_)
    (bucket object versionID : string)
    (m : RetentionMode) (date : option time.Time) (err : option error) :
  (GetObjectRetention c ctx bucket object versionID).1 = Returns (Some m, date, err) ->
  err = None /\
  exists meta resp r,
    requests c (GetObjectRetention c ctx bucket object versionID).2 =
      [(http_MethodGet, meta)] /\
    (transport ctx http_MethodGet meta (remote c)).1 = (Some resp, None) /\
    StatusCode resp = 200 /\
    xml_Decode (Body resp) zeroObjectRetention = Ok r /\
    m = Mode r /\ date = RetainUntilDate r /\
    (no_element "RetainUntilDate" (Body resp) -> date = None).
Proof.
  intros H.
  destruct (GetObjectRetention_run c ctx bucket object versionID)
    as [[E _] | (_ & _ & E)].
  { exfalso. revert H E. unfold GetObjectRetention.
    destruct (CheckValidBucketName bucket); [discriminate|].
    destruct (CheckValidObjectName object); [discriminate|].
    cbv zeta. unfold executeMethod.
    destruct (transport ctx http_MethodGet _ (remote c)) as [[[resp|] [e|]] w];
      cbn [fst snd]; try discriminate.
    destruct (negb (StatusCode resp =? http_StatusOK)); [discriminate|].
    destruct (xml_Decode (Body resp) zeroObjectRetention); intros _; apply requests_some. }
  cbv zeta in E.
  match type of E with
  | context [transport ctx http_MethodGet ?m (remote c)] => set (meta := m) in E
  end.
  rewrite E in H |- *. cbn [fst snd] in H |- *. rewrite requests_one.
  destruct (transport ctx http_MethodGet meta (remote c)) as [[[resp|] [e|]] w] eqn:Htr;
    cbn [fst] in H |- *; try discriminate.
  unfold http_StatusOK in H.
  destruct (StatusCode resp =? 200) eqn:Es; cbn [negb] in H; [|discriminate].
  destruct (xml_Decode (Body resp) zeroObjectRetention) as [r| |] eqn:Ed;
    try discriminate.
  injection H as <- <- <-. split; [reflexivity|]. exists meta, resp, r.
  split; [reflexivity|]. split; [rewrite Htr; reflexivity|].
  split; [apply Z.eqb_eq, Es|]. split; [exact Ed|].
  do 2 (split; [reflexivity|]).
  intros Hno. exact (proj2 (Decode_absent _ _ _ Ed) Hno).
Qed.



(** X15: when the transport answers [GetObjectRetention] with status 200
    and a body whose first element is not named [Retention], the call
    returns the error of the decoder that names the element it found. *)
Theorem GetObjectRetention_wrong_root (c : @Client world) (ctx : Context_)
    (bucket object versionID : string) (meta : requestMetadata) (resp : Response)
    (w : world) (pre rest : list xml.Token) (n : xml.Name) (attr : list xml.Attr)
    (e : xml.Ending) :
  requests c (GetObjectRetention c ctx bucket object versionID).2 =
    [(http_MethodGet, meta)] ->
  transport ctx http_MethodGet meta (remote c) = ((Some resp, None), w) ->
  StatusCode resp = 200 ->
  xml.NewDecoder (Body resp) = (pre ++ xml.StartElement n attr :: rest, e) ->
  (forall n' a', ~ In (xml.StartElement n' a') pre) ->
  xml.Local n <> "Retention" ->
  (GetObjectRetention c ctx bucket object versionID).1 =
  Returns (None, None,
           Some (xml_UnmarshalError ("expected element type <Retention> but have <"
                                      +:+ xml.Local n +:+ ">"))).
Proof.
  intros Hreq Hans Hs Htok Hpre Hn.
  destruct (GetObjectRetention_run c ctx bucket object versionID)
    as [[E _] | (_ & _ & E)]; [not_sent E Hreq|].
  sent_one E Hreq. injection Hreq as <-. rewrite Hans. cbn [fst]. rewrite Hs.
  change (negb (200 =? http_StatusOK)) with false. cbv iota.
  unfold xml_Decode. rewrite Htok.
  rewrite (unmarshal_wrong_root _ pre rest n attr e Hpre Hn). reflexivity.
Qed.



End AnswerProperties.

(** ** The retention document with a name space *)

(** X18: encoding then decoding gives back every field of a retention
    document, the name space included, whenever the name space and the
    mode are free of markup and the date can be written; the name of the
    root is recorded with the name space.  An empty name space and an empty
    mode leave no trace in the document and come back empty. *)
Theorem retention_roundtrip_xmlns (u m : string) (n : xml.Name)
    (od : option time.Time) :
  xml.forall_bytes plain u = true ->
  xml.forall_bytes plain m = true ->
  (forall t, od = Some t -> representable t = true) ->
  exists data,
    xml_Marshal (Some (mkObjectRetention u n m od)) = Ok data /\
    xml_Decode data zeroObjectRetention =
      Ok (mkObjectRetention u (xml.mkName u "Retention") m od).
Proof.
  intros Pu Pm Hod. destruct (String.eqb_spec u "") as [->|Hu].
  - destruct (Marshal_Decode n m od zeroObjectRetention Pm Hod)
      as (data & toks & HM & _ & _ & _ & _ & HD).
    exists data. split; [exact HM|]. rewrite HD.
    cbn [XMLNS Mode RetainUntilDate zeroObjectRetention].
    destruct (String.eqb_spec m "") as [->|_], od; reflexivity.
  - eexists. split; [apply (xml_Marshal_xmlns u m n od Hu Pu Pm Hod)|].
    rewrite (Decode_xmlns u m od zeroObjectRetention Pu Pm Hod).
    cbn [Mode RetainUntilDate zeroObjectRetention].
    destruct (String.eqb_spec m "") as [->|_], od; reflexivity.
Qed.


(** ** The theorems at concrete inputs *)

Lemma newObjectRetention_zero_date_witness :
  newObjectRetention (Some Governance) (Some Sample.zeroTime) =
    (Some (mkObjectRetention "" (xml.mkName "" "") Governance None), None) /\
  ((forall d,
      RetainUntilDate (mkObjectRetention "" (xml.mkName "" "") Governance None) = Some d <->
      Some Sample.zeroTime = Some d /\ time.IsZero d = false) /\
   (forall d, time.IsZero d = true ->
              newObjectRetention (Some Governance) (Some d) =
              newObjectRetention (Some Governance) None)).
Proof.
  split; [reflexivity|].
  apply (newObjectRetention_zero_date (Some Governance) (Some Sample.zeroTime)).
  reflexivity.
Defined.

Lemma retention_roundtrip_witness :
  (newObjectRetention (Some Governance) (Some Sample.year2030) =
     (Some (mkObjectRetention "" (xml.mkName "" "") Governance (Some Sample.year2030)),
      None) /\
   (forall t, Some Sample.year2030 = Some t -> representable t = true)) /\
  exists data c',
    xml_Marshal
      (Some (mkObjectRetention "" (xml.mkName "" "") Governance (Some Sample.year2030))) =
      Ok data /\
    xml_Decode data zeroObjectRetention = Ok c' /\
    Mode c' = Governance /\ RetainUntilDate c' = Some Sample.year2030.
Proof.
  assert (forall t, Some Sample.year2030 = Some t -> representable t = true) as Hrep.
  { intros t Ht. injection Ht as <-. reflexivity. }
  split; [split; [reflexivity | exact Hrep]|].
  destruct (retention_roundtrip (Some Governance) (Some Sample.year2030) _ eq_refl Hrep)
    as (data & c' & HM & HD & Hm & Hd & _).
  exists data, c'. repeat split; assumption.
Defined.

(** C2, as stated, fails: a configuration is built for the year 10000,
    a UTC instant of the Go type, and the encoder refuses it, so there is
    no document to decode. *)
Lemma retention_roundtrip_counterexample :
  exists c,
    time.valid Scenario.year10000 = true /\
    newObjectRetention (Some Governance) (Some Scenario.year10000) = (Some c, None) /\
    ~ exists data c',
        xml_Marshal (Some c) = Ok data /\
        xml_Decode data zeroObjectRetention = Ok c' /\
        Mode c' = Mode c /\ RetainUntilDate c' = RetainUntilDate c.
Proof.
  eexists. split; [reflexivity|]. split; [reflexivity|].
  intros (data & c' & HM & _). vm_compute in HM. discriminate HM.
Qed.

Lemma PutObjectRetention_bypass_header_witness :
  let Env := Sample.collaborators (mkResponse 200 "") in
  let opts := mkPutObjectRetentionOptions true (Some Governance) None "" in
  let after := (PutObjectRetention Sample.client tt "b" "o" opts).2 in
  In (http_MethodPut, Sample.first_request after) (requests Sample.client after) /\
  Header_Values amzBypassGovernance (customHeader (Sample.first_request after)) =
    Some ["true"].
Proof.
  intros Env opts after.
  assert (In (http_MethodPut, Sample.first_request after) (requests Sample.client after))
    as Hin by (vm_compute; left; reflexivity).
  split; [exact Hin|].
  exact (proj1 (proj2 (PutObjectRetention_bypass_header
                         Sample.client tt "b" "o" opts _ _ Hin))).
Defined.

(** C4, as stated, fails: a call with mode COMPLIANCE and the bypass flag
    set sends the header. *)
Lemma PutObjectRetention_compliance_counterexample :
  let Env := Sample.collaborators (mkResponse 200 "") in
  let opts := mkPutObjectRetentionOptions true (Some Compliance) None "" in
  opts_Mode opts = Some Compliance /\
  ~ (forall method meta,
       In (method, meta)
          (requests Sample.client (PutObjectRetention Sample.client tt "b" "o" opts).2) ->
       Header_Values amzBypassGovernance (customHeader meta) = None).
Proof.
  intros Env opts. split; [reflexivity|]. intros Hc.
  set (after := (PutObjectRetention Sample.client tt "b" "o" opts).2) in Hc.
  assert (In (http_MethodPut, Sample.first_request after) (requests Sample.client after))
    as Hin by (vm_compute; left; reflexivity).
  apply Hc in Hin. vm_compute in Hin. discriminate Hin.
Qed.

Lemma PutObjectRetention_compliance_header_witness :
  let Env := Sample.collaborators (mkResponse 200 "") in
  let opts := mkPutObjectRetentionOptions false (Some Compliance) None "" in
  let after := (PutObjectRetention Sample.client tt "b" "o" opts).2 in
  (opts_Mode opts = Some Compliance /\
   In (http_MethodPut, Sample.first_request after) (requests Sample.client after)) /\
  Header_Values amzBypassGovernance (customHeader (Sample.first_request after)) = None.
Proof.
  intros Env opts after.
  assert (In (http_MethodPut, Sample.first_request after) (requests Sample.client after))
    as Hin by (vm_compute; left; reflexivity).
  split; [split; [reflexivity | exact Hin]|].
  exact (PutObjectRetention_compliance_header
           Sample.client tt "b" "o" opts _ _ eq_refl Hin).
Defined.

Lemma retention_versionId_query_witness :
  let Env := Sample.collaborators (mkResponse 200 "<Retention></Retention>") in
  let opts := mkPutObjectRetentionOptions false (Some Governance) None "v1" in
  let put := (PutObjectRetention Sample.client tt "b" "o" opts).2 in
  let get := (GetObjectRetention Sample.client tt "b" "o" "").2 in
  (In (http_MethodPut, Sample.first_request put) (requests Sample.client put) /\
   queryValues (Sample.first_request put) !! "retention" = Some [""] /\
   queryValues (Sample.first_request put) !! "versionId" = Some ["v1"]) /\
  (In (http_MethodGet, Sample.first_request get) (requests Sample.client get) /\
   queryValues (Sample.first_request get) !! "retention" = Some [""] /\
   queryValues (Sample.first_request get) !! "versionId" = None).
Proof.
  intros Env opts put get.
  assert (In (http_MethodPut, Sample.first_request put) (requests Sample.client put))
    as Hput by (vm_compute; left; reflexivity).
  assert (In (http_MethodGet, Sample.first_request get) (requests Sample.client get))
    as Hget by (vm_compute; left; reflexivity).
  split; (split; [assumption|]).
  - exact (proj1 (retention_versionId_query Sample.client tt "b" "o" "" opts _ _) Hput).
  - exact (proj2 (retention_versionId_query Sample.client tt "b" "o" "" opts _ _) Hget).
Defined.

Lemma SetBucketEncryption_nil_config_witness :
  let Env := Sample.collaborators (mkResponse 200 "") in
  CheckValidBucketName "b" = None /\
  SetBucketEncryption Sample.client tt "b" None =
    (Returns (Some (errInvalidArgument "configuration cannot be empty")), Sample.client).
Proof.
  intros Env. split; [reflexivity|].
  exact (proj1 (SetBucketEncryption_nil_config (Env := Env) Sample.client tt "b" eq_refl)).
Defined.

(** C5, as stated, fails twice.  For the two GETs a status of 200 is not
    enough: the body has to decode.  And a status outside the accepted ones
    is not always an error: where the reading of the response finds none,
    here at status 206, the call returns no error. *)
Lemma response_status_counterexample :
  let found := mkResponse 200 "" in
  let partial := mkResponse 206 "" in
  let opts := mkPutObjectRetentionOptions false (Some Governance) None "" in
  ~ ((exists mode date,
        (GetObjectRetention (Env := Sample.collaborators found)
           Sample.client tt "bucket" "object" "").1 = Returns (mode, date, None)) <->
     StatusCode found = 200) /\
  ~ ((PutObjectRetention
        (Env := Scenario.collaborators_reading (Scenario.reply (Some partial, None))
                  Scenario.lenient)
        Sample.client tt "bucket" "object" opts).1 = Returns None <->
     StatusCode partial = 200 \/ StatusCode partial = 204).
Proof.
  intros found partial opts. split.
  - intros [_ Hc]. destruct (Hc eq_refl) as (mode & date & E).
    vm_compute in E. discriminate E.
  - intros [Hc _]. destruct (Hc eq_refl) as [E|E]; discriminate E.
Qed.

Lemma response_status_classification_witness :
  let created := mkResponse 204 "" in
  let missing := mkResponse 404 "" in
  let partial := mkResponse 206 "" in
  let found := mkResponse 200 "<Retention><Mode>COMPLIANCE</Mode></Retention>" in
  let refused := errors_New "connection refused" in
  let opts := mkPutObjectRetentionOptions false (Some Governance) None "" in
  let c := Sample.client in
  let after (r : option Response * option error) :=
    Scenario.collaborators (Scenario.reply r) in
  let lenient :=
    Scenario.collaborators_reading (Scenario.reply (Some partial, None)) Scenario.lenient in
  let put := PutObjectRetention (Env := after (Some created, None)) c tt "bucket" "object" opts in
  let put206 := PutObjectRetention (Env := lenient) c tt "bucket" "object" opts in
  let put0 := PutObjectRetention (Env := after (None, None)) c tt "bucket" "object" opts in
  let get := GetObjectRetention (Env := after (Some missing, None)) c tt "bucket" "object" "" in
  let got := GetObjectRetention (Env := after (Some found, None)) c tt "bucket" "object" "" in
  let gone :=
    GetObjectRetention (Env := after (Some found, Some refused)) c tt "bucket" "object" "" in
  let set := SetBucketEncryption (Env := after (Some created, None)) c tt "bucket" (Some tt) in
  let del := RemoveBucketEncryption (Env := after (Some created, None)) c tt "bucket" in
  let enc := GetBucketEncryption (Env := after (Some found, None)) c tt "bucket" in
  (requests c put.2 = [(http_MethodPut, Scenario.request put.2)] /\
   put.1 = Returns None) /\
  (requests c put206.2 = [(http_MethodPut, Scenario.request put206.2)] /\
   put206.1 = Returns None) /\
  (requests c put0.2 = [(http_MethodPut, Scenario.request put0.2)] /\
   put0.1 = Returns None) /\
  (requests c get.2 = [(http_MethodGet, Scenario.request get.2)] /\
   get.1 = Returns (None, None, Sample.serviceError missing "bucket" "object")) /\
  (requests c got.2 = [(http_MethodGet, Scenario.request got.2)] /\
   got.1 = Returns (Some Compliance, None, None)) /\
  (requests c gone.2 = [(http_MethodGet, Scenario.request gone.2)] /\
   gone.1 = Returns (None, None, Some refused)) /\
  (requests c set.2 = [(http_MethodPut, Scenario.request set.2)] /\
   set.1 = Returns (Sample.serviceError created "bucket" "")) /\
  (requests c del.2 = [(http_MethodDelete, Scenario.request del.2)] /\
   del.1 = Returns None) /\
  (requests c enc.2 = [(http_MethodGet, Scenario.request enc.2)] /\
   enc.1 = Returns (Some tt, None)).
Proof.
  intros created missing partial found refused opts c after lenient
    put put206 put0 get got gone set del enc.
  assert (requests c put.2 = [(http_MethodPut, Scenario.request put.2)]) as Hput
    by (vm_compute; reflexivity).
  assert (requests c put206.2 = [(http_MethodPut, Scenario.request put206.2)]) as Hput206
    by (vm_compute; reflexivity).
  assert (requests c put0.2 = [(http_MethodPut, Scenario.request put0.2)]) as Hput0
    by (vm_compute; reflexivity).
  assert (requests c get.2 = [(http_MethodGet, Scenario.request get.2)]) as Hget
    by (vm_compute; reflexivity).
  assert (requests c got.2 = [(http_MethodGet, Scenario.request got.2)]) as Hgot
    by (vm_compute; reflexivity).
  assert (requests c gone.2 = [(http_MethodGet, Scenario.request gone.2)]) as Hgone
    by (vm_compute; reflexivity).
  assert (requests c set.2 = [(http_MethodPut, Scenario.request set.2)]) as Hset
    by (vm_compute; reflexivity).
  assert (requests c del.2 = [(http_MethodDelete, Scenario.request del.2)]) as Hdel
    by (vm_compute; reflexivity).
  assert (requests c enc.2 = [(http_MethodGet, Scenario.request enc.2)]) as Henc
    by (vm_compute; reflexivity).
  refine (conj (conj Hput _) (conj (conj Hput206 _) (conj (conj Hput0 _)
         (conj (conj Hget _) (conj (conj Hgot _) (conj (conj Hgone _)
         (conj (conj Hset _) (conj (conj Hdel _) (conj Henc _))))))))).
  - exact (proj1 (response_status_classification (Env := after (Some created, None))
                    c tt "bucket" "object" "" opts None _ (Some created) None 1%nat)
             Hput eq_refl).
  - exact (proj1 (response_status_classification (Env := lenient)
                    c tt "bucket" "object" "" opts None _ (Some partial) None 1%nat)
             Hput206 eq_refl).
  - exact (proj1 (response_status_classification (Env := after (None, None))
                    c tt "bucket" "object" "" opts None _ None None 1%nat)
             Hput0 eq_refl).
  - exact (proj1 (proj2 (response_status_classification
                           (Env := after (Some missing, None))
                           c tt "bucket" "object" "" opts None _ (Some missing) None 1%nat))
             Hget eq_refl).
  - exact (proj1 (proj2 (response_status_classification
                           (Env := after (Some found, None))
                           c tt "bucket" "object" "" opts None _ (Some found) None 1%nat))
             Hgot eq_refl).
  - exact (proj1 (proj2 (response_status_classification
                           (Env := after (Some found, Some refused))
                           c tt "bucket" "object" "" opts None _ (Some found)
                           (Some refused) 1%nat))
             Hgone eq_refl).
  - exact (proj1 (proj2 (proj2 (response_status_classification
                                  (Env := after (Some created, None))
                                  c tt "bucket" "object" "" opts (Some tt) _
                                  (Some created) None 1%nat)))
             Hset eq_refl).
  - exact (proj1 (proj2 (proj2 (proj2 (response_status_classification
                                         (Env := after (Some created, None))
                                         c tt "bucket" "object" "" opts None _
                                         (Some created) None 1%nat))))
             Hdel eq_refl).
  - exact (proj2 (proj2 (proj2 (proj2 (response_status_classification
                                         (Env := after (Some found, None))
                                         c tt "bucket" "object" "" opts None _
                                         (Some found) None 1%nat))))
             Henc eq_refl).
Defined.


(** C10, as stated, fails: where the reading of the response finds no
    error, here at status 206, the call returns a nil mode pointer with a
    nil error. *)
Lemma GetObjectRetention_nil_mode_counterexample :
  let partial := mkResponse 206 "" in
  let Env :=
    Scenario.collaborators_reading (Scenario.reply (Some partial, None))
      Scenario.lenient in
  (GetObjectRetention Sample.client tt "bucket" "object" "").1 =
    Returns (None, None, None) /\
  ~ (forall mode date,
       (GetObjectRetention Sample.client tt "bucket" "object" "").1 =
         Returns (mode, date, None) ->
       mode <> None).
Proof.
  intros partial Env. split; [reflexivity|].
  intros H. exact (H None None eq_refl eq_refl).
Qed.

Lemma GetObjectRetention_mode_pointer_witness :
  let found := mkResponse 200 (Scenario.declaration +:+ "<Retention></Retention>") in
  let partial := mkResponse 206 "" in
  let answered := Scenario.collaborators (Scenario.reply (Some found, None)) in
  let lenient :=
    Scenario.collaborators_reading (Scenario.reply (Some partial, None))
      Scenario.lenient in
  let get := GetObjectRetention (Env := answered) Sample.client tt "bucket" "object" "" in
  let get206 := GetObjectRetention (Env := lenient) Sample.client tt "bucket" "object" "" in
  (requests Sample.client get.2 = [(http_MethodGet, Scenario.request get.2)] /\
   StatusCode found = 200 /\
   xml_Decode (Body found) zeroObjectRetention =
     Ok (mkObjectRetention "" (xml.mkName "" "Retention") "" None) /\
   get.1 = Returns (Some "", None, None)) /\
  (get206.1 = Returns (None, None, None) /\
   exists meta resp,
     requests Sample.client get206.2 = [(http_MethodGet, meta)] /\
     StatusCode resp <> 200 /\
     httpRespToErrorResponse (Collaborators := lenient) resp "bucket" "object" = None).
Proof.
  intros found partial answered lenient get get206.
  assert (requests Sample.client get.2 = [(http_MethodGet, Scenario.request get.2)])
    as Hreq by (vm_compute; reflexivity).
  assert (xml_Decode (Body found) zeroObjectRetention =
          Ok (mkObjectRetention "" (xml.mkName "" "Retention") "" None))
    as Hd by (vm_compute; reflexivity).
  split.
  - split; [exact Hreq|]. split; [reflexivity|]. split; [exact Hd|].
    exact (proj1 (proj1 (GetObjectRetention_mode_pointer (Env := answered)
                           Sample.client tt "bucket" "object" "")
                    _ found 1%nat _ Hreq eq_refl eq_refl Hd)).
  - assert (get206.1 = Returns (None, None, None)) as Hget by reflexivity.
    split; [exact Hget|].
    destruct (proj2 (GetObjectRetention_mode_pointer (Env := lenient)
                       Sample.client tt "bucket" "object" "") None None Hget)
      as (meta & resp & Hr & _ & [[_ (m & Hm & _)] | (Hs & Hh & _)]);
      [discriminate Hm|].
    exists meta, resp. split; [exact Hr|]. split; [exact Hs | exact Hh].
Defined.

(** ** Further theorems at concrete inputs *)

Lemma invalid_name_sends_nothing_witness :
  let Env := Scenario.collaborators (Scenario.reply (Some (mkResponse 200 ""), None)) in
  let opts := mkPutObjectRetentionOptions false (Some Governance) None "" in
  let e := errors_New "name cannot be empty" in
  (CheckValidBucketName "" = Some e /\
   PutObjectRetention Sample.client tt "" "o" opts = (Returns (Some e), Sample.client) /\
   GetBucketEncryption Sample.client tt "" = (Returns (None, Some e), Sample.client)) /\
  (CheckValidBucketName "b" = None /\ CheckValidObjectName "" = Some e /\
   GetObjectRetention Sample.client tt "b" "" "" =
     (Returns (None, None, Some e), Sample.client)).
Proof.
  intros Env opts e. split.
  - split; [reflexivity|].
    pose proof (proj1 (invalid_name_sends_nothing (Env := Env) Sample.client tt
                         "" "o" "" opts None e) eq_refl) as H.
    split; [exact (proj1 H) | exact (proj2 (proj2 (proj2 (proj2 H))))].
  - split; [reflexivity|]. split; [reflexivity|].
    exact (proj2 (proj2 (invalid_name_sends_nothing (Env := Env) Sample.client tt
                           "b" "" "" opts None e) eq_refl eq_refl)).
Defined.

Lemma PutObjectRetention_rejected_options_witness :
  let Env := Scenario.collaborators (Scenario.reply (Some (mkResponse 200 ""), None)) in
  let unknown := mkPutObjectRetentionOptions false (Some "FOO") None "" in
  let late :=
    mkPutObjectRetentionOptions false (Some Governance) (Some Scenario.year10000) "" in
  (CheckValidBucketName "b" = None /\ CheckValidObjectName "o" = None) /\
  (IsValid "FOO" = false /\
   PutObjectRetention Sample.client tt "b" "o" unknown =
     (Returns (Some (fmt_Errorf "invalid retention mode `%v`" (Some "FOO"))),
      Sample.client)) /\
  (~ 0 <= time.Year Scenario.year10000 <= 9999 /\
   PutObjectRetention Sample.client tt "b" "o" late =
     (Returns (Some (errors_New "Time.MarshalText: year outside of range [0,9999]")),
      Sample.client)).
Proof.
  intros Env unknown late. split; [split; reflexivity|]. split.
  - split; [reflexivity|].
    exact (proj1 (PutObjectRetention_rejected_options (Env := Env) Sample.client tt
                    "b" "o" unknown eq_refl eq_refl) "FOO" eq_refl eq_refl).
  - assert (~ 0 <= time.Year Scenario.year10000 <= 9999) as Hy
      by (cbn [time.Year Scenario.year10000]; lia).
    split; [exact Hy|].
    refine (proj2 (PutObjectRetention_rejected_options (Env := Env) Sample.client tt
                     "b" "o" late eq_refl eq_refl) Scenario.year10000 _ eq_refl Hy).
    intros m [= <-]. reflexivity.
Defined.

Lemma PutObjectRetention_sends_iff_witness :
  let Env := Sample.collaborators (mkResponse 200 "") in
  let opts :=
    mkPutObjectRetentionOptions false (Some Governance) (Some Sample.year2030) "" in
  (forall d, opts_RetainUntilDate opts = Some d -> time.valid d = true) /\
  requests Sample.client (PutObjectRetention Sample.client tt "b" "o" opts).2 <> [].
Proof.
  intros Env opts.
  assert (forall d, opts_RetainUntilDate opts = Some d -> time.valid d = true) as Hv
    by (intros d [= <-]; reflexivity).
  split; [exact Hv|].
  apply (proj1 (PutObjectRetention_sends_iff (Env := Env) Sample.client tt "b" "o" opts Hv)).
  split; [reflexivity|]. split; [reflexivity|]. split.
  - intros m [= <-]. reflexivity.
  - intros d [= <-] _. cbn [time.Year Sample.year2030]. lia.
Defined.

Lemma transport_error_returned_witness :
  let e := errors_New "connection refused" in
  let Env := Scenario.collaborators (Scenario.reply (None, Some e)) in
  let opts := mkPutObjectRetentionOptions false (Some Governance) None "" in
  let put := PutObjectRetention Sample.client tt "b" "o" opts in
  let get := GetObjectRetention Sample.client tt "b" "o" "" in
  (requests Sample.client put.2 = [(http_MethodPut, Scenario.request put.2)] /\
   put.1 = Returns (Some e)) /\
  (requests Sample.client get.2 = [(http_MethodGet, Scenario.request get.2)] /\
   get.1 = Returns (None, None, Some e)).
Proof.
  intros e Env opts put get.
  assert (requests Sample.client put.2 = [(http_MethodPut, Scenario.request put.2)])
    as Hput by (vm_compute; reflexivity).
  assert (requests Sample.client get.2 = [(http_MethodGet, Scenario.request get.2)])
    as Hget by (vm_compute; reflexivity).
  split; (split; [assumption|]).
  - exact (proj1 (transport_error_returned (Env := Env) Sample.client tt "b" "o" ""
                    opts None _ None e 1%nat) Hput eq_refl).
  - exact (proj1 (proj2 (transport_error_returned (Env := Env) Sample.client tt "b" "o" ""
                           opts None _ None e 1%nat)) Hget eq_refl).
Defined.

Lemma nil_response_witness :
  let Env := Scenario.collaborators (Scenario.reply (None, None)) in
  let opts := mkPutObjectRetentionOptions false (Some Governance) None "" in
  let put := PutObjectRetention Sample.client tt "b" "o" opts in
  let get := GetObjectRetention Sample.client tt "b" "o" "" in
  let remove := RemoveBucketEncryption Sample.client tt "b" in
  (requests Sample.client put.2 = [(http_MethodPut, Scenario.request put.2)] /\
   put.1 = Returns None) /\
  (requests Sample.client get.2 = [(http_MethodGet, Scenario.request get.2)] /\
   get.1 = Panics) /\
  (requests Sample.client remove.2 = [(http_MethodDelete, Scenario.request remove.2)] /\
   remove.1 = Panics).
Proof.
  intros Env opts put get remove.
  assert (requests Sample.client put.2 = [(http_MethodPut, Scenario.request put.2)])
    as Hput by (vm_compute; reflexivity).
  assert (requests Sample.client get.2 = [(http_MethodGet, Scenario.request get.2)])
    as Hget by (vm_compute; reflexivity).
  assert (requests Sample.client remove.2 =
          [(http_MethodDelete, Scenario.request remove.2)])
    as Hremove by (vm_compute; reflexivity).
  split; [|split]; (split; [assumption|]).
  - exact (proj1 (nil_response (Env := Env) Sample.client tt "b" "o" ""
                    opts None _ 1%nat) Hput eq_refl).
  - exact (proj1 (proj2 (nil_response (Env := Env) Sample.client tt "b" "o" ""
                           opts None _ 1%nat)) Hget eq_refl).
  - exact (proj1 (proj2 (proj2 (proj2 (nil_response (Env := Env) Sample.client tt
                                         "b" "o" "" opts None _ 1%nat))))
             Hremove eq_refl).
Defined.

Lemma PutObjectRetention_payload_witness :
  let Env := Sample.collaborators (mkResponse 200 "") in
  let opts :=
    mkPutObjectRetentionOptions false (Some Governance) (Some Sample.year2030) "" in
  let after := (PutObjectRetention Sample.client tt "b" "o" opts).2 in
  ((forall d, opts_RetainUntilDate opts = Some d -> time.valid d = true) /\
   In (http_MethodPut, Scenario.request after) (requests Sample.client after)) /\
  exists data,
    contentBody (Scenario.request after) = Some data /\
    contentLength (Scenario.request after) = Z.of_nat (String.length data) /\
    data = "<Retention><Mode>GOVERNANCE</Mode><RetainUntilDate>" +:+
           time.appendFormatRFC3339 Sample.year2030 +:+
           "</RetainUntilDate></Retention>" /\
    xml_Decode data zeroObjectRetention =
      Ok (mkObjectRetention "" (xml.mkName "" "Retention") Governance
            (Some Sample.year2030)).
Proof.
  intros Env opts after.
  assert (forall d, opts_RetainUntilDate opts = Some d -> time.valid d = true) as Hv
    by (intros d [= <-]; reflexivity).
  assert (In (http_MethodPut, Scenario.request after) (requests Sample.client after))
    as Hin by (vm_compute; left; reflexivity).
  split; [split; [exact Hv | exact Hin]|].
  destruct (PutObjectRetention_payload (Env := Env) Sample.client tt "b" "o" opts _ _
              Hv Hin) as (data & Hb & Hl & _ & _ & Hd & Hx).
  exists data. split; [exact Hb|]. split; [exact Hl|]. split; [exact Hd | exact Hx].
Defined.

Lemma SetBucketEncryption_request_witness :
  let Env := Sample.collaborators (mkResponse 200 "") in
  let after := (SetBucketEncryption Sample.client tt "b" (Some tt)).2 in
  In (http_MethodPut, Scenario.request after) (requests Sample.client after) /\
  exists buf,
    sse_Marshal tt = Ok buf /\
    Scenario.request after =
      mkRequestMetadata "b" "" {["encryption" := [""]]} (Some buf)
        (Z.of_nat (String.length buf)) (sumMD5Base64 buf) "" ∅.
Proof.
  intros Env after.
  assert (In (http_MethodPut, Scenario.request after) (requests Sample.client after))
    as Hin by (vm_compute; left; reflexivity).
  split; [exact Hin|].
  destruct (SetBucketEncryption_request (Env := Env) Sample.client tt "b" (Some tt) _ _ Hin)
    as (_ & [] & buf & _ & Hm & Hr).
  exists buf. split; [exact Hm | exact Hr].
Defined.

Lemma requests_without_body_witness :
  let Env := Sample.collaborators (mkResponse 200 "<Retention></Retention>") in
  let get := (GetObjectRetention Sample.client tt "b" "o" "").2 in
  let remove := (RemoveBucketEncryption Sample.client tt "b").2 in
  let read := (GetBucketEncryption Sample.client tt "b").2 in
  (In (http_MethodGet, Scenario.request get) (requests Sample.client get) /\
   contentBody (Scenario.request get) = None /\
   contentSHA256Hex (Scenario.request get) = emptySHA256Hex) /\
  (In (http_MethodDelete, Scenario.request remove) (requests Sample.client remove) /\
   Scenario.request remove =
     mkRequestMetadata "b" "" {["encryption" := [""]]} None 0 "" emptySHA256Hex ∅) /\
  (In (http_MethodGet, Scenario.request read) (requests Sample.client read) /\
   Scenario.request read =
     mkRequestMetadata "b" "" {["encryption" := [""]]} None 0 "" "" ∅).
Proof.
  intros Env get remove read.
  assert (In (http_MethodGet, Scenario.request get) (requests Sample.client get))
    as Hget by (vm_compute; left; reflexivity).
  assert (In (http_MethodDelete, Scenario.request remove) (requests Sample.client remove))
    as Hremove by (vm_compute; left; reflexivity).
  assert (In (http_MethodGet, Scenario.request read) (requests Sample.client read))
    as Hread by (vm_compute; left; reflexivity).
  split; [|split]; (split; [assumption|]).
  - destruct (proj1 (requests_without_body (Env := Env) Sample.client tt "b" "o" "" _ _)
                Hget) as (_ & _ & _ & Hb & _ & _ & Hs & _).
    split; [exact Hb | exact Hs].
  - exact (proj2 (proj1 (proj2 (requests_without_body (Env := Env) Sample.client tt
                                  "b" "o" "" _ _)) Hremove)).
  - exact (proj2 (proj2 (proj2 (requests_without_body (Env := Env) Sample.client tt
                                  "b" "o" "" _ _)) Hread)).
Defined.

Lemma results_or_error_witness :
  let missing := mkResponse 404 "" in
  let Env := Scenario.collaborators (Scenario.reply (Some missing, None)) in
  let e := errors_New "service error for bucket/object" in
  (GetObjectRetention Sample.client tt "bucket" "object" "").1 =
    Returns (None, None, Some e) /\
  (GetBucketEncryption Sample.client tt "bucket").1 =
    Returns (None, Some (errors_New "service error for bucket/")) /\
  (Some e <> None -> @None RetentionMode = None /\ @None time.Time = None).
Proof.
  intros missing Env e. split; [reflexivity|]. split; [reflexivity|].
  exact (proj1 (proj1 (results_or_error (Env := Env) Sample.client tt "bucket" "object" "")
                  None None (Some e) eq_refl)).
Defined.

Lemma GetObjectRetention_date_pointer_witness :
  let found :=
    mkResponse 200
      (Scenario.declaration +:+ "<Retention><Mode>COMPLIANCE</Mode></Retention>") in
  let Env := Scenario.collaborators (Scenario.reply (Some found, None)) in
  (GetObjectRetention Sample.client tt "bucket" "object" "").1 =
    Returns (Some Compliance, None, None) /\
  exists meta resp r,
    requests Sample.client (GetObjectRetention Sample.client tt "bucket" "object" "").2 =
      [(http_MethodGet, meta)] /\
    (transport tt http_MethodGet meta (remote Sample.client)).1 = (Some resp, None) /\
    StatusCode resp = 200 /\
    xml_Decode (Body resp) zeroObjectRetention = Ok r /\
    Compliance = Mode r /\ None = RetainUntilDate r.
Proof.
  intros found Env.
  assert ((GetObjectRetention Sample.client tt "bucket" "object" "").1 =
          Returns (Some Compliance, None, None)) as Hget by (vm_compute; reflexivity).
  split; [exact Hget|].
  destruct (GetObjectRetention_date_pointer (Env := Env) Sample.client tt
              "bucket" "object" "" Compliance None None Hget)
    as (_ & meta & resp & r & Hreq & Hans & Hs & Hd & Hm & Hr & _).
  exists meta, resp, r. repeat (split; [assumption|]). exact Hr.
Defined.




Lemma GetObjectRetention_wrong_root_witness :
  let found := mkResponse 200 Scenario.errorBody in
  let Env := Sample.collaborators found in
  let get := GetObjectRetention Sample.client tt "b" "o" "" in
  let name := xml.mkName "" in
  let rest :=
    [xml.StartElement (name "Code") []; xml.CharData "NoSuchKey";
     xml.EndElement (name "Code"); xml.EndElement (name "Error")] in
  (requests Sample.client get.2 = [(http_MethodGet, Scenario.request get.2)] /\
   xml.NewDecoder (Body found) =
     ([] ++ xml.StartElement (name "Error") [] :: rest, xml.AtEOF)) /\
  get.1 =
    Returns (None, None,
             Some (xml_UnmarshalError "expected element type <Retention> but have <Error>")).
Proof.
  intros found Env get name rest.
  assert (requests Sample.client get.2 = [(http_MethodGet, Scenario.request get.2)])
    as Hreq by (vm_compute; reflexivity).
  assert (xml.NewDecoder (Body found) =
          ([] ++ xml.StartElement (name "Error") [] :: rest, xml.AtEOF))
    as Htok by (vm_compute; reflexivity).
  split; [split; assumption|].
  refine (GetObjectRetention_wrong_root (Env := Env) Sample.client tt "b" "o" ""
            _ found 1%nat [] rest (name "Error") [] xml.AtEOF Hreq eq_refl eq_refl Htok _ _).
  - intros n' a' [].
  - discriminate.
Defined.


Lemma retention_roundtrip_xmlns_witness :
  let u := "http://s3.amazonaws.com/doc/2006-03-01/" in
  (xml.forall_bytes plain u = true /\ xml.forall_bytes plain Compliance = true /\
   representable Sample.year2030 = true) /\
  exists data,
    xml_Marshal (Some (mkObjectRetention u (xml.mkName "" "") Compliance
                         (Some Sample.year2030))) = Ok data /\
    xml_Decode data zeroObjectRetention =
      Ok (mkObjectRetention u (xml.mkName u "Retention") Compliance
            (Some Sample.year2030)).
Proof.
  intros u. split; [repeat split|].
  apply (retention_roundtrip_xmlns u Compliance (xml.mkName "" "") (Some Sample.year2030));
    [reflexivity | reflexivity |].
  intros t [= <-]. reflexivity.
Defined.
